(** * wpmm: the package acquisition and installation pipeline

    A shallow embedding of [src/Package.ts] (class [Package]) and of the
    helpers it calls from [utils/fs] ([downloadFile], [extractZip],
    [renameFolder]) and [utils/commands] ([installNpmPackages],
    [installComposer]), followed by the properties of the pipeline.

    JavaScript strings are modelled by [string]; every separator the code
    splits on is an ASCII character, so working on bytes instead of UTF-16
    code units does not change the result of a split or of a comparison. *)

From Stdlib Require Import ZArith Ascii.
From stdpp Require Import gmap strings list fin_maps.

Open Scope Z_scope.

(** ** JavaScript string primitives used by the sources *)

Module Js.

(** [s.split(sep)] for a one-character separator: never empty, an empty
    string splits to one empty segment. *)
Fixpoint split (sep : ascii) (s : string) : list string :=
  match s with
  | EmptyString => [EmptyString]
  | String c rest =>
      if Ascii.eqb c sep then EmptyString :: split sep rest
      else match split sep rest with
           | seg :: segs => String c seg :: segs
           | [] => [String c EmptyString]
           end
  end.

(** [parts.join(sep)]. *)
Definition join (sep : string) (parts : list string) : string :=
  String.concat sep parts.

(** [parts.slice(0, i)]. *)
Definition slice0 (i : nat) (parts : list string) : list string :=
  take i parts.

(** [parts.pop()] on the result of a split, which is never empty. *)
Definition pop (parts : list string) : string := List.last parts EmptyString.

(** Truthiness of a string: only the empty string is falsy. *)
Definition truthy (s : string) : bool := negb (String.eqb s "").

(** Truthiness of an optional string ([undefined] is falsy). *)
Definition truthy_opt (o : option string) : bool :=
  match o with Some s => truthy s | None => false end.

(** [a !== b] where [a] may be [undefined] and [b] is a string. *)
Definition strict_ne (a : option string) (b : string) : bool :=
  match a with Some x => negb (String.eqb x b) | None => true end.

(** Does the string contain the character? *)
Fixpoint contains (c : ascii) (s : string) : bool :=
  match s with
  | EmptyString => false
  | String d rest => Ascii.eqb d c || contains c rest
  end.

End Js.

Definition slash : ascii := "/"%char.
Definition dot : ascii := "."%char.

(** ** utils/fs: the [onEntry] callback of [extractZip]

    [extractZip] keeps one mutable variable, [commonRootPath], initially
    empty, and updates it in the callback that extract-zip calls once per
    archive entry, in archive order. *)

(** The [for] loop of the [else] branch, started at index [i] with the
    entry's segments from [i] on: at the first index where the candidate's
    segment differs from the entry's, the candidate is cut to its first
    [i] segments and the loop breaks. *)
Fixpoint onEntry_loop (commonRootPath : string) (i : nat)
    (entryPathParts : list string) : string :=
  match entryPathParts with
  | [] => commonRootPath
  | part :: rest =>
      if Js.strict_ne (Js.split slash commonRootPath !! i) part
      then Js.join "/" (Js.slice0 i (Js.split slash commonRootPath))
      else onEntry_loop commonRootPath (S i) rest
  end.

(** One call of [onEntry]: the new value of [commonRootPath]. *)
Definition onEntry (commonRootPath fileName : string) : string :=
  let entryPathParts := Js.split slash fileName in
  if negb (Js.truthy commonRootPath)
  then List.hd EmptyString entryPathParts
  else onEntry_loop commonRootPath 0 entryPathParts.

(** The value of [commonRootPath] after all entries were visited. *)
Definition commonRoot (fileNames : list string) : string :=
  fold_left onEntry fileNames EmptyString.

(** What the callback amounts to once the candidate is known to hold no
    separator: keep it when the entry's top segment is the same, drop it
    otherwise, and start again from the entry's top segment when it is
    empty. *)
Definition top (fileName : string) : string :=
  List.hd EmptyString (Js.split slash fileName).

Definition step_top (root fileName : string) : string :=
  if String.eqb root "" then top fileName
  else if String.eqb root (top fileName) then root else "".


(** ** The platform: paths, file system, network, subprocesses

    Node's [fs], [path], [https] and [child_process] modules and the
    extract-zip package are the platform the sources run on.  They are
    modelled by a small file system, a log of the effects the code
    performs, and an environment that answers for the outside world. *)

(** A path as the file system sees it: the non-empty segments of the path
    string.  This is what Node's normalisation of doubled and trailing
    separators amounts to; [.] and [..] segments are not interpreted and
    all paths are read from one root. *)
Definition segs (p : string) : list string :=
  filter (λ s, s ≠ EmptyString) (Js.split slash p).

(** [path.join(a, b)]: empty arguments are skipped. *)
Definition path_join (a b : string) : string :=
  if String.eqb b "" then a
  else if String.eqb a "" then b
  else a +:+ "/" +:+ b.

(** One archive entry (or one file of a repository tree): its path inside
    the archive and its bytes.  A name that ends with a separator is a
    directory entry.  The bytes of an entry are plain bytes: an archive
    packed inside an archive is not looked into. *)
Record entry := Entry { fileName : string; data : string }.

(** The bytes of a file: either they decode as a zip archive with the
    given entries, or they are something else. *)
Inductive content :=
| Archive (entries : list entry)
| Bytes (s : string).

Inductive node :=
| File (c : content)
| Dir.

(** What the server answers to a GET. *)
Inductive reply :=
| Response (statusCode : option Z) (statusMessage : string)
           (location : option string) (body : content)
| NetworkError (message : string).

(** Console output, by the call that prints it; the wording of the
    messages is left out. *)
Inductive message :=
| MsgFileExists (targetFile : string)
| MsgExtracted
| MsgDownloading (zipFileName zipFilePath downloadUrl : string)
| MsgDownloadCompleted (zipFileName : string)
| MsgCloneFailed (error : string)
| MsgFolderExists (pkgFolder : string)
| MsgInstalledIn (name packageUrl : string)
| MsgErrorDownloading (name error : string)
| MsgTypeInstalled (packageType name : string)
| MsgNpmInstalling (packageName : string)
| MsgNpmBuilt (packageName : string)
| MsgFoundComposer.

(** The effects a run performs, oldest first. *)
Inductive event :=
| Request (url : string)
| WriteFile (targetFile : string)
| Extract (zipFilePath targetDirectory : string)
| Rename (oldPath newPath : string)
| Exec (command : string) (cwd : option string)
| Console (m : message)
| ConsoleError (m : message).

Record state := State {
  files : gmap (list string) node;
  trace : list event
}.

(** The outside world, which answers the same question the same way
    during a run, and the one helper of the repository that is not among
    the sources ([getDownloadUrl] of utils/data, taken as a parameter).
    - [https_get url]: the answer to a GET of [url];
    - [git_tree url]: the tree a clone of [url] checks out, if the clone
      succeeds;
    - [exit_code command cwd]: the exit status of a shell command run in
      [cwd];
    - [package_json_name text]: the [name] field of a package.json with
      this text, as the log template prints it, if the text parses. *)
Record Env := {
  https_get : string → reply;
  git_tree : string → option (list entry);
  exit_code : string → string → Z;
  package_json_name : string → option string;
  getDownloadUrl : string → option string → string → string
}.

(** How a promise (or a synchronous call) ends.  [Unsettled]: neither
    [resolve] nor [reject] is ever called, the error escaped into the
    event loop.  [OutOfFuel] belongs to the model only: the recursion
    budget given to the run was used up. *)
Inductive outcome (A : Type) :=
| Resolved (a : A)
| Rejected (error : string)
| Unsettled
| OutOfFuel.
Arguments Resolved {A} a.
Arguments Rejected {A} error.
Arguments Unsettled {A}.
Arguments OutOfFuel {A}.

Definition M (A : Type) : Type := state → outcome A * state.

Definition resolve {A} (a : A) : M A := λ s, (Resolved a, s).
Definition reject {A} (error : string) : M A := λ s, (Rejected error, s).
Definition bind {A B} (m : M A) (k : A → M B) : M B :=
  λ s, match m s with
       | (Resolved a, s') => k a s'
       | (Rejected e, s') => (Rejected e, s')
       | (Unsettled, s') => (Unsettled, s')
       | (OutOfFuel, s') => (OutOfFuel, s')
       end.

(** [try { body } catch (error) { handler }]. *)
Definition try_catch {A} (body : M A) (handler : string → M A) : M A :=
  λ s, match body s with
       | (Rejected e, s') => handler e s'
       | r => r
       end.

#[global] Instance M_ret : MRet M := @resolve.
#[global] Instance M_bind : MBind M := λ A B k m, bind m k.

Definition emit (e : event) : M unit :=
  λ s, (Resolved tt, State (files s) (trace s ++ [e])).
Definition console_log (m : message) : M unit := emit (Console m).
Definition console_error (m : message) : M unit := emit (ConsoleError m).
Definition get_files : M (gmap (list string) node) := λ s, (Resolved (files s), s).
Definition set_files (fs : gmap (list string) node) : M unit :=
  λ s, (Resolved tt, State fs (trace s)).

(** *** File system operations *)

(** The root always exists. *)
Definition lookup_path (fs : gmap (list string) node) (p : list string) : option node :=
  match p with [] => Some Dir | _ => fs !! p end.

(** [fs.existsSync]. *)
Definition existsSync (fs : gmap (list string) node) (p : string) : bool :=
  bool_decide (is_Some (lookup_path fs (segs p))).

(** The non-empty prefixes of a path, shortest first. *)
Fixpoint ancestors (p : list string) : list (list string) :=
  match p with
  | [] => []
  | x :: rest => [x] :: map (cons x) (ancestors rest)
  end.

(** [mkdir] of one directory unless something is there already. *)
Definition mkdir1 (acc : gmap (list string) node) (q : list string)
    : gmap (list string) node :=
  match acc !! q with Some _ => acc | None => <[q := Dir]> acc end.

(** [mkdir -p]: every missing directory on the way is created. *)
Definition mkdirp (p : list string) (fs : gmap (list string) node) : gmap (list string) node :=
  fold_left mkdir1 (ancestors p) fs.

(** Writing one entry below [dir], as extract-zip (and a checkout) does. *)
Definition write_entry (dir : list string) (fs : gmap (list string) node) (e : entry)
    : gmap (list string) node :=
  let dest := dir ++ segs (fileName e) in
  if String.eqb (Js.pop (Js.split slash (fileName e))) ""
  then mkdirp dest fs
  else <[dest := File (Bytes (data e))]> (mkdirp (removelast dest) fs).

Definition unpack (dir : list string) (entries : list entry)
    (fs : gmap (list string) node) : gmap (list string) node :=
  fold_left (write_entry dir) entries (mkdirp dir fs).

(** *** The entries extract-zip acts on

    extract-zip reads the archive with yauzl, one entry after the other.
    yauzl refuses an entry whose name (backslashes already turned into
    separators) is an absolute path or has a [..] segment: the extraction
    ends there with an error, after the entries before it were written.
    extract-zip itself passes over the entries below [__MACOSX/]: they
    are not written and [onEntry] is not called for them.  Symbolic
    links, which [node] does not have, are left out, and with them the
    check extract-zip makes of the real path of each directory. *)

Definition is_letter (c : ascii) : bool :=
  let n := Ascii.N_of_ascii c in
  ((65 <=? n) && (n <=? 90) || (97 <=? n) && (n <=? 122))%N.

(** [/^[a-zA-Z]:/.test(fileName) || /^\//.test(fileName)]. *)
Definition absolute_name (fileName : string) : bool :=
  match fileName with
  | String c rest =>
      Ascii.eqb c slash
      || is_letter c && match rest with
                        | String d _ => Ascii.eqb d ":"%char
                        | EmptyString => false
                        end
  | EmptyString => false
  end.

(** [fileName.split("/").indexOf("..") !== -1]. *)
Definition relative_escape (fileName : string) : bool :=
  existsb (String.eqb "..") (Js.split slash fileName).

(** The names yauzl refuses. *)
Definition bad_name (fileName : string) : bool :=
  absolute_name fileName || relative_escape fileName.

(** [entry.fileName.startsWith('__MACOSX/')]. *)
Definition macosx (fileName : string) : bool :=
  String.prefix "__MACOSX/" fileName.

(** The entries that are written and handed to [onEntry], in archive
    order: those read before the first refused name that are not below
    [__MACOSX/]. *)
Fixpoint visited (entries : list entry) : list entry :=
  match entries with
  | [] => []
  | e :: rest =>
      if bad_name (fileName e) then []
      else if macosx (fileName e) then visited rest
      else e :: visited rest
  end.

(** Does the archive hold a name that yauzl refuses? *)
Definition refused (entries : list entry) : bool :=
  existsb (λ e, bad_name (fileName e)) entries.

(** Where a path lands when [o] is moved to [n]. *)
Definition rekey (o n k : list string) : list string :=
  if bool_decide (o `prefix_of` k) then n ++ drop (length o) k else k.

(** [fs.renameSync]: throws when the source is missing, when the parent of
    the target is not a directory, and when the target lies below the
    source; a target that exists is modelled as an error as well (the one
    caller has checked that it is absent).  Otherwise the source and all
    that is below it move. *)
Definition renameSync (oldPath newPath : string) (fs : gmap (list string) node)
    : option (gmap (list string) node) :=
  let o := segs oldPath in
  let n := segs newPath in
  match lookup_path fs o, lookup_path fs (removelast n), lookup_path fs n with
  | Some _, Some Dir, None =>
      if bool_decide (o `prefix_of` n) then None
      else Some (list_to_map (prod_map (rekey o n) id <$> map_to_list fs))
  | _, _, _ => None
  end.

(** ** utils/fs and utils/commands *)

(** The records of types.ts, as far as the pipeline reads them. *)
Record WPMMconfigPkg := {
  name : string;
  version : option string;
  source : option string
}.

Module WPMMpaths.
Record t := {
  tempDir : string;
  pluginsFolder : string;
  themeFolder : string;
  baseFolder : string
}.
End WPMMpaths.

(** The fields of an instance of class [Package]. *)
Record Package := {
  pkgInfo : WPMMconfigPkg;
  packageType : string;
  tempDir : string;
  destFolder : string
}.

Section Pipeline.

Context (env : Env).

(** [fs.createWriteStream(targetFile)] fed by [response.pipe]: the
    promise is resolved from the stream's [finish] event.  When the
    directory of the target is missing the stream emits an error nobody
    listens to, and the promise is never settled.  The body of a
    [Response] is one that arrives whole: a connection that breaks off
    while the body is read (which leaves a part of it in the target file
    and the promise unsettled) is not among the replies of [Env]. *)
Definition pipe_to_file (targetFile : string) (body : content) : M unit :=
  λ s, match lookup_path (files s) (removelast (segs targetFile)) with
       | Some Dir =>
           (Resolved tt,
            State (<[segs targetFile := File body]> (files s))
                  (trace s ++ [WriteFile targetFile]))
       | _ => (Unsettled, s)
       end.

(** [resolve(await downloadFile(...))] inside the response callback: a
    rejection of the inner call is thrown inside the callback, whose
    promise nobody awaits, so that the outer promise is never settled. *)
Definition await_in_callback (inner : M unit) : M unit :=
  λ s, match inner s with
       | (Rejected _, s') => (Unsettled, s')
       | r => r
       end.

(** [downloadFile]; [fuel] bounds the number of nested invocations. *)
Fixpoint downloadFile (fuel : nat) (url targetFile : string) : M unit :=
  match fuel with
  | O => λ s, (OutOfFuel, s)
  | S fuel' =>
      fs ← get_files;
      if existsSync fs targetFile
      then console_log (MsgFileExists targetFile)
      else
        try_catch
          (emit (Request url);;
           match https_get env url with
           | NetworkError error => reject error
           | Response statusCode statusMessage location body =>
               let code := default 0 statusCode in
               if code >=? 400 then reject statusMessage
               else if (300 <? code) && (code <? 400) && Js.truthy_opt location
               then await_in_callback
                      (downloadFile fuel' (default EmptyString location) targetFile)
               else pipe_to_file targetFile body
           end)
          (λ err, reject ("new Error Error: " +:+ err))
  end.

(** [extractZip]: extract-zip goes through the entries in archive order,
    calling [onEntry] on each entry it acts on and writing it below the
    target directory; bytes that are no archive, and an entry with a
    refused name, make it reject. *)
Definition extractZip (zipFilePath targetDirectory : string) : M string :=
  emit (Extract zipFilePath targetDirectory);;
  fs ← get_files;
  match lookup_path fs (segs zipFilePath) with
  | Some (File (Archive entries)) =>
      set_files (unpack (segs targetDirectory) (visited entries) fs);;
      if refused entries
      then reject ("Error extracting " +:+ zipFilePath +:+ " zip")
      else
        console_log MsgExtracted;;
        mret (commonRoot (fileName <$> visited entries))
  | _ => reject ("Error extracting " +:+ zipFilePath +:+ " zip")
  end.

(** [renameFolder]. *)
Definition renameFolder (oldPath newPath : string) : M unit :=
  emit (Rename oldPath newPath);;
  fs ← get_files;
  match renameSync oldPath newPath fs with
  | Some fs' => set_files fs'
  | None => reject ("rename " +:+ oldPath +:+ " -> " +:+ newPath)
  end.

(** [exec(command, { cwd }, callback)] awaited through a promise: the
    callback gets an error when the command exits with a status other
    than zero.  What build tools write is not modelled: the files of a
    state are those the sources themselves, the extractor and the
    checkout have written. *)
Definition exec_await (command cwd : string) : M unit :=
  emit (Exec command (Some cwd));;
  if exit_code env command cwd =? 0 then mret tt
  else reject ("Command failed: " +:+ command).

(** [JSON.parse(fs.readFileSync(packageJsonPath, "utf8")).name]. *)
Definition read_package_name (packageJsonPath : string) : M string :=
  fs ← get_files;
  match lookup_path fs (segs packageJsonPath) with
  | Some (File (Bytes text)) =>
      match package_json_name env text with
      | Some packageName => mret packageName
      | None => reject "SyntaxError"
      end
  | Some (File (Archive _)) => reject "SyntaxError"
  | Some Dir => reject "EISDIR"
  | None => reject "ENOENT"
  end.

(** [installNpmPackages]. *)
Definition installNpmPackages (packageDirectory : string) : M unit :=
  let packageJsonPath := path_join packageDirectory "package.json" in
  fs ← get_files;
  if negb (existsSync fs packageJsonPath) then mret tt
  else
    packageName ← read_package_name packageJsonPath;
    console_log (MsgNpmInstalling packageName);;
    let packageLockPath := path_join packageDirectory "package-lock.json" in
    let command :=
      if existsSync fs packageLockPath then "npm ci && npm run build"
      else "npm i && npm run build" in
    exec_await command packageDirectory;;
    console_log (MsgNpmBuilt packageName).

(** [installComposer]: both commands are started and not waited for. *)
Definition installComposer (repoPath : string) : M unit :=
  console_log MsgFoundComposer;;
  emit (Exec "composer install --no-dev" (Some repoPath));;
  emit (Exec "composer dumpautoload -o" (Some repoPath)).

(** ** src/Package.ts *)

(** [getDestFolder]. *)
Definition getDestFolder (paths : WPMMpaths.t) (packageType : string) : string :=
  if String.eqb packageType "plugin" then WPMMpaths.pluginsFolder paths
  else if String.eqb packageType "theme" then WPMMpaths.themeFolder paths
  else WPMMpaths.baseFolder paths.

(** The constructor. *)
Definition new_Package (pkgConfig : WPMMconfigPkg) (packageType : string)
    (paths : WPMMpaths.t) : Package :=
  {| pkgInfo := pkgConfig;
     packageType := packageType;
     tempDir := WPMMpaths.tempDir paths;
     destFolder := getDestFolder paths packageType |}.

(** [execDownload]. *)
Definition execDownload (fuel : nat) (this : Package)
    (filename downloadUrl : string) : M string :=
  let zipFilePath := path_join (tempDir this) filename in
  let zipFileName := Js.pop (Js.split slash downloadUrl) in
  console_log (MsgDownloading zipFileName zipFilePath downloadUrl);;
  downloadFile fuel downloadUrl zipFilePath;;
  console_log (MsgDownloadCompleted zipFileName);;
  extractZip zipFilePath (tempDir this).

(** [cloneRepo]: a checkout that succeeds creates the target directory
    with the repository's tree in it. *)
Definition cloneRepo (this : Package) (packageUrl : string) : M string :=
  let target := destFolder this +:+ "/" +:+ name (pkgInfo this) in
  let command := "git clone " +:+ packageUrl +:+ " " +:+ target in
  emit (Exec command None);;
  match git_tree env packageUrl with
  | Some tree =>
      fs ← get_files;
      set_files (unpack (segs target) tree fs);;
      mret (name (pkgInfo this))
  | None =>
      console_log (MsgCloneFailed ("Command failed: " +:+ command));;
      reject ("Command failed: " +:+ command)
  end.

(** [downloadPackage], lines 144-154: the package is cloned, or
    downloaded, unpacked and moved into place. *)
Definition acquire (fuel : nat) (this : Package) (packageUrl pkgFolder : string)
    : M unit :=
  if String.eqb (Js.pop (Js.split dot packageUrl)) "git"
  then cloneRepo this packageUrl;; mret tt
  else
    extractedPath ← execDownload fuel this
                      (name (pkgInfo this) +:+ ".zip") packageUrl;
    renameFolder (path_join (tempDir this) extractedPath) pkgFolder.

(** [downloadPackage], lines 160-166: the build steps. *)
Definition postInstall (packageUrl pkgFolder : string) : M unit :=
  if Js.truthy packageUrl
  then installNpmPackages pkgFolder;; installComposer pkgFolder
  else mret tt.

(** [downloadPackage]: the whole body is inside [try], the handler prints
    the error and the function returns normally. *)
Definition downloadPackage (fuel : nat) (this : Package) (packageUrl : string)
    : M unit :=
  try_catch
    (let pkgFolder := path_join (destFolder this) (name (pkgInfo this)) in
     fs ← get_files;
     if existsSync fs pkgFolder then console_log (MsgFolderExists pkgFolder)
     else
       acquire fuel this packageUrl pkgFolder;;
       console_log (MsgInstalledIn (name (pkgInfo this)) packageUrl);;
       postInstall packageUrl pkgFolder)
    (λ error, console_error (MsgErrorDownloading (name (pkgInfo this)) error)).

(** [source || getDownloadUrl(name, version, this.packageType)]. *)
Definition packageUrl_of (this : Package) : string :=
  if Js.truthy_opt (source (pkgInfo this))
  then default EmptyString (source (pkgInfo this))
  else getDownloadUrl env (name (pkgInfo this)) (version (pkgInfo this))
                      (packageType this).

(** [install]. *)
Definition install (fuel : nat) (this : Package) : M unit :=
  downloadPackage fuel this (packageUrl_of this);;
  console_log (MsgTypeInstalled (packageType this) (name (pkgInfo this))).

End Pipeline.

(** The folder a package is installed in. *)
Definition pkgFolder_of (this : Package) : string :=
  path_join (destFolder this) (name (pkgInfo this)).

(** The command [installNpmPackages] runs in a package directory. *)
Definition npm_command (fs : gmap (list string) node) (packageDirectory : string)
    : string :=
  if existsSync fs (path_join packageDirectory "package-lock.json")
  then "npm ci && npm run build" else "npm i && npm run build".


(** The [catch] clause of [downloadPackage]. *)
Definition report (this : Package) (error : string) : M unit :=
  console_error (MsgErrorDownloading (name (pkgInfo this)) error).

(** ** Running the same call again *)

(** Two runs that end the same way with the same files; the traces may
    differ. *)
Definition same_files {A} (r1 r2 : outcome A * state) : Prop :=
  fst r1 = fst r2 ∧ files (snd r1) = files (snd r2).

(** A computation whose outcome and files depend on the files it starts
    from only, not on the trace. *)
Definition stable {A} (m : M A) : Prop :=
  ∀ s1 s2, files s1 = files s2 → same_files (m s1) (m s2).

(** What an extraction does to one path: nothing, a file in its place, or
    a directory unless something is there. *)
Definition non_archive (v : node) : Prop :=
  match v with File (Archive _) => False | _ => True end.

Inductive local_update (g : option node → option node) : Prop :=
| lu_keep : (∀ o, g o = o) → local_update g
| lu_put (v : node) : non_archive v → (∀ o, g o = Some v) → local_update g
| lu_mkdir : (∀ o, g o = Some (default Dir o)) → local_update g.

(** A change of the file system that treats every path by itself. *)
Definition pointwise (T : gmap (list string) node → gmap (list string) node) : Prop :=
  ∀ k, ∃ g, local_update g ∧ ∀ fs, T fs !! k = g (fs !! k).

(** ** Redirect chains *)

(** The target the code follows a reply to, if it follows it. *)
Definition redirect_target (r : reply) : option string :=
  match r with
  | Response statusCode _ (Some loc) _ =>
      let code := default 0 statusCode in
      if (code <? 400) && (300 <? code) && Js.truthy loc then Some loc else None
  | _ => None
  end.

(** [urls] redirect one to the next and the last of them to [final], which
    answers 200 with [body]. *)
Fixpoint redirect_chain (env : Env) (urls : list string) (final : string)
    (body : content) : Prop :=
  match urls with
  | [] => https_get env final = Response (Some 200) "OK" None body
  | u :: rest =>
      redirect_target (https_get env u) = Some (List.hd final rest)
      ∧ redirect_chain env rest final body
  end.

(** A bound on redirects, as a property of [downloadFile]: every chain of
    more than [bound] redirects makes the download end with an error. *)
Definition bounded_redirects (bound : nat) : Prop :=
  ∀ (env : Env) (urls : list string) (final : string) (body : content)
    (targetFile : string) (s : state),
    redirect_chain env urls final body →
    (bound < length urls)%nat →
    existsSync (files s) targetFile = false →
    lookup_path (files s) (removelast (segs targetFile)) = Some Dir →
    ∃ fuel error,
      fst (downloadFile env fuel (List.hd final urls) targetFile s) = Rejected error.

(** ** Concrete worlds *)

Module Demo.

Definition paths : WPMMpaths.t :=
  {| WPMMpaths.tempDir := "/site/temp";
     WPMMpaths.pluginsFolder := "/site/wp-content/plugins";
     WPMMpaths.themeFolder := "/site/wp-content/themes";
     WPMMpaths.baseFolder := "/site" |}.

(** A site whose staging and plugin directories exist and are empty. *)
Definition site : state :=
  State (mkdirp (segs "/site/temp") (mkdirp (segs "/site/wp-content/plugins") ∅)) [].

(** A server given by a table of URLs; anything else is a 404. *)
Fixpoint serve (table : list (string * reply)) (url : string) : reply :=
  match table with
  | [] => Response (Some 404) "Not Found" None (Bytes "")
  | (u, r) :: rest => if String.eqb u url then r else serve rest url
  end.

Definition world (table : list (string * reply)) (npm_status : Z) : Env :=
  {| https_get := serve table;
     git_tree := λ _, None;
     exit_code := λ _ _, npm_status;
     package_json_name := λ _, Some "demo";
     getDownloadUrl := λ name version packageType,
       "https://downloads.example.test/" +:+ packageType +:+ "/" +:+ name
         +:+ "." +:+ default "latest" version +:+ ".zip" |}.

Definition ok (body : content) : reply := Response (Some 200) "OK" None body.

(** A plugin named [demo] with an explicit source. *)
Definition plugin (url : string) : Package :=
  new_Package {| name := "demo"; version := None; source := Some url |}
              "plugin" paths.

Definition zip_url : string := "https://example.test/demo.zip".

Definition real_url : string := "https://example.test/real.zip".
Definition zip_file : string := "/site/temp/demo.zip".

(** The archive URL answers 301 and points to the real archive. *)
Definition moved : Env :=
  world [(zip_url, Response (Some 301) "Moved Permanently" (Some real_url) (Bytes ""));
         (real_url, ok (Bytes "real"))] 0.

(** The archive URL answers 300 and points to the real archive. *)
Definition multiple_choices : Env :=
  world [(zip_url, Response (Some 300) "Multiple Choices" (Some real_url)
                            (Bytes "choices"));
         (real_url, ok (Bytes "real"))] 0.

(** An archive with one top-level directory and no manifest at all. *)
Definition plain : Env :=
  world [(zip_url, ok (Archive [Entry "demo-1.0/" "";
                                Entry "demo-1.0/demo.php" "<?php";
                                Entry "demo-1.0/readme.txt" "demo"]))] 0.


(** An archive whose two entries share no top-level directory. *)
Definition two_roots : Env :=
  world [(zip_url, ok (Archive [Entry "a/x" "1"; Entry "b/y" "2"]))] 0.

(** The archive URL answers with bytes that are no archive. *)
Definition garbage : Env := world [(zip_url, ok (Bytes "not a zip"))] 0.

(** A site whose plugin directory is missing. *)
Definition no_plugins : state := State (mkdirp (segs "/site/temp") ∅) [].

Definition demo_folder : string := "/site/wp-content/plugins/demo".

(** A server that knows no URL. *)
Definition nothing_there : Env := world [] 0.

(** The site with an archive already downloaded for the plugin. *)
Definition staged (entries : list entry) : state :=
  State (<[segs "/site/temp/demo.zip" := File (Archive entries)]> (files site)) [].

(** A server with [n] redirects in a row from the URL [hop_start] on: a
    URL of the site that is less than [n] characters longer than
    [hop_start] redirects to itself with one more character at its end,
    a longer one answers with the payload.  What is no https URL gets no
    answer at all. *)
Definition hop_start : string := "https://example.test/hop".

Definition hop (n : nat) (url : string) : reply :=
  if negb (String.prefix "https://example.test/" url)
  then NetworkError "Invalid URL"
  else if (String.length url <? String.length hop_start + n)%nat
  then Response (Some 302) "Found" (Some (url +:+ "r")) (Bytes "")
  else ok (Bytes "payload").

Definition hops (n : nat) : Env :=
  {| https_get := hop n;
     git_tree := λ _, None;
     exit_code := λ _ _, 0;
     package_json_name := λ _, None;
     getDownloadUrl := λ _ _ _, "" |}.

(** [k] URLs in a row from [url] on, and the one after them. *)
Fixpoint hop_urls (k : nat) (url : string) : list string :=
  match k with
  | O => []
  | S k' => url :: hop_urls k' (url +:+ "r")
  end.

Fixpoint hop_final (k : nat) (url : string) : string :=
  match k with
  | O => url
  | S k' => hop_final k' (url +:+ "r")
  end.

End Demo.

(** * The rest of the sources

    What follows models the functions of the same files that the pipeline
    above does not call ([makeDir] and [cleanup] of utils/fs,
    [runPostInstallCommands] of utils/commands) and class [Database]. *)

(** The test [downloadPackage] makes for a version-control source:
    [packageUrl.split('.').pop() === 'git']. *)
Definition is_git (packageUrl : string) : bool :=
  String.eqb (Js.pop (Js.split dot packageUrl)) "git".

(** The effects of the transport, of the extractor and of the placement. *)
Definition transport_event (e : event) : bool :=
  match e with
  | Request _ | WriteFile _ | Extract _ _ | Rename _ _ => true
  | _ => false
  end.

Definition exec_event (e : event) : bool :=
  match e with Exec _ _ => true | _ => false end.

(** [s.replace(c, by)] with a one-character string pattern: only the first
    occurrence is replaced. *)
Fixpoint js_replace_first (c : ascii) (by_ : string) (s : string) : string :=
  match s with
  | EmptyString => EmptyString
  | String d rest =>
      if Ascii.eqb d c then by_ +:+ rest else String d (js_replace_first c by_ rest)
  end.

(** [s.trim() === ""] on the UTF-8 bytes of [s]: the string consists of
    WhiteSpace and LineTerminator code points only (TAB, LF, VT, FF, CR,
    SP, U+00A0, U+1680, U+2000..U+200A, U+2028, U+2029, U+202F, U+205F,
    U+3000, U+FEFF). *)
Fixpoint blank_bytes (l : list N) : bool :=
  match l with
  | [] => true
  | a :: l1 =>
      if (a =? 9)%N || (a =? 10)%N || (a =? 11)%N || (a =? 12)%N || (a =? 13)%N
         || (a =? 32)%N
      then blank_bytes l1
      else
        match l1 with
        | [] => false
        | b :: l2 =>
            if (a =? 194)%N && (b =? 160)%N then blank_bytes l2
            else
              match l2 with
              | [] => false
              | c :: l3 =>
                  if ((a =? 225)%N && (b =? 154)%N && (c =? 128)%N)
                     || ((a =? 226)%N && (b =? 128)%N
                         && (((128 <=? c)%N && (c <=? 138)%N)
                             || (c =? 168)%N || (c =? 169)%N || (c =? 175)%N))
                     || ((a =? 226)%N && (b =? 129)%N && (c =? 159)%N)
                     || ((a =? 227)%N && (b =? 128)%N && (c =? 128)%N)
                     || ((a =? 239)%N && (b =? 187)%N && (c =? 191)%N)
                  then blank_bytes l3
                  else false
              end
        end
  end.

Definition js_blank (s : string) : bool :=
  blank_bytes (map N_of_ascii (String.list_ascii_of_string s)).

(** ** A second record of effects

    The functions below print lines and start processes that the pipeline
    never does; they run on the same file system with a journal of their
    own. *)

Inductive note :=
| NoteRemoved (dir : string)
| NoteError (error : string)
| NoteExecuting (command : string)
| NoteCommandOutput
| NoteCommandError
| NoteExecFailed (command error : string)
| NoteUploading
| NoteUploaded
| NoteConnectionClosed
| NoteCloseError (message : string)
| NoteDirectoryCreated (dumpPath : string)
| NoteDumping (dumpFile : string)
| NoteLocalhostWarning
| NoteDumped (dumpFile : string)
| NoteDumpResult
| NoteDumpError (message : string).

Inductive action :=
| Print (n : note)
| PrintError (n : note)
| Spawn (command : string)
| Connect
| Query (sql : string)
| EndConnection
| Mysqldump (dumpFile : string).

Record sys := Sys {
  disk : gmap (list string) node;
  journal : list action
}.

Definition N (A : Type) : Type := sys → outcome A * sys.

Definition resolveN {A} (a : A) : N A := λ s, (Resolved a, s).
Definition rejectN {A} (error : string) : N A := λ s, (Rejected error, s).
Definition bindN {A B} (m : N A) (k : A → N B) : N B :=
  λ s, match m s with
       | (Resolved a, s') => k a s'
       | (Rejected e, s') => (Rejected e, s')
       | (Unsettled, s') => (Unsettled, s')
       | (OutOfFuel, s') => (OutOfFuel, s')
       end.
Definition try_catchN {A} (body : N A) (handler : string → N A) : N A :=
  λ s, match body s with
       | (Rejected e, s') => handler e s'
       | r => r
       end.

#[global] Instance N_ret : MRet N := @resolveN.
#[global] Instance N_bind : MBind N := λ A B k m, bindN m k.

Definition act (a : action) : N unit :=
  λ s, (Resolved tt, Sys (disk s) (journal s ++ [a])).
Definition print (n : note) : N unit := act (Print n).
Definition print_error (n : note) : N unit := act (PrintError n).
Definition get_disk : N (gmap (list string) node) := λ s, (Resolved (disk s), s).
Definition set_disk (fs : gmap (list string) node) : N unit :=
  λ s, (Resolved tt, Sys fs (journal s)).

(** The commands started so far, oldest first. *)
Definition spawned (j : list action) : list string :=
  omap (λ a, match a with Spawn command => Some command | _ => None end) j.

(** The statements sent to the database so far, oldest first. *)
Definition queried (j : list action) : list string :=
  omap (λ a, match a with Query sql => Some sql | _ => None end) j.

(** [fs.mkdirSync(p, { recursive: true })]: throws when a file is in the
    way, creates what is missing otherwise. *)
Definition mkdirSync_recursive (p : string) (fs : gmap (list string) node)
    : option (gmap (list string) node) :=
  if forallb (λ q, match fs !! q with Some (File _) => false | _ => true end)
             (ancestors (segs p))
  then Some (mkdirp (segs p) fs) else None.

(** [fs.rmSync(p, { recursive: true })]: throws when nothing is at [p]
    (and for the root); removes [p] and all that is below it. *)
Definition rmSync_recursive (p : string) (fs : gmap (list string) node)
    : option (gmap (list string) node) :=
  match segs p with
  | [] => None
  | _ =>
      match fs !! segs p with
      | None => None
      | Some _ => Some (filter (λ kv, ¬ (segs p `prefix_of` kv.1)) fs)
      end
  end.

(** Every path that exists lies in directories that exist. *)
Definition tree_closed (fs : gmap (list string) node) : Prop :=
  ∀ k q, is_Some (fs !! k) → q ≠ [] → q `prefix_of` k → q ≠ k → fs !! q = Some Dir.

(** ** utils/fs: [makeDir] and [cleanup] *)

(** [makeDir]. *)
Definition makeDir (dirpath : string) : N unit :=
  fs ← get_disk;
  if negb (existsSync fs dirpath)
  then match mkdirSync_recursive dirpath fs with
       | Some fs' => set_disk fs'
       | None => rejectN "ENOTDIR"
       end
  else mret tt.

(** [cleanup]. *)
Definition cleanup (dir : string) : N unit :=
  try_catchN
    (fs ← get_disk;
     match rmSync_recursive dir fs with
     | Some fs' => set_disk fs';; print (NoteRemoved dir)
     | None => rejectN "ENOENT"
     end)
    (λ err, print_error (NoteError err)).

(** ** utils/commands: [runPostInstallCommands]

    [exec(command)] without callback.  Node checks the command before it
    starts a shell and throws at once for the empty command;
    [start_error] says what else it refuses at once (a command with a
    NUL character, where Node checks for it).  A command that is started
    is not waited for: [exec] returns the child process, whose [stdout]
    and [stderr] are stream objects, so that both tests of the loop body
    succeed. *)
Definition exec_throws (start_error : string → option string) (command : string)
    : option string :=
  if String.eqb command "" then Some "The argument 'file' cannot be empty"
  else start_error command.

Definition exec_nowait (start_error : string → option string) (command : string)
    : N unit :=
  match exec_throws start_error command with
  | Some error => rejectN error
  | None => act (Spawn command)
  end.

Fixpoint runPostInstallCommands (start_error : string → option string)
    (commands : list string) : N unit :=
  match commands with
  | [] => mret tt
  | command :: rest =>
      try_catchN
        (print (NoteExecuting command);;
         exec_nowait start_error command;;
         print NoteCommandOutput;;
         print_error NoteCommandError)
        (λ error, print_error (NoteExecFailed command error));;
      runPostInstallCommands start_error rest
  end.

(** ** Database.ts *)

Module Database.

(** What the class reads of the configuration (types.ts):
    [config.wordpress.WP_config.DB_NAME]. *)
Record WPconfig := { DB_NAME : string }.
Record WPMMconfig := { WP_config : option WPconfig }.

(** The connection settings, of which the class reads the host. *)
Record ConnectionOptions := { host : string }.

(** The clock, the database server, mysqldump, and [getConnectionSettings]
    of utils/data, which is not among the sources and is taken as a
    parameter (it returns settings or throws an error with a message).
    - [today]: [new Date().toDateString()];
    - [connect_error]: the error of [mysql.createConnection], if any;
    - [query_error history sql]: the error of [connection.query(sql)]
      after the statements of [history], if any;
    - [end_error]: the error of [connection.end()], if any;
    - [dump_error], [dump_bytes]: the error of mysqldump, if any, and the
      bytes it writes otherwise;
    - [archive_text]: how the bytes of an archive read as UTF-8 text. *)
Record DbEnv := {
  today : string;
  getConnectionSettings : option WPconfig → string + ConnectionOptions;
  connect_error : ConnectionOptions → option string;
  query_error : list string → string → option string;
  end_error : option string;
  dump_error : option string;
  dump_bytes : string;
  archive_text : list entry → string
}.

(** What the two methods return: [true] or an [Error] object (returned,
    not thrown). *)
Inductive answer :=
| Done
| ErrorValue (message : string).

Section Methods.

Context (env : DbEnv) (config : option WPMMconfig).

(** [dbDumpFilename]: reading [DB_NAME] of a missing configuration throws
    a TypeError. *)
Definition dbDumpFilename : N string :=
  let date := js_replace_first " "%char "-" (today env) in
  match config with
  | Some c =>
      match WP_config c with
      | Some w => mret (DB_NAME w +:+ "-" +:+ date +:+ ".sql.gz")
      | None => rejectN "Cannot read properties of undefined (reading 'DB_NAME')"
      end
  | None => rejectN "Cannot read properties of undefined (reading 'wordpress')"
  end.

(** [fs.readFileSync(sqlFilePath, "utf8")]. *)
Definition readFileSync (sqlFilePath : string) : N string :=
  fs ← get_disk;
  match lookup_path fs (segs sqlFilePath) with
  | Some (File (Bytes text)) => mret text
  | Some (File (Archive entries)) => mret (archive_text env entries)
  | Some Dir => rejectN "EISDIR: illegal operation on a directory, read"
  | None => rejectN "ENOENT: no such file or directory"
  end.

(** The loop over the statements: blank ones are skipped, the others are
    sent one after the other, and the first error ends the loop. *)
Fixpoint run_queries (history queries : list string) : N unit :=
  match queries with
  | [] => mret tt
  | query :: rest =>
      if negb (js_blank query)
      then
        act (Query query);;
        match query_error env history query with
        | Some message => rejectN message
        | None => run_queries (history ++ [query]) rest
        end
      else run_queries history rest
  end.

(** The server accepts the statements of [queries] one after the other,
    after those of [history]. *)
Fixpoint accepted (history queries : list string) : Prop :=
  match queries with
  | [] => True
  | query :: rest =>
      query_error env history query = None ∧ accepted (history ++ [query]) rest
  end.

(** The statements of a text that are sent: the pieces between the
    semicolons that are not blank. *)
Definition statements (sqlFileContent : string) : list string :=
  filter (λ query, js_blank query = false) (Js.split ";"%char sqlFileContent).

(** [connection.end().then(...).catch(...)]: the promise is returned
    without [await], so that its rejection is not caught by the [catch]
    clause of [uploadDatabase]. *)
Definition end_connection : N answer :=
  act EndConnection;;
  match end_error env with
  | None => print NoteConnectionClosed;; mret Done
  | Some message =>
      print_error (NoteCloseError message);;
      rejectN ("Error updating plugins: " +:+ message)
  end.

(** [uploadDatabase]: the body of [try] either returns a value ([Some]) or
    goes on to return the promise of [connection.end()] ([None]). *)
Definition uploadDatabase (sqlFilePath : string) : N answer :=
  r ← try_catchN
        (print NoteUploading;;
         fs ← get_disk;
         if negb (existsSync fs sqlFilePath)
         then mret (Some (ErrorValue "SQL file not found"))
         else
           match config with
           | None => mret (Some (ErrorValue "Database configuration not found"))
           | Some c =>
               match getConnectionSettings env (WP_config c) with
               | inl message => rejectN message
               | inr settings =>
                   act Connect;;
                   match connect_error env settings with
                   | Some message => rejectN message
                   | None =>
                       sqlFileContent ← readFileSync sqlFilePath;
                       run_queries [] (Js.split ";"%char sqlFileContent);;
                       print NoteUploaded;;
                       mret None
                   end
               end
           end)
        (λ message, rejectN ("Error updating plugins: " +:+ message));
  match r with
  | Some value => mret value
  | None => end_connection
  end.

(** [dumpDatabase]. *)
Definition dumpDatabase (basePath : string) : N answer :=
  let dumpPath := path_join (path_join basePath "backups") "db" in
  name ← dbDumpFilename;
  let dumpFile := path_join dumpPath name in
  fs ← get_disk;
  (if negb (existsSync fs dumpPath)
   then match mkdirSync_recursive dumpPath fs with
        | Some fs' => set_disk fs';; print (NoteDirectoryCreated dumpPath)
        | None => rejectN "ENOTDIR"
        end
   else mret tt);;
  print (NoteDumping dumpFile);;
  match config ≫= WP_config with
  | None => mret (ErrorValue "Database configuration not found")
  | Some w =>
      match getConnectionSettings env (Some w) with
      | inl message => rejectN message
      | inr settings =>
          (if String.eqb (host settings) "localhost"
           then print NoteLocalhostWarning else mret tt);;
          act (Mysqldump dumpFile);;
          match dump_error env with
          | None =>
              fs1 ← get_disk;
              set_disk (<[segs dumpFile := File (Bytes (dump_bytes env))]> fs1);;
              print (NoteDumped dumpFile);;
              print NoteDumpResult;;
              mret Done
          | Some message =>
              print_error (NoteDumpError message);;
              mret (ErrorValue message)
          end
      end
  end.

End Methods.

(** The directory and the file of a dump, as [dumpDatabase] names them. *)
Definition dump_path (basePath : string) : string :=
  path_join (path_join basePath "backups") "db".

Definition dump_file (env : DbEnv) (w : WPconfig) (basePath : string) : string :=
  path_join (dump_path basePath)
    (DB_NAME w +:+ "-" +:+ js_replace_first " "%char "-" (today env) +:+ ".sql.gz").

End Database.

(** A reply that makes [downloadFile] reject: a network error or a status
    code of 400 and more. *)
Definition reply_fails (r : reply) : bool :=
  match r with
  | NetworkError _ => true
  | Response statusCode _ _ _ => default 0 statusCode >=? 400
  end.

(** A database world for the examples: the server refuses the statements
    that begin with "DROP". *)
Module DemoDb.

Definition refuses (sql : string) : bool := String.prefix "DROP" sql.

Definition world (dump : option string) : Database.DbEnv :=
  {| Database.today := "Mon Nov 02 2026";
     Database.getConnectionSettings := λ w,
       match w with
       | Some _ => inr {| Database.host := "db.example.test" |}
       | None => inl "Cannot read properties of undefined (reading 'DB_HOST')"
       end;
     Database.connect_error := λ _, None;
     Database.query_error := λ _ sql,
       if refuses sql then Some "You have an error in your SQL syntax" else None;
     Database.end_error := None;
     Database.dump_error := dump;
     Database.dump_bytes := "dump";
     Database.archive_text := λ _, "" |}.

Definition config : option Database.WPMMconfig :=
  Some {| Database.WP_config := Some {| Database.DB_NAME := "wp" |} |}.

Definition no_WP_config : option Database.WPMMconfig :=
  Some {| Database.WP_config := None |}.

(** The site with an SQL file of the given text. *)
Definition with_sql (text : string) : sys :=
  Sys (<[segs "/site/dump.sql" := File (Bytes text)]> (files Demo.site)) [].

End DemoDb.

(** A world in which the repository of the demo plugin can be cloned,
    and a site with a file in a working directory below the staging
    directory. *)
Module DemoRepo.

Definition git_url : string := "https://example.test/demo.git".

Definition world : Env :=
  {| https_get := Demo.serve [];
     git_tree := λ url,
       if String.eqb url git_url
       then Some [Entry "demo.php" "<?php"; Entry "inc/util.php" "<?php"]
       else None;
     exit_code := λ _ _, 0;
     package_json_name := λ _, Some "demo";
     getDownloadUrl := λ _ _ _, "" |}.

Definition littered : sys :=
  Sys (<[segs "/site/temp/work/a.txt" := File (Bytes "a")]>
         (mkdirp (segs "/site/temp/work") (files Demo.site))) [].

End DemoRepo.

(** * Properties *)

(** ** Splitting and joining *)

Section Split.

Variable sep : ascii.

Lemma split_cons (s : string) : ∃ seg segs, Js.split sep s = seg :: segs.
Proof.
  induction s as [|c rest [seg [segs IH]]]; simpl; [by eauto|].
  destruct (Ascii.eqb c sep); [by eauto|].
  rewrite IH. by eauto.
Qed.

Lemma split_segments_no_sep (s seg : string) :
  seg ∈ Js.split sep s → Js.contains sep seg = false.
Proof.
  revert seg. induction s as [|c rest IH]; simpl; intros seg Hin.
  - apply list_elem_of_singleton in Hin. by subst.
  - destruct (Ascii.eqb c sep) eqn:Hc.
    + apply elem_of_cons in Hin as [->|Hin]; [done|by apply IH].
    + destruct (split_cons rest) as [h [t Hs]]. rewrite Hs in Hin, IH.
      apply elem_of_cons in Hin as [->|Hin].
      * simpl. rewrite Hc. apply IH. by left.
      * apply IH. by right.
Qed.

Lemma split_no_sep (s : string) :
  Js.contains sep s = false → Js.split sep s = [s].
Proof.
  induction s as [|c rest IH]; simpl; [done|].
  intros [Hc Hrest]%orb_false_iff. by rewrite Hc, (IH Hrest).
Qed.

Lemma split_app_sep (r rest : string) :
  Js.contains sep r = false →
  Js.split sep (r +:+ String sep rest) = r :: Js.split sep rest.
Proof.
  induction r as [|c r IH]; simpl.
  - intros _. by rewrite Ascii.eqb_refl.
  - intros [Hc Hr]%orb_false_iff. by rewrite Hc, (IH Hr).
Qed.

Lemma split_app (a b : string) :
  Js.split sep (a +:+ String sep b) = Js.split sep a ++ Js.split sep b.
Proof.
  induction a as [|c a IH]; simpl.
  - by rewrite Ascii.eqb_refl.
  - destruct (Ascii.eqb c sep); [by rewrite IH|].
    rewrite IH. by destruct (split_cons a) as [h [t ->]].
Qed.

End Split.

Lemma top_no_sep (fileName : string) : Js.contains slash (top fileName) = false.
Proof.
  unfold top. destruct (split_cons slash fileName) as [h [t Hs]].
  apply (split_segments_no_sep slash fileName). rewrite Hs. by left.
Qed.

Lemma top_prefixed (r rest : string) :
  Js.contains slash r = false → top (r +:+ "/" +:+ rest) = r.
Proof.
  intros Hr. unfold top. change ("/" +:+ rest) with (String slash rest).
  by rewrite split_app_sep.
Qed.

(** ** The common root *)

(** On a candidate without separator the callback is [step_top]. *)
Lemma onEntry_step_top (root fileName : string) :
  Js.contains slash root = false → onEntry root fileName = step_top root fileName.
Proof.
  intros Hroot. unfold onEntry, step_top, top, Js.truthy.
  destruct (String.eqb root "") eqn:Hempty; simpl; [done|].
  pose proof (split_no_sep slash root Hroot) as Hs.
  destruct (split_cons slash fileName) as [h [t ->]].
  cbn [onEntry_loop List.hd]. rewrite Hs. simpl.
  destruct (String.eqb root h) eqn:Hh; simpl; [|done].
  destruct t as [|p t]; cbn [onEntry_loop]; [done|].
  rewrite Hs. simpl. unfold Js.join. simpl. by destruct root.
Qed.

Lemma step_top_no_sep (root fileName : string) :
  Js.contains slash root = false →
  Js.contains slash (step_top root fileName) = false.
Proof.
  intros Hroot. unfold step_top.
  destruct (String.eqb root ""); [apply top_no_sep|].
  by destruct (String.eqb root (top fileName)).
Qed.

Lemma fold_onEntry_no_sep (fileNames : list string) (root : string) :
  Js.contains slash root = false →
  Js.contains slash (fold_left onEntry fileNames root) = false.
Proof.
  revert root. induction fileNames as [|f fs IH]; simpl; intros root Hroot; [done|].
  apply IH. rewrite onEntry_step_top by done. by apply step_top_no_sep.
Qed.

Lemma commonRoot_no_sep (fileNames : list string) :
  Js.contains slash (commonRoot fileNames) = false.
Proof. by apply fold_onEntry_no_sep. Qed.

(** The callback written as a plain fold over top segments. *)
Lemma commonRoot_step_top (fileNames : list string) :
  commonRoot fileNames = fold_left step_top fileNames EmptyString.
Proof.
  unfold commonRoot. generalize (eq_refl : Js.contains slash "" = false).
  generalize EmptyString as root.
  induction fileNames as [|f fs IH]; simpl; intros root Hroot; [done|].
  rewrite onEntry_step_top by done. apply IH. by apply step_top_no_sep.
Qed.

(** A non-empty archive whose entries all lie below one top-level
    directory [r] has common root [r]. *)
Lemma commonRoot_single_root (r : string) (fileNames : list string) :
  Js.contains slash r = false →
  fileNames ≠ [] →
  (∀ f, f ∈ fileNames → ∃ rest, f = r +:+ "/" +:+ rest) →
  commonRoot fileNames = r.
Proof.
  intros Hr Hne Hall. rewrite commonRoot_step_top.
  assert (Hstep : ∀ l root, (root = "" ∨ root = r) → l ≠ [] →
            (∀ f, f ∈ l → top f = r) → fold_left step_top l root = r).
  { induction l as [|f l IH]; intros root Hroot Hl Htop; [done|]. simpl.
    assert (Hf : step_top root f = r).
    { unfold step_top. rewrite (Htop f) by (by left).
      destruct Hroot as [->| ->]; [done|].
      rewrite String.eqb_refl. by destruct (String.eqb r ""). }
    rewrite Hf. destruct l as [|g l]; [done|].
    apply IH; [by right|done|]. intros h Hh. apply Htop. by right. }
  apply Hstep; [by left|done|].
  intros f [rest ->]%Hall. by apply top_prefixed.
Qed.

(** Two entries with different, non-empty top-level directories leave an
    empty common root. *)
Lemma commonRoot_two_roots (f g : string) :
  top f ≠ "" → top f ≠ top g → commonRoot [f; g] = "".
Proof.
  intros Hf Hfg. rewrite commonRoot_step_top. simpl.
  unfold step_top at 2. simpl. unfold step_top.
  destruct (String.eqb_spec (top f) ""); [done|].
  by destruct (String.eqb_spec (top f) (top g)).
Qed.

(** ** Running the monad *)

Ltac run :=
  unfold mbind, M_bind, bind, mret, M_ret, resolve, reject, try_catch,
    console_log, console_error, emit, get_files, set_files; simpl.

Lemma extractZip_run (zipFilePath targetDirectory : string) (s : state) :
  extractZip zipFilePath targetDirectory s =
  match lookup_path (files s) (segs zipFilePath) with
  | Some (File (Archive entries)) =>
      if refused entries
      then (Rejected ("Error extracting " +:+ zipFilePath +:+ " zip"),
            State (unpack (segs targetDirectory) (visited entries) (files s))
                  (trace s ++ [Extract zipFilePath targetDirectory]))
      else (Resolved (commonRoot (fileName <$> visited entries)),
            State (unpack (segs targetDirectory) (visited entries) (files s))
                  (trace s ++ [Extract zipFilePath targetDirectory;
                               Console MsgExtracted]))
  | _ =>
      (Rejected ("Error extracting " +:+ zipFilePath +:+ " zip"),
       State (files s) (trace s ++ [Extract zipFilePath targetDirectory]))
  end.
Proof.
  unfold extractZip. run.
  destruct (lookup_path (files s) (segs zipFilePath)) as [[[entries|text]|]|]; try done.
  destruct (refused entries); cbn; [done|]. by rewrite <- app_assoc.
Qed.

(** C10. The common root [extractZip] returns never contains a path
    separator: it is the empty string or one single path segment. *)
Theorem extractZip_root_single_segment
    (zipFilePath targetDirectory : string) (s : state) (root : string) :
  fst (extractZip zipFilePath targetDirectory s) = Resolved root →
  Js.contains slash root = false ∧ Js.split slash root = [root].
Proof.
  rewrite extractZip_run.
  destruct (lookup_path (files s) (segs zipFilePath)) as [[[entries|text]|]|];
    simpl; try done.
  destruct (refused entries); simpl; [done|].
  intros [= <-]. pose proof (commonRoot_no_sep (fileName <$> visited entries)) as H.
  split; [done|by apply split_no_sep].
Qed.

Lemma extractZip_root_single_segment_witness :
  fst (extractZip "/site/temp/demo.zip" "/site/temp"
         (Demo.staged [Entry "foo/" ""; Entry "foo/a/b.txt" "1"; Entry "foo/a/c.txt" "2"]))
    = Resolved "foo"
  ∧ Js.contains slash "foo" = false ∧ Js.split slash "foo" = ["foo"].
Proof.
  split; [vm_compute; reflexivity|].
  apply (extractZip_root_single_segment "/site/temp/demo.zip" "/site/temp"
           (Demo.staged [Entry "foo/" ""; Entry "foo/a/b.txt" "1"; Entry "foo/a/c.txt" "2"])).
  vm_compute. reflexivity.
Defined.

(** C2. [extractZip] on an archive with the three entries a/x, b/y and
    c/z, which share no top-level segment: the candidate was emptied by
    the second entry, the third entry starts it again, and the call
    returns "c", which is not the top segment of the first entry. *)
Theorem extractZip_third_root_restarts :
  fst (extractZip "/site/temp/demo.zip" "/site/temp"
         (Demo.staged [Entry "a/x" "1"; Entry "b/y" "2"; Entry "c/z" "3"]))
    = Resolved "c"
  ∧ top "a/x" ≠ "c"
  ∧ commonRoot ["a/x"; "b/y"] = "".
Proof. split; [vm_compute; reflexivity|]. split; [by vm_compute|reflexivity]. Qed.

(** ** [downloadFile] *)

Lemma downloadFile_run (env : Env) (fuel : nat) (url targetFile : string) (s : state) :
  downloadFile env (S fuel) url targetFile s =
  if existsSync (files s) targetFile
  then (Resolved tt, State (files s) (trace s ++ [Console (MsgFileExists targetFile)]))
  else
    let s1 := State (files s) (trace s ++ [Request url]) in
    match https_get env url with
    | NetworkError error => (Rejected ("new Error Error: " +:+ error), s1)
    | Response statusCode statusMessage location body =>
        let code := default 0 statusCode in
        if code >=? 400 then (Rejected ("new Error Error: " +:+ statusMessage), s1)
        else if (300 <? code) && (code <? 400) && Js.truthy_opt location
        then await_in_callback
               (downloadFile env fuel (default EmptyString location) targetFile) s1
        else pipe_to_file targetFile body s1
    end.
Proof.
  cbn [downloadFile]. run.
  destruct (existsSync (files s) targetFile); [done|].
  destruct (https_get env url) as [statusCode statusMessage location body|error]; [|done].
  cbn zeta. destruct (default 0 statusCode >=? 400); [done|].
  destruct ((300 <? default 0 statusCode) && (default 0 statusCode <? 400)
            && Js.truthy_opt location).
  - unfold await_in_callback.
    by destruct (downloadFile env fuel (default "" location) targetFile _) as [[]].
  - unfold pipe_to_file. simpl.
    by destruct (lookup_path (files s) (removelast (segs targetFile))) as [[]|].
Qed.

Lemma existsSync_insert (fs : gmap (list string) node) (p : string) (v : node) :
  existsSync (<[segs p := v]> fs) p = true.
Proof.
  unfold existsSync. apply bool_decide_eq_true. unfold lookup_path.
  destruct (segs p) eqn:Hp; [by eauto|]. rewrite lookup_insert_eq. by eauto.
Qed.

(** A download that resolves leaves the target file on disk. *)
Lemma downloadFile_resolved_exists (env : Env) (fuel : nat) (url targetFile : string)
    (s : state) :
  fst (downloadFile env fuel url targetFile s) = Resolved tt →
  existsSync (files (snd (downloadFile env fuel url targetFile s))) targetFile = true.
Proof.
  revert url s. induction fuel as [|fuel IH]; intros url s; [done|].
  rewrite downloadFile_run.
  destruct (existsSync (files s) targetFile) eqn:Hex; [done|].
  destruct (https_get env url) as [statusCode statusMessage location body|error]; [|done].
  cbn zeta. destruct (default 0 statusCode >=? 400); [done|].
  destruct ((300 <? default 0 statusCode) && (default 0 statusCode <? 400)
            && Js.truthy_opt location).
  - unfold await_in_callback.
    specialize (IH (default "" location)
                  (State (files s) (trace s ++ [Request url]))).
    destruct (downloadFile env fuel (default "" location) targetFile _) as [[[]| | |] s'];
      simpl in *; auto; done.
  - unfold pipe_to_file. simpl.
    destruct (lookup_path (files s) (removelast (segs targetFile))) as [[]|];
      simpl; try done.
    intros _. apply existsSync_insert.
Qed.

(** The effects of a download come after those already performed. *)
Lemma downloadFile_trace_prefix (env : Env) (fuel : nat) (url targetFile : string)
    (s : state) :
  trace s `prefix_of` trace (snd (downloadFile env fuel url targetFile s)).
Proof.
  revert url s. induction fuel as [|fuel IH]; intros url s; [done|].
  rewrite downloadFile_run.
  destruct (existsSync (files s) targetFile) eqn:Hex; [by apply prefix_app_r|].
  destruct (https_get env url) as [statusCode statusMessage location body|error];
    [|by apply prefix_app_r].
  cbn zeta. destruct (default 0 statusCode >=? 400); [by apply prefix_app_r|].
  destruct ((300 <? default 0 statusCode) && (default 0 statusCode <? 400)
            && Js.truthy_opt location).
  - unfold await_in_callback.
    specialize (IH (default "" location)
                  (State (files s) (trace s ++ [Request url]))).
    destruct (downloadFile env fuel (default "" location) targetFile _) as [[[]| | |] s'];
      simpl in *; (etrans; [|exact IH]); by apply prefix_app_r.
  - unfold pipe_to_file. simpl.
    destruct (lookup_path (files s) (removelast (segs targetFile))) as [[]|];
      simpl; try by apply prefix_app_r.
    rewrite <- app_assoc. by apply prefix_app_r.
Qed.

(** C3 (amended). When the target file is not on disk and the response has
    a status code strictly between 300 and 400 and a non-empty Location
    header, [downloadFile] invokes itself on the Location target with the
    same target file (which, given one more invocation, requests that
    target next).  A response with status 300 is not followed. *)
Theorem downloadFile_follows_redirect (env : Env) (fuel : nat)
    (url targetFile : string) (s : state)
    (code : Z) (statusMessage loc : string) (body : content) :
  existsSync (files s) targetFile = false →
  https_get env url = Response (Some code) statusMessage (Some loc) body →
  300 < code < 400 →
  loc ≠ "" →
  downloadFile env (S fuel) url targetFile s =
    await_in_callback (downloadFile env fuel loc targetFile)
      (State (files s) (trace s ++ [Request url]))
  ∧ ((0 < fuel)%nat →
     (trace s ++ [Request url; Request loc])
       `prefix_of` trace (snd (downloadFile env (S fuel) url targetFile s))).
Proof.
  intros Hfresh Hget [Hlo Hhi] Hloc.
  assert (Heq : downloadFile env (S fuel) url targetFile s =
    await_in_callback (downloadFile env fuel loc targetFile)
      (State (files s) (trace s ++ [Request url]))).
  { rewrite downloadFile_run, Hfresh, Hget. cbn.
    assert ((code >=? 400) = false) as -> by lia.
    assert ((300 <? code) = true) as -> by lia.
    assert ((code <? 400) = true) as -> by lia.
    unfold Js.truthy. by destruct (String.eqb_spec loc ""). }
  split; [done|].
  intros Hfuel. rewrite Heq. destruct fuel as [|fuel]; [lia|].
  unfold await_in_callback.
  pose proof (downloadFile_trace_prefix env fuel) as Hpre.
  assert (Hgoal : (trace s ++ [Request url; Request loc]) `prefix_of`
            trace (snd (downloadFile env (S fuel) loc targetFile
                          (State (files s) (trace s ++ [Request url]))))).
  { rewrite downloadFile_run. cbn [files trace]. rewrite Hfresh.
    replace (trace s ++ [Request url; Request loc])
      with ((trace s ++ [Request url]) ++ [Request loc]) by by rewrite <- app_assoc.
    destruct (https_get env loc) as [sc sm l b|e]; [|done].
    cbn zeta. destruct (default 0 sc >=? 400); [done|].
    destruct ((300 <? default 0 sc) && (default 0 sc <? 400) && Js.truthy_opt l).
    - unfold await_in_callback.
      specialize (Hpre (default "" l) targetFile
                    (State (files s) ((trace s ++ [Request url]) ++ [Request loc]))).
      by destruct (downloadFile env fuel (default "" l) targetFile _) as [[[]| | |] s'].
    - unfold pipe_to_file. simpl.
      destruct (lookup_path (files s) (removelast (segs targetFile))) as [[]|];
        simpl; try done. by apply prefix_app_r. }
  by destruct (downloadFile env (S fuel) loc targetFile _) as [[[]| | |] s'].
Qed.

Lemma downloadFile_follows_redirect_witness :
  downloadFile Demo.moved 2 Demo.zip_url Demo.zip_file Demo.site =
    await_in_callback (downloadFile Demo.moved 1 Demo.real_url Demo.zip_file)
      (State (files Demo.site) (trace Demo.site ++ [Request Demo.zip_url]))
  ∧ ((0 < 1)%nat →
     (trace Demo.site ++ [Request Demo.zip_url; Request Demo.real_url])
       `prefix_of`
       trace (snd (downloadFile Demo.moved 2 Demo.zip_url Demo.zip_file Demo.site))).
Proof.
  apply (downloadFile_follows_redirect Demo.moved 1 Demo.zip_url Demo.zip_file
           Demo.site 301 "Moved Permanently" Demo.real_url (Bytes "")).
  - vm_compute. reflexivity.
  - vm_compute. reflexivity.
  - lia.
  - discriminate.
Defined.

(** C3 as stated fails at status 300: the Location target is never
    requested, and the body of the 300 response is what ends up in the
    target file. *)
Lemma downloadFile_300_not_followed :
  https_get Demo.multiple_choices Demo.zip_url
    = Response (Some 300) "Multiple Choices" (Some Demo.real_url) (Bytes "choices")
  ∧ existsSync (files Demo.site) Demo.zip_file = false
  ∧ downloadFile Demo.multiple_choices 2 Demo.zip_url Demo.zip_file Demo.site
    ≠ await_in_callback
        (downloadFile Demo.multiple_choices 1 Demo.real_url Demo.zip_file)
        (State (files Demo.site) (trace Demo.site ++ [Request Demo.zip_url]))
  ∧ trace (snd (downloadFile Demo.multiple_choices 2 Demo.zip_url Demo.zip_file Demo.site))
    = [Request Demo.zip_url; WriteFile Demo.zip_file]
  ∧ files (snd (downloadFile Demo.multiple_choices 2 Demo.zip_url Demo.zip_file Demo.site))
      !! segs Demo.zip_file = Some (File (Bytes "choices")).
Proof.
  split; [reflexivity|]. split; [vm_compute; reflexivity|].
  split; [|split; vm_compute; reflexivity].
  intros H. apply (f_equal (λ r, trace (snd r))) in H. vm_compute in H. discriminate.
Qed.

(** *** Redirect chains *)

Lemma redirect_target_run (env : Env) (fuel : nat) (url loc targetFile : string)
    (s : state) :
  existsSync (files s) targetFile = false →
  redirect_target (https_get env url) = Some loc →
  downloadFile env (S fuel) url targetFile s =
    await_in_callback (downloadFile env fuel loc targetFile)
      (State (files s) (trace s ++ [Request url])).
Proof.
  intros Hfresh Hred. rewrite downloadFile_run, Hfresh.
  destruct (https_get env url) as [sc sm [l|] b|e]; simpl in Hred; try done.
  cbn zeta.
  destruct (default 0 sc <? 400) eqn:Hhi; simpl in Hred; [|done].
  destruct (300 <? default 0 sc) eqn:Hlo; simpl in Hred; [|done].
  destruct (Js.truthy l) eqn:Hl; simpl in Hred; [|done].
  injection Hred as ->.
  assert ((default 0 sc >=? 400) = false) as -> by lia.
  simpl. by rewrite Hl.
Qed.

(** On a chain the download never rejects, whatever the budget. *)
Lemma downloadFile_chain_never_rejects (env : Env) (fuel : nat) (urls : list string)
    (final : string) (body : content) (targetFile : string) (s : state) :
  redirect_chain env urls final body →
  existsSync (files s) targetFile = false →
  lookup_path (files s) (removelast (segs targetFile)) = Some Dir →
  fst (downloadFile env fuel (List.hd final urls) targetFile s) = Resolved tt
  ∨ fst (downloadFile env fuel (List.hd final urls) targetFile s) = OutOfFuel.
Proof.
  revert urls s. induction fuel as [|fuel IH]; intros urls s Hchain Hfresh Hdir;
    [by right|].
  destruct urls as [|u rest]; cbn [redirect_chain List.hd] in Hchain |- *.
  - left. rewrite downloadFile_run, Hfresh, Hchain. cbn.
    unfold pipe_to_file. simpl. by rewrite Hdir.
  - destruct Hchain as [Hred Hrest].
    rewrite (redirect_target_run env fuel u _ targetFile s Hfresh Hred).
    unfold await_in_callback.
    specialize (IH rest (State (files s) (trace s ++ [Request u])) Hrest Hfresh Hdir).
    destruct (downloadFile env fuel (List.hd final rest) targetFile _)
      as [[[]| | |] s']; simpl in *; destruct IH; try done; auto.
Qed.

(** A URL that redirects to itself is followed for as long as the budget
    lasts. *)
Lemma downloadFile_redirect_loop (env : Env) (fuel : nat) (url targetFile : string)
    (s : state) :
  existsSync (files s) targetFile = false →
  redirect_target (https_get env url) = Some url →
  fst (downloadFile env fuel url targetFile s) = OutOfFuel.
Proof.
  revert s. induction fuel as [|fuel IH]; intros s Hfresh Hred; [done|].
  rewrite (redirect_target_run env fuel url url targetFile s Hfresh Hred).
  unfold await_in_callback.
  specialize (IH (State (files s) (trace s ++ [Request url])) Hfresh Hred).
  by destruct (downloadFile env fuel url targetFile _) as [[[]| | |] s'].
Qed.

(** C4 (amended). [downloadFile] has no redirect limit: a chain of
    redirects of any length that ends in a 200 response is followed to
    its end, one request per URL, and the body of the last response is
    written to the target file. *)
Theorem downloadFile_follows_every_chain (env : Env) (urls : list string)
    (final : string) (body : content) (targetFile : string) (s : state) :
  redirect_chain env urls final body →
  existsSync (files s) targetFile = false →
  lookup_path (files s) (removelast (segs targetFile)) = Some Dir →
  downloadFile env (S (length urls)) (List.hd final urls) targetFile s =
  (Resolved tt,
   State (<[segs targetFile := File body]> (files s))
         (trace s ++ (Request <$> urls ++ [final]) ++ [WriteFile targetFile])).
Proof.
  revert s. induction urls as [|u rest IH]; intros s Hchain Hfresh Hdir;
    simpl in Hchain.
  - cbn [length List.hd]. rewrite downloadFile_run, Hfresh, Hchain. cbn.
    unfold pipe_to_file. simpl. rewrite Hdir. by rewrite <- app_assoc.
  - destruct Hchain as [Hred Hrest]. cbn [length List.hd].
    rewrite (redirect_target_run env _ u _ targetFile s Hfresh Hred).
    unfold await_in_callback.
    rewrite (IH (State (files s) (trace s ++ [Request u])) Hrest Hfresh Hdir).
    cbn [files trace]. by rewrite <- app_assoc.
Qed.

Lemma length_append_char (url : string) (c : ascii) :
  String.length (url +:+ String c "") = S (String.length url).
Proof. induction url as [|d url IH]; simpl; [done|]. by rewrite IH. Qed.

Lemma prefix_append (p url rest : string) :
  String.prefix p url = true → String.prefix p (url +:+ rest) = true.
Proof.
  revert url. induction p as [|c p IH]; intros [|d url]; simpl; try done.
  - intros _. by destruct rest.
  - destruct (Ascii.ascii_dec c d); [apply IH|done].
Qed.

Lemma truthy_append_char (url : string) (c : ascii) :
  Js.truthy (url +:+ String c "") = true.
Proof. by destruct url. Qed.

Lemma hops_chain (n k : nat) (url : string) :
  String.prefix "https://example.test/" url = true →
  (String.length url + k = String.length Demo.hop_start + n)%nat →
  redirect_chain (Demo.hops n) (Demo.hop_urls k url) (Demo.hop_final k url)
                 (Bytes "payload").
Proof.
  revert url. induction k as [|k IH]; intros url Hurl Hlen;
    cbn [redirect_chain Demo.hop_urls Demo.hop_final Demo.hops https_get].
  - unfold Demo.hop. rewrite Hurl. cbn [negb].
    by assert ((String.length url <? String.length Demo.hop_start + n)%nat = false)
      as -> by (apply Nat.ltb_ge; lia).
  - split.
    + unfold Demo.hop. rewrite Hurl. cbn [negb].
      assert ((String.length url <? String.length Demo.hop_start + n)%nat = true)
        as -> by (apply Nat.ltb_lt; lia).
      cbn [redirect_target default]. rewrite truthy_append_char.
      by destruct k.
    + apply IH; [by apply prefix_append|]. rewrite length_append_char. lia.
Qed.

Lemma hop_urls_length (k : nat) (url : string) : length (Demo.hop_urls k url) = k.
Proof. revert url. induction k as [|k IH]; intros url; simpl; [done|]. by rewrite IH. Qed.

Lemma downloadFile_follows_every_chain_witness :
  redirect_chain (Demo.hops 11) (Demo.hop_urls 11 Demo.hop_start)
                 (Demo.hop_final 11 Demo.hop_start) (Bytes "payload")
  ∧ List.hd "" (Demo.hop_urls 11 Demo.hop_start) = "https://example.test/hop"
  ∧ Demo.hop_final 11 Demo.hop_start = "https://example.test/hoprrrrrrrrrrr"
  ∧ length (Demo.hop_urls 11 Demo.hop_start) = 11%nat
  ∧ downloadFile (Demo.hops 11) 12 Demo.hop_start Demo.zip_file Demo.site =
    (Resolved tt,
     State (<[segs Demo.zip_file := File (Bytes "payload")]> (files Demo.site))
           (trace Demo.site
            ++ (Request <$> Demo.hop_urls 11 Demo.hop_start
                            ++ [Demo.hop_final 11 Demo.hop_start])
            ++ [WriteFile Demo.zip_file])).
Proof.
  split; [by apply hops_chain|]. split; [reflexivity|]. split; [reflexivity|].
  split; [reflexivity|].
  apply (downloadFile_follows_every_chain (Demo.hops 11)
           (Demo.hop_urls 11 Demo.hop_start)
           (Demo.hop_final 11 Demo.hop_start) (Bytes "payload") Demo.zip_file Demo.site).
  - by apply hops_chain.
  - vm_compute. reflexivity.
  - vm_compute. reflexivity.
Defined.

(** C4 as stated fails: no bound on the number of redirects makes the
    download end with an error.  For every bound there is a server of
    https URLs, each redirecting to the next, with more redirects than
    the bound, on which the download is never rejected. *)
Lemma downloadFile_no_redirect_bound : ¬ ∃ bound, bounded_redirects bound.
Proof.
  intros [bound Hbound].
  destruct (Hbound (Demo.hops (S bound)) (Demo.hop_urls (S bound) Demo.hop_start)
              (Demo.hop_final (S bound) Demo.hop_start) (Bytes "payload")
              Demo.zip_file Demo.site) as [fuel [error Herr]].
  - by apply hops_chain.
  - rewrite hop_urls_length. lia.
  - vm_compute. reflexivity.
  - vm_compute. reflexivity.
  - destruct (downloadFile_chain_never_rejects (Demo.hops (S bound)) fuel
                (Demo.hop_urls (S bound) Demo.hop_start)
                (Demo.hop_final (S bound) Demo.hop_start)
                (Bytes "payload") Demo.zip_file Demo.site) as [H|H];
      [by apply hops_chain|by vm_compute|by vm_compute| |];
      rewrite H in Herr; discriminate.
Qed.

(** *** The target file as a marker *)

(** With the target file on disk a call asks the network nothing, touches
    no file and resolves. *)
Lemma downloadFile_skips_existing (env : Env) (fuel : nat) (url targetFile : string)
    (s : state) :
  existsSync (files s) targetFile = true →
  downloadFile env (S fuel) url targetFile s =
  (Resolved tt, State (files s) (trace s ++ [Console (MsgFileExists targetFile)])).
Proof. intros Hex. by rewrite downloadFile_run, Hex. Qed.

(** C8 (amended). After a call of [downloadFile] that resolved, the target
    file is on disk, and a second call with the same arguments performs no
    request and no write: it prints that the file exists and resolves. *)
Theorem downloadFile_second_call_noop (env : Env) (fuel1 fuel2 : nat)
    (url targetFile : string) (s : state) :
  fst (downloadFile env fuel1 url targetFile s) = Resolved tt →
  existsSync (files (snd (downloadFile env fuel1 url targetFile s))) targetFile = true
  ∧ downloadFile env (S fuel2) url targetFile
      (snd (downloadFile env fuel1 url targetFile s)) =
    (Resolved tt,
     State (files (snd (downloadFile env fuel1 url targetFile s)))
           (trace (snd (downloadFile env fuel1 url targetFile s))
            ++ [Console (MsgFileExists targetFile)])).
Proof.
  intros Hfirst.
  pose proof (downloadFile_resolved_exists env fuel1 url targetFile s Hfirst) as Hex.
  split; [done|]. by apply downloadFile_skips_existing.
Qed.

Lemma downloadFile_second_call_noop_witness :
  fst (downloadFile Demo.moved 2 Demo.zip_url Demo.zip_file Demo.site) = Resolved tt
  ∧ existsSync
      (files (snd (downloadFile Demo.moved 2 Demo.zip_url Demo.zip_file Demo.site)))
      Demo.zip_file = true
  ∧ downloadFile Demo.moved 2 Demo.zip_url Demo.zip_file
      (snd (downloadFile Demo.moved 2 Demo.zip_url Demo.zip_file Demo.site)) =
    (Resolved tt,
     State (files (snd (downloadFile Demo.moved 2 Demo.zip_url Demo.zip_file Demo.site)))
           (trace (snd (downloadFile Demo.moved 2 Demo.zip_url Demo.zip_file Demo.site))
            ++ [Console (MsgFileExists Demo.zip_file)])).
Proof.
  split; [vm_compute; reflexivity|].
  apply (downloadFile_second_call_noop Demo.moved 2 1 Demo.zip_url Demo.zip_file
           Demo.site).
  vm_compute. reflexivity.
Defined.

(** C8 as stated fails for a URL the server rejects: the first call fails
    and writes nothing, and the second call sends the request again. *)
Lemma downloadFile_failed_call_repeats :
  fst (downloadFile Demo.nothing_there 2 Demo.zip_url Demo.zip_file Demo.site)
    = Rejected "new Error Error: Not Found"
  ∧ downloadFile Demo.nothing_there 2 Demo.zip_url Demo.zip_file
      (snd (downloadFile Demo.nothing_there 2 Demo.zip_url Demo.zip_file Demo.site))
    = (Rejected "new Error Error: Not Found",
       State (files Demo.site) [Request Demo.zip_url; Request Demo.zip_url]).
Proof. split; vm_compute; reflexivity. Qed.

(** ** The file system *)

Lemma segs_app_slash (a b : string) : segs (a +:+ "/" +:+ b) = segs a ++ segs b.
Proof.
  unfold segs. change ("/" +:+ b) with (String slash b).
  by rewrite split_app, filter_app.
Qed.

Lemma segs_path_join (a b : string) : segs (path_join a b) = segs a ++ segs b.
Proof.
  unfold path_join.
  destruct (String.eqb_spec b "") as [->|_]; [by rewrite app_nil_r|].
  destruct (String.eqb_spec a "") as [->|_]; [done|].
  apply segs_app_slash.
Qed.

Lemma existsSync_true (fs : gmap (list string) node) (p : string) :
  existsSync fs p = true ↔ is_Some (lookup_path fs (segs p)).
Proof. unfold existsSync. apply bool_decide_eq_true. Qed.

Lemma lookup_path_mono (fs fs' : gmap (list string) node) (p : list string) :
  (∀ k, is_Some (fs !! k) → is_Some (fs' !! k)) →
  is_Some (lookup_path fs p) → is_Some (lookup_path fs' p).
Proof. intros Hmono. destruct p; simpl; [done|apply Hmono]. Qed.

Section Mkdirp.

Lemma mkdir1_preserves acc q k : is_Some (acc !! k) → is_Some (mkdir1 acc q !! k).
Proof.
  intros Hk. unfold mkdir1. destruct (acc !! q) eqn:Hq; [done|].
  destruct (decide (q = k)) as [->|Hne].
  - rewrite lookup_insert_eq. by eauto.
  - by rewrite lookup_insert_ne.
Qed.

Lemma mkdir1_creates acc q : is_Some (mkdir1 acc q !! q).
Proof.
  unfold mkdir1. destruct (acc !! q) eqn:Hq; [by rewrite Hq; eauto|].
  rewrite lookup_insert_eq. by eauto.
Qed.

Lemma fold_mkdir1_preserves qs acc k :
  is_Some (acc !! k) → is_Some (fold_left mkdir1 qs acc !! k).
Proof.
  revert acc. induction qs as [|q qs IH]; intros acc Hk; simpl; [done|].
  by apply IH, mkdir1_preserves.
Qed.

Lemma fold_mkdir1_creates qs acc q :
  q ∈ qs → is_Some (fold_left mkdir1 qs acc !! q).
Proof.
  revert acc. induction qs as [|q' qs IH]; intros acc Hin; simpl.
  - by apply not_elem_of_nil in Hin.
  - apply elem_of_cons in Hin as [->|Hin]; [|by apply IH].
    apply fold_mkdir1_preserves, mkdir1_creates.
Qed.

Lemma ancestors_self (p : list string) : p ≠ [] → p ∈ ancestors p.
Proof.
  induction p as [|x p IH]; intros Hne; [done|]. simpl.
  destruct p as [|y p]; [by left|].
  right. apply list_elem_of_fmap. exists (y :: p). split; [done|by apply IH].
Qed.

Lemma mkdirp_preserves (p : list string) (fs : gmap (list string) node) k :
  is_Some (fs !! k) → is_Some (mkdirp p fs !! k).
Proof. apply fold_mkdir1_preserves. Qed.

Lemma mkdirp_creates (p : list string) (fs : gmap (list string) node) :
  is_Some (lookup_path (mkdirp p fs) p).
Proof.
  destruct p as [|x p]; [by eauto|]. simpl lookup_path.
  by apply fold_mkdir1_creates, ancestors_self.
Qed.

End Mkdirp.

Lemma write_entry_preserves (dir : list string) (fs : gmap (list string) node)
    (e : entry) (k : list string) :
  is_Some (fs !! k) → is_Some (write_entry dir fs e !! k).
Proof.
  intros Hk. unfold write_entry.
  destruct (String.eqb _ _); [by apply mkdirp_preserves|].
  destruct (decide (dir ++ segs (fileName e) = k)) as [->|Hne].
  - rewrite lookup_insert_eq. by eauto.
  - rewrite lookup_insert_ne by done. by apply mkdirp_preserves.
Qed.

Lemma unpack_preserves (dir : list string) (entries : list entry)
    (fs : gmap (list string) node) (k : list string) :
  is_Some (fs !! k) → is_Some (unpack dir entries fs !! k).
Proof.
  intros Hk. unfold unpack.
  assert (Hfold : ∀ es acc, is_Some (acc !! k) →
                   is_Some (fold_left (write_entry dir) es acc !! k)).
  { induction es as [|e es IH]; intros acc Hacc; simpl; [done|].
    by apply IH, write_entry_preserves. }
  by apply Hfold, mkdirp_preserves.
Qed.

(** A checkout (or an extraction) creates its target directory. *)
Lemma unpack_creates (dir : list string) (entries : list entry)
    (fs : gmap (list string) node) :
  is_Some (lookup_path (unpack dir entries fs) dir).
Proof.
  apply (lookup_path_mono (mkdirp dir fs)); [|apply mkdirp_creates].
  intros k Hk. unfold unpack.
  assert (Hfold : ∀ es acc, is_Some (acc !! k) →
                   is_Some (fold_left (write_entry dir) es acc !! k)).
  { induction es as [|e es IH]; intros acc Hacc; simpl; [done|].
    by apply IH, write_entry_preserves. }
  by apply Hfold.
Qed.

(** A rename that succeeds leaves something at the new path. *)
Lemma renameSync_exists (oldPath newPath : string) (fs fs' : gmap (list string) node) :
  renameSync oldPath newPath fs = Some fs' → existsSync fs' newPath = true.
Proof.
  unfold renameSync. intros Hren. apply existsSync_true.
  destruct (lookup_path fs (segs oldPath)) as [v|] eqn:Hold; [|done].
  destruct (lookup_path fs (removelast (segs newPath))) as [[]|]; try done.
  destruct (lookup_path fs (segs newPath)) eqn:Hnew; [done|].
  destruct (bool_decide (segs oldPath `prefix_of` segs newPath)) eqn:Hpre; [done|].
  injection Hren as <-.
  destruct (segs newPath) as [|n ns] eqn:Hn; [done|].
  destruct (segs oldPath) as [|o os] eqn:Ho.
  { apply bool_decide_eq_false in Hpre. destruct Hpre. apply prefix_nil. }
  simpl in Hold |- *.
  destruct (list_to_map (prod_map (rekey (o :: os) (n :: ns)) id <$> map_to_list fs)
              !! (n :: ns)) eqn:Hl; [by eauto|].
  apply not_elem_of_list_to_map in Hl. destruct Hl.
  apply list_elem_of_fmap. exists (n :: ns, v). split; [done|].
  apply list_elem_of_fmap. exists (o :: os, v). split.
  - unfold prod_map, rekey. simpl.
    rewrite bool_decide_eq_true_2 by done.
    by rewrite drop_all, app_nil_r.
  - by apply elem_of_map_to_list.
Qed.

(** ** The build steps *)

Lemma read_package_name_run (env : Env) (packageJsonPath : string) (s : state) :
  read_package_name env packageJsonPath s =
  (fst (read_package_name env packageJsonPath (State (files s) [])), s).
Proof.
  unfold read_package_name. run.
  destruct (lookup_path (files s) (segs packageJsonPath)) as [[[entries|text]|]|];
    try done.
  by destruct (package_json_name env text).
Qed.

Lemma read_package_name_settles (env : Env) (packageJsonPath : string) (s : state) :
  (∃ packageName, fst (read_package_name env packageJsonPath s) = Resolved packageName)
  ∨ (∃ error, fst (read_package_name env packageJsonPath s) = Rejected error).
Proof.
  unfold read_package_name. run.
  destruct (lookup_path (files s) _) as [[[entries|text]|]|]; simpl; eauto.
  destruct (package_json_name env text); simpl; eauto.
Qed.

Lemma installNpmPackages_run (env : Env) (packageDirectory : string) (s : state) :
  installNpmPackages env packageDirectory s =
  if negb (existsSync (files s) (path_join packageDirectory "package.json"))
  then (Resolved tt, s)
  else
    match fst (read_package_name env (path_join packageDirectory "package.json")
                 (State (files s) [])) with
    | Resolved packageName =>
        let command := npm_command (files s) packageDirectory in
        if exit_code env command packageDirectory =? 0
        then (Resolved tt,
              State (files s)
                    (trace s ++ [Console (MsgNpmInstalling packageName);
                                 Exec command (Some packageDirectory);
                                 Console (MsgNpmBuilt packageName)]))
        else (Rejected ("Command failed: " +:+ command),
              State (files s)
                    (trace s ++ [Console (MsgNpmInstalling packageName);
                                 Exec command (Some packageDirectory)]))
    | Rejected error => (Rejected error, s)
    | Unsettled => (Unsettled, s)
    | OutOfFuel => (OutOfFuel, s)
    end.
Proof.
  unfold installNpmPackages, mbind, M_bind, bind, get_files at 1.
  destruct (negb (existsSync (files s) _)); [done|].
  rewrite read_package_name_run.
  destruct (fst (read_package_name env _ _)) as [packageName| | |]; try done.
  unfold npm_command, exec_await. run.
  destruct (existsSync (files s) (path_join packageDirectory "package-lock.json")).
  - destruct (exit_code env _ _ =? 0); cbn; by rewrite <- !app_assoc.
  - destruct (exit_code env _ _ =? 0); cbn; by rewrite <- !app_assoc.
Qed.

Lemma installComposer_run (repoPath : string) (s : state) :
  installComposer repoPath s =
  (Resolved tt,
   State (files s)
         (trace s ++ [Console MsgFoundComposer;
                      Exec "composer install --no-dev" (Some repoPath);
                      Exec "composer dumpautoload -o" (Some repoPath)])).
Proof. unfold installComposer. run. cbn. by rewrite <- !app_assoc. Qed.

Lemma postInstall_run (env : Env) (packageUrl pkgFolder : string) (s : state) :
  postInstall env packageUrl pkgFolder s =
  if Js.truthy packageUrl
  then match installNpmPackages env pkgFolder s with
       | (Resolved _, s') => installComposer pkgFolder s'
       | (Rejected error, s') => (Rejected error, s')
       | (Unsettled, s') => (Unsettled, s')
       | (OutOfFuel, s') => (OutOfFuel, s')
       end
  else (Resolved tt, s).
Proof. unfold postInstall. by destruct (Js.truthy packageUrl). Qed.

(** The build steps write no file and only add to the trace. *)
Lemma postInstall_files (env : Env) (packageUrl pkgFolder : string) (s : state) :
  files (snd (postInstall env packageUrl pkgFolder s)) = files s.
Proof.
  rewrite postInstall_run. destruct (Js.truthy packageUrl); [|done].
  rewrite installNpmPackages_run.
  destruct (negb _); [by rewrite installComposer_run|].
  destruct (fst (read_package_name env _ _)); try done.
  cbn zeta. destruct (exit_code env _ _ =? 0); [by rewrite installComposer_run|done].
Qed.

Lemma postInstall_trace_prefix (env : Env) (packageUrl pkgFolder : string) (s : state) :
  trace s `prefix_of` trace (snd (postInstall env packageUrl pkgFolder s)).
Proof.
  rewrite postInstall_run. destruct (Js.truthy packageUrl); [|done].
  rewrite installNpmPackages_run.
  destruct (negb _); [rewrite installComposer_run; by apply prefix_app_r|].
  destruct (fst (read_package_name env _ _)); try done.
  cbn zeta. destruct (exit_code env _ _ =? 0).
  - rewrite installComposer_run. cbn. rewrite <- app_assoc. by apply prefix_app_r.
  - by apply prefix_app_r.
Qed.

(** The build steps either resolve or reject. *)
Lemma postInstall_settles (env : Env) (packageUrl pkgFolder : string) (s : state) :
  fst (postInstall env packageUrl pkgFolder s) = Resolved tt
  ∨ ∃ error, fst (postInstall env packageUrl pkgFolder s) = Rejected error.
Proof.
  rewrite postInstall_run. destruct (Js.truthy packageUrl); [|by left].
  rewrite installNpmPackages_run.
  destruct (negb _); [by left|].
  unfold read_package_name. run.
  destruct (lookup_path (files s) _) as [[[entries|text]|]|]; simpl; eauto.
  destruct (package_json_name env text); simpl; eauto.
  destruct (exit_code env _ _ =? 0); simpl; eauto.
Qed.

(** ** [downloadPackage] and [install] *)

Lemma downloadPackage_run (env : Env) (fuel : nat) (this : Package)
    (packageUrl : string) (s : state) :
  downloadPackage env fuel this packageUrl s =
  if existsSync (files s) (pkgFolder_of this)
  then (Resolved tt,
        State (files s) (trace s ++ [Console (MsgFolderExists (pkgFolder_of this))]))
  else
    match acquire env fuel this packageUrl (pkgFolder_of this) s with
    | (Resolved _, s1) =>
        try_catch (postInstall env packageUrl (pkgFolder_of this)) (report this)
          (State (files s1)
                 (trace s1 ++ [Console (MsgInstalledIn (name (pkgInfo this)) packageUrl)]))
    | (Rejected error, s1) =>
        (Resolved tt,
         State (files s1)
               (trace s1 ++ [ConsoleError (MsgErrorDownloading (name (pkgInfo this)) error)]))
    | (Unsettled, s1) => (Unsettled, s1)
    | (OutOfFuel, s1) => (OutOfFuel, s1)
    end.
Proof.
  unfold downloadPackage, pkgFolder_of.
  unfold try_catch, mbind, M_bind, bind, get_files at 1.
  destruct (existsSync (files s) _); [done|].
  destruct (acquire env fuel this packageUrl _ s) as [[[]| | |] s1]; try done.
Qed.

Lemma install_run (env : Env) (fuel : nat) (this : Package) (s : state) :
  install env fuel this s =
  match downloadPackage env fuel this (packageUrl_of env this) s with
  | (Resolved _, s') =>
      (Resolved tt,
       State (files s')
             (trace s' ++ [Console (MsgTypeInstalled (packageType this)
                                                     (name (pkgInfo this)))]))
  | (Rejected error, s') => (Rejected error, s')
  | (Unsettled, s') => (Unsettled, s')
  | (OutOfFuel, s') => (OutOfFuel, s')
  end.
Proof.
  unfold install, mbind, M_bind, bind.
  by destruct (downloadPackage env fuel this _ s) as [[[]| | |] s'].
Qed.

(** No error leaves [downloadPackage], and none leaves [install]. *)
Lemma downloadPackage_never_rejects (env : Env) (fuel : nat) (this : Package)
    (packageUrl : string) (s : state) (error : string) :
  fst (downloadPackage env fuel this packageUrl s) ≠ Rejected error.
Proof.
  rewrite downloadPackage_run.
  destruct (existsSync (files s) _); [done|].
  destruct (acquire env fuel this packageUrl _ s) as [[[]| | |] s1]; try done.
  unfold try_catch.
  by destruct (postInstall env packageUrl _ _) as [[[]| | |] s2].
Qed.

Lemma install_never_rejects (env : Env) (fuel : nat) (this : Package) (s : state)
    (error : string) :
  fst (install env fuel this s) ≠ Rejected error.
Proof.
  rewrite install_run.
  pose proof (downloadPackage_never_rejects env fuel this (packageUrl_of env this) s)
    as Hdl.
  by destruct (downloadPackage env fuel this _ s) as [[[]|e| |] s'].
Qed.

(** Whatever the build steps do, [downloadPackage] returns normally once
    the package is in place: the files stay as they were placed and the
    trace only grows. *)
Lemma postInstall_caught (env : Env) (this : Package) (packageUrl : string) (s : state) :
  ∃ events,
    try_catch (postInstall env packageUrl (pkgFolder_of this)) (report this) s
    = (Resolved tt, State (files s) (trace s ++ events)).
Proof.
  unfold try_catch. rewrite postInstall_run.
  destruct (Js.truthy packageUrl);
    [|exists []; rewrite app_nil_r; by destruct s].
  rewrite installNpmPackages_run.
  destruct (negb _); [rewrite installComposer_run; by eauto|].
  destruct (read_package_name_settles env
              (path_join (pkgFolder_of this) "package.json") (State (files s) []))
    as [[packageName ->]|[error ->]]; [|unfold report; run; by eauto].
  cbn zeta. destruct (exit_code env _ _ =? 0).
  - rewrite installComposer_run. cbn. rewrite <- app_assoc. by eauto.
  - unfold report. run. rewrite <- app_assoc. by eauto.
Qed.

Lemma renameFolder_run (oldPath newPath : string) (s : state) :
  renameFolder oldPath newPath s =
  match renameSync oldPath newPath (files s) with
  | Some fs' => (Resolved tt, State fs' (trace s ++ [Rename oldPath newPath]))
  | None => (Rejected ("rename " +:+ oldPath +:+ " -> " +:+ newPath),
             State (files s) (trace s ++ [Rename oldPath newPath]))
  end.
Proof. unfold renameFolder. run. by destruct (renameSync oldPath newPath (files s)). Qed.

Lemma acquire_run (env : Env) (fuel : nat) (this : Package)
    (packageUrl pkgFolder : string) (s : state) :
  acquire env fuel this packageUrl pkgFolder s =
  if String.eqb (Js.pop (Js.split dot packageUrl)) "git"
  then match cloneRepo env this packageUrl s with
       | (Resolved _, s') => (Resolved tt, s')
       | (Rejected error, s') => (Rejected error, s')
       | (Unsettled, s') => (Unsettled, s')
       | (OutOfFuel, s') => (OutOfFuel, s')
       end
  else match execDownload env fuel this (name (pkgInfo this) +:+ ".zip") packageUrl s with
       | (Resolved extractedPath, s') =>
           renameFolder (path_join (tempDir this) extractedPath) pkgFolder s'
       | (Rejected error, s') => (Rejected error, s')
       | (Unsettled, s') => (Unsettled, s')
       | (OutOfFuel, s') => (OutOfFuel, s')
       end.
Proof.
  unfold acquire. destruct (String.eqb _ "git"); unfold mbind, M_bind, bind.
  - by destruct (cloneRepo env this packageUrl s) as [[| | |] s'].
  - done.
Qed.

(** When [acquire] resolves, the package folder exists. *)
Lemma acquire_places (env : Env) (fuel : nat) (this : Package) (packageUrl : string)
    (s : state) :
  fst (acquire env fuel this packageUrl (pkgFolder_of this) s) = Resolved tt →
  existsSync (files (snd (acquire env fuel this packageUrl (pkgFolder_of this) s)))
             (pkgFolder_of this) = true.
Proof.
  rewrite acquire_run. destruct (String.eqb _ "git").
  - unfold cloneRepo. run.
    destruct (git_tree env packageUrl) as [tree|]; simpl; [|done].
    intros _. apply existsSync_true. unfold pkgFolder_of.
    rewrite segs_path_join, <- segs_app_slash. apply unpack_creates.
  - destruct (execDownload env fuel this _ packageUrl s) as [[root| | |] s']; try done.
    rewrite renameFolder_run.
    destruct (renameSync _ _ (files s')) as [fs'|] eqn:Hren; simpl; [|done].
    intros _. by apply (renameSync_exists _ _ _ _ Hren).
Qed.

(** With the package folder on disk [install] changes no file and
    performs no clone, request, write, extraction, rename or subprocess:
    it prints two messages and resolves. *)
Lemma install_skips_existing (env : Env) (fuel : nat) (this : Package) (s : state) :
  existsSync (files s) (pkgFolder_of this) = true →
  install env fuel this s =
  (Resolved tt,
   State (files s)
         (trace s
          ++ [Console (MsgFolderExists (pkgFolder_of this));
              Console (MsgTypeInstalled (packageType this) (name (pkgInfo this)))])).
Proof.
  intros Hex. rewrite install_run, downloadPackage_run, Hex.
  cbn. by rewrite <- app_assoc.
Qed.



(** C5 (amended). When the download and extraction of an archive return
    an empty common root, [downloadPackage] raises no error of its own: it
    calls [renameFolder] with the staging directory itself as the old
    path and the package folder as the new path, and returns normally.
    When that rename succeeds the package is reported as installed and
    the package folder exists. *)
Theorem downloadPackage_empty_root_moves_staging (env : Env) (fuel : nat)
    (this : Package) (packageUrl : string) (s s1 : state) :
  existsSync (files s) (pkgFolder_of this) = false →
  String.eqb (Js.pop (Js.split dot packageUrl)) "git" = false →
  execDownload env fuel this (name (pkgInfo this) +:+ ".zip") packageUrl s
    = (Resolved "", s1) →
  acquire env fuel this packageUrl (pkgFolder_of this) s
    = renameFolder (tempDir this) (pkgFolder_of this) s1
  ∧ fst (downloadPackage env fuel this packageUrl s) = Resolved tt
  ∧ Rename (tempDir this) (pkgFolder_of this)
      ∈ trace (snd (downloadPackage env fuel this packageUrl s))
  ∧ ∀ fs', renameSync (tempDir this) (pkgFolder_of this) (files s1) = Some fs' →
      files (snd (downloadPackage env fuel this packageUrl s)) = fs'
      ∧ existsSync fs' (pkgFolder_of this) = true
      ∧ Console (MsgInstalledIn (name (pkgInfo this)) packageUrl)
          ∈ trace (snd (downloadPackage env fuel this packageUrl s)).
Proof.
  intros Hfresh Hgit Hexec.
  assert (Hacq : acquire env fuel this packageUrl (pkgFolder_of this) s
                 = renameFolder (tempDir this) (pkgFolder_of this) s1).
  { by rewrite acquire_run, Hgit, Hexec. }
  split; [done|].
  rewrite downloadPackage_run, Hfresh, Hacq, renameFolder_run.
  destruct (renameSync (tempDir this) (pkgFolder_of this) (files s1)) as [fs'|] eqn:Hren.
  - cbn [files trace].
    destruct (postInstall_caught env this packageUrl
                (State fs' ((trace s1 ++ [Rename (tempDir this) (pkgFolder_of this)])
                            ++ [Console (MsgInstalledIn (name (pkgInfo this)) packageUrl)])))
      as [events ->].
    cbn [fst snd files trace]. split; [done|]. split.
    + rewrite !elem_of_app, !list_elem_of_singleton. by eauto.
    + intros ? [= <-]. split; [done|]. split; [by apply (renameSync_exists _ _ _ _ Hren)|].
      rewrite !elem_of_app, !list_elem_of_singleton. by eauto.
  - cbn [fst snd files trace]. split; [done|]. split; [|done].
    rewrite !elem_of_app, !list_elem_of_singleton. by eauto.
Qed.

Lemma downloadPackage_empty_root_moves_staging_witness :
  fst (execDownload Demo.two_roots 3 (Demo.plugin Demo.zip_url) "demo.zip"
         Demo.zip_url Demo.site) = Resolved ""
  ∧ fst (downloadPackage Demo.two_roots 3 (Demo.plugin Demo.zip_url) Demo.zip_url
           Demo.site) = Resolved tt
  ∧ Rename "/site/temp" Demo.demo_folder
      ∈ trace (snd (downloadPackage Demo.two_roots 3 (Demo.plugin Demo.zip_url)
                      Demo.zip_url Demo.site)).
Proof.
  split; [vm_compute; reflexivity|].
  destruct (downloadPackage_empty_root_moves_staging Demo.two_roots 3
              (Demo.plugin Demo.zip_url) Demo.zip_url Demo.site
              (snd (execDownload Demo.two_roots 3 (Demo.plugin Demo.zip_url) "demo.zip"
                      Demo.zip_url Demo.site)))
    as (_ & Hresolved & Hrename & _).
  - vm_compute. reflexivity.
  - vm_compute. reflexivity.
  - vm_compute. reflexivity.
  - split; [exact Hresolved|exact Hrename].
Defined.

(** C5 as stated fails on an archive with the entries a/x and b/y: the
    extraction returns the empty root, the rename of the staging
    directory onto the package folder is performed and succeeds, no error
    is printed, and the package folder then holds what was in the staging
    directory, the downloaded archive included. *)
Lemma downloadPackage_empty_root_is_placed :
  fst (execDownload Demo.two_roots 3 (Demo.plugin Demo.zip_url) "demo.zip"
         Demo.zip_url Demo.site) = Resolved ""
  ∧ fst (downloadPackage Demo.two_roots 3 (Demo.plugin Demo.zip_url) Demo.zip_url
           Demo.site) = Resolved tt
  ∧ trace (snd (downloadPackage Demo.two_roots 3 (Demo.plugin Demo.zip_url)
                  Demo.zip_url Demo.site))
    = [Console (MsgDownloading "demo.zip" Demo.zip_file Demo.zip_url);
       Request Demo.zip_url;
       WriteFile Demo.zip_file;
       Console (MsgDownloadCompleted "demo.zip");
       Extract Demo.zip_file "/site/temp";
       Console MsgExtracted;
       Rename "/site/temp" Demo.demo_folder;
       Console (MsgInstalledIn "demo" Demo.zip_url);
       Console MsgFoundComposer;
       Exec "composer install --no-dev" (Some Demo.demo_folder);
       Exec "composer dumpautoload -o" (Some Demo.demo_folder)]
  ∧ existsSync (files (snd (downloadPackage Demo.two_roots 3 (Demo.plugin Demo.zip_url)
                              Demo.zip_url Demo.site)))
               (path_join Demo.demo_folder "demo.zip") = true
  ∧ existsSync (files (snd (downloadPackage Demo.two_roots 3 (Demo.plugin Demo.zip_url)
                              Demo.zip_url Demo.site)))
               "/site/temp" = false.
Proof. repeat split; vm_compute; reflexivity. Qed.

(** C1. Three installs that fail: the server answers 404, the download is
    no archive, the rename fails because the plugin directory is
    missing.  Each time [install] resolves, after printing the error and
    then the message that the package was installed, and the package
    folder does not exist. *)
Theorem install_resolves_after_failure :
  install Demo.nothing_there 3 (Demo.plugin Demo.zip_url) Demo.site =
    (Resolved tt,
     State (files Demo.site)
           [Console (MsgDownloading "demo.zip" Demo.zip_file Demo.zip_url);
            Request Demo.zip_url;
            ConsoleError (MsgErrorDownloading "demo" "new Error Error: Not Found");
            Console (MsgTypeInstalled "plugin" "demo")])
  ∧ (fst (install Demo.garbage 3 (Demo.plugin Demo.zip_url) Demo.site) = Resolved tt
     ∧ trace (snd (install Demo.garbage 3 (Demo.plugin Demo.zip_url) Demo.site))
       = [Console (MsgDownloading "demo.zip" Demo.zip_file Demo.zip_url);
          Request Demo.zip_url;
          WriteFile Demo.zip_file;
          Console (MsgDownloadCompleted "demo.zip");
          Extract Demo.zip_file "/site/temp";
          ConsoleError
            (MsgErrorDownloading "demo" "Error extracting /site/temp/demo.zip zip");
          Console (MsgTypeInstalled "plugin" "demo")]
     ∧ existsSync (files (snd (install Demo.garbage 3 (Demo.plugin Demo.zip_url)
                                 Demo.site))) Demo.demo_folder = false)
  ∧ (fst (install Demo.plain 3 (Demo.plugin Demo.zip_url) Demo.no_plugins) = Resolved tt
     ∧ trace (snd (install Demo.plain 3 (Demo.plugin Demo.zip_url) Demo.no_plugins))
       = [Console (MsgDownloading "demo.zip" Demo.zip_file Demo.zip_url);
          Request Demo.zip_url;
          WriteFile Demo.zip_file;
          Console (MsgDownloadCompleted "demo.zip");
          Extract Demo.zip_file "/site/temp";
          Console MsgExtracted;
          Rename "/site/temp/demo-1.0" Demo.demo_folder;
          ConsoleError
            (MsgErrorDownloading "demo"
               "rename /site/temp/demo-1.0 -> /site/wp-content/plugins/demo");
          Console (MsgTypeInstalled "plugin" "demo")]
     ∧ existsSync (files (snd (install Demo.plain 3 (Demo.plugin Demo.zip_url)
                                 Demo.no_plugins))) Demo.demo_folder = false).
Proof. repeat split; vm_compute; reflexivity. Qed.

(** A redirect to a URL the server rejects: the error is thrown inside
    the response callback, and [install] never completes. *)
Lemma install_hangs_after_failed_redirect :
  fst (install
         (Demo.world [(Demo.zip_url,
                       Response (Some 301) "Moved Permanently" (Some Demo.real_url)
                                (Bytes ""))] 0)
         3 (Demo.plugin Demo.zip_url) Demo.site) = Unsettled.
Proof. vm_compute. reflexivity. Qed.

(** C6. A package placed without any manifest: no composer.json and no
    package.json in the package folder, and yet both composer commands
    are run in it. *)
Theorem install_runs_composer_without_manifest :
  install Demo.plain 3 (Demo.plugin Demo.zip_url) Demo.site =
    (Resolved tt,
     State (files (snd (install Demo.plain 3 (Demo.plugin Demo.zip_url) Demo.site)))
           [Console (MsgDownloading "demo.zip" Demo.zip_file Demo.zip_url);
            Request Demo.zip_url;
            WriteFile Demo.zip_file;
            Console (MsgDownloadCompleted "demo.zip");
            Extract Demo.zip_file "/site/temp";
            Console MsgExtracted;
            Rename "/site/temp/demo-1.0" Demo.demo_folder;
            Console (MsgInstalledIn "demo" Demo.zip_url);
            Console MsgFoundComposer;
            Exec "composer install --no-dev" (Some Demo.demo_folder);
            Exec "composer dumpautoload -o" (Some Demo.demo_folder);
            Console (MsgTypeInstalled "plugin" "demo")])
  ∧ existsSync (files (snd (install Demo.plain 3 (Demo.plugin Demo.zip_url) Demo.site)))
               (path_join Demo.demo_folder "demo.php") = true
  ∧ existsSync (files (snd (install Demo.plain 3 (Demo.plugin Demo.zip_url) Demo.site)))
               (path_join Demo.demo_folder "composer.json") = false
  ∧ existsSync (files (snd (install Demo.plain 3 (Demo.plugin Demo.zip_url) Demo.site)))
               (path_join Demo.demo_folder "package.json") = false.
Proof. repeat split; vm_compute; reflexivity. Qed.

(** ** Extracting twice *)

Lemma local_update_compose (g1 g2 : option node → option node) :
  local_update g1 → local_update g2 → local_update (λ o, g2 (g1 o)).
Proof.
  intros [H1|v1 Hv1 H1|H1] [H2|v2 Hv2 H2|H2].
  - apply lu_keep. intros o. by rewrite H2, H1.
  - apply (lu_put _ v2); [done|]. intros o. by rewrite H2.
  - apply lu_mkdir. intros o. by rewrite H2, H1.
  - apply (lu_put _ v1); [done|]. intros o. by rewrite H2, H1.
  - apply (lu_put _ v2); [done|]. intros o. by rewrite H2.
  - apply (lu_put _ v1); [done|]. intros o. by rewrite H2, H1.
  - apply lu_mkdir. intros o. by rewrite H2, H1.
  - apply (lu_put _ v2); [done|]. intros o. by rewrite H2.
  - apply lu_mkdir. intros o. rewrite H2, H1. by destruct o.
Qed.

Lemma local_update_idem (g : option node → option node) (o : option node) :
  local_update g → g (g o) = g o.
Proof.
  intros [H|v Hv H|H]; rewrite !H; [done|done|by destruct o].
Qed.

Lemma local_update_archive (g : option node → option node) (o : option node)
    (entries : list entry) :
  local_update g → g o = Some (File (Archive entries)) →
  o = Some (File (Archive entries)).
Proof.
  intros [H|v Hv H|H]; rewrite H; [done| |].
  - intros [= ->]. done.
  - destruct o; simpl; [done|discriminate].
Qed.

Lemma pointwise_compose (T1 T2 : gmap (list string) node → gmap (list string) node) :
  pointwise T1 → pointwise T2 → pointwise (λ fs, T2 (T1 fs)).
Proof.
  intros H1 H2 k. destruct (H1 k) as [g1 [Hg1 E1]], (H2 k) as [g2 [Hg2 E2]].
  exists (λ o, g2 (g1 o)). split; [by apply local_update_compose|].
  intros fs. by rewrite E2, E1.
Qed.

Lemma pointwise_mkdir1 (q : list string) : pointwise (λ fs, mkdir1 fs q).
Proof.
  intros k. destruct (decide (q = k)) as [->|Hne].
  - exists (λ o, Some (default Dir o)). split; [by apply lu_mkdir|].
    intros fs. unfold mkdir1. destruct (fs !! k) eqn:Hk; simpl.
    + by rewrite Hk.
    + by rewrite lookup_insert_eq.
  - exists (λ o, o). split; [by apply lu_keep|].
    intros fs. unfold mkdir1. destruct (fs !! q); [done|].
    by rewrite lookup_insert_ne.
Qed.

Lemma pointwise_insert (q : list string) (v : node) :
  non_archive v → pointwise (λ fs, <[q := v]> fs).
Proof.
  intros Hv k. destruct (decide (q = k)) as [->|Hne].
  - exists (λ _, Some v). split; [by apply (lu_put _ v)|].
    intros fs. by rewrite lookup_insert_eq.
  - exists (λ o, o). split; [by apply lu_keep|].
    intros fs. by rewrite lookup_insert_ne.
Qed.

Lemma pointwise_fold_left {X} (f : gmap (list string) node → X → gmap (list string) node)
    (xs : list X) :
  (∀ x, pointwise (λ fs, f fs x)) → pointwise (λ fs, fold_left f xs fs).
Proof.
  intros Hf. induction xs as [|x xs IH]; simpl.
  - intros k. exists (λ o, o). split; [by apply lu_keep|done].
  - apply (pointwise_compose (λ fs, f fs x) (λ fs, fold_left f xs fs)); [apply Hf|done].
Qed.

Lemma pointwise_mkdirp (p : list string) : pointwise (mkdirp p).
Proof. apply (pointwise_fold_left mkdir1). apply pointwise_mkdir1. Qed.

Lemma pointwise_write_entry (dir : list string) (e : entry) :
  pointwise (λ fs, write_entry dir fs e).
Proof.
  unfold write_entry. destruct (String.eqb _ _); [apply pointwise_mkdirp|].
  apply (pointwise_compose (mkdirp _) (λ fs, <[_ := _]> fs));
    [apply pointwise_mkdirp|by apply pointwise_insert].
Qed.

Lemma pointwise_unpack (dir : list string) (entries : list entry) :
  pointwise (unpack dir entries).
Proof.
  unfold unpack.
  apply (pointwise_compose (mkdirp dir) (λ fs, fold_left (write_entry dir) entries fs));
    [apply pointwise_mkdirp|].
  apply pointwise_fold_left. apply pointwise_write_entry.
Qed.

(** Extracting the same archive a second time changes nothing. *)
Lemma unpack_idem (dir : list string) (entries : list entry)
    (fs : gmap (list string) node) :
  unpack dir entries (unpack dir entries fs) = unpack dir entries fs.
Proof.
  apply map_eq. intros k.
  destruct (pointwise_unpack dir entries k) as [g [Hg E]].
  rewrite !E. by apply local_update_idem.
Qed.

(** An archive found after an extraction was there before it. *)
Lemma unpack_archive (dir : list string) (entries es : list entry)
    (fs : gmap (list string) node) (p : list string) :
  lookup_path (unpack dir entries fs) p = Some (File (Archive es)) →
  lookup_path fs p = Some (File (Archive es)).
Proof.
  destruct p as [|x p]; [done|]. simpl.
  destruct (pointwise_unpack dir entries (x :: p)) as [g [Hg E]].
  rewrite E. by apply local_update_archive.
Qed.

(** ** Outcome and files do not depend on the trace *)

Lemma stable_resolve {A} (a : A) : stable (resolve a).
Proof. by intros s1 s2 H. Qed.

Lemma stable_reject {A} (error : string) : stable (@reject A error).
Proof. by intros s1 s2 H. Qed.

Lemma stable_emit (e : event) : stable (emit e).
Proof. by intros s1 s2 H. Qed.

Lemma stable_set_files (fs : gmap (list string) node) : stable (set_files fs).
Proof. by intros s1 s2 H. Qed.

Lemma stable_bind {A B} (m : M A) (k : A → M B) :
  stable m → (∀ a, stable (k a)) → stable (bind m k).
Proof.
  intros Hm Hk s1 s2 H. destruct (Hm s1 s2 H) as [Ho Hf]. unfold bind.
  destruct (m s1) as [o1 s1'], (m s2) as [o2 s2']. simpl in Ho, Hf. subst o2.
  destruct o1; [by apply Hk|done..].
Qed.

Lemma stable_get_files {B} (k : gmap (list string) node → M B) :
  (∀ fs, stable (k fs)) → stable (bind get_files k).
Proof.
  intros Hk s1 s2 H. unfold bind, get_files. rewrite H. by apply Hk.
Qed.

Lemma stable_try_catch {A} (body : M A) (handler : string → M A) :
  stable body → (∀ e, stable (handler e)) → stable (try_catch body handler).
Proof.
  intros Hm Hk s1 s2 H. destruct (Hm s1 s2 H) as [Ho Hf]. unfold try_catch.
  destruct (body s1) as [o1 s1'], (body s2) as [o2 s2']. simpl in Ho, Hf. subst o2.
  destruct o1; [done|by apply Hk|done..].
Qed.

Lemma stable_await (inner : M unit) : stable inner → stable (await_in_callback inner).
Proof.
  intros Hm s1 s2 H. destruct (Hm s1 s2 H) as [Ho Hf]. unfold await_in_callback.
  destruct (inner s1) as [o1 s1'], (inner s2) as [o2 s2']. simpl in Ho, Hf. subst o2.
  by destruct o1.
Qed.

Lemma stable_pipe (targetFile : string) (body : content) :
  stable (pipe_to_file targetFile body).
Proof.
  intros s1 s2 H. unfold pipe_to_file. rewrite H.
  destruct (lookup_path (files s2) _) as [[]|]; split; simpl; congruence.
Qed.

Ltac stable_step :=
  lazymatch goal with
  | |- stable (resolve _) => apply stable_resolve
  | |- stable (reject _) => apply stable_reject
  | |- stable (emit _) => apply stable_emit
  | |- stable (set_files _) => apply stable_set_files
  | |- stable (pipe_to_file _ _) => apply stable_pipe
  | |- stable (await_in_callback _) => apply stable_await
  | |- stable (bind get_files _) => apply stable_get_files; intros ?
  | |- stable (bind _ _) => apply stable_bind; [|intros ?]
  | |- stable (try_catch _ _) => apply stable_try_catch; [|intros ?]
  | |- stable (if ?b then _ else _) => destruct b
  | |- stable (match ?x with _ => _ end) => destruct x
  end.

Ltac stable_auto :=
  unfold mbind, M_bind, mret, M_ret, console_log, console_error;
  repeat stable_step.

Lemma stable_downloadFile (env : Env) (fuel : nat) (url targetFile : string) :
  stable (downloadFile env fuel url targetFile).
Proof.
  revert url. induction fuel as [|fuel IH]; intros url; [by intros s1 s2 H|].
  cbn [downloadFile]. stable_auto. apply IH.
Qed.

Lemma stable_extractZip (zipFilePath targetDirectory : string) :
  stable (extractZip zipFilePath targetDirectory).
Proof. unfold extractZip. stable_auto. Qed.

Lemma stable_renameFolder (oldPath newPath : string) :
  stable (renameFolder oldPath newPath).
Proof. unfold renameFolder. stable_auto. Qed.

Lemma stable_execDownload (env : Env) (fuel : nat) (this : Package)
    (filename downloadUrl : string) :
  stable (execDownload env fuel this filename downloadUrl).
Proof.
  unfold execDownload. stable_auto;
    [apply stable_downloadFile|apply stable_extractZip].
Qed.

Lemma stable_cloneRepo (env : Env) (this : Package) (packageUrl : string) :
  stable (cloneRepo env this packageUrl).
Proof. unfold cloneRepo. stable_auto. Qed.

Lemma stable_acquire (env : Env) (fuel : nat) (this : Package)
    (packageUrl pkgFolder : string) :
  stable (acquire env fuel this packageUrl pkgFolder).
Proof.
  unfold acquire. stable_auto;
    [apply stable_cloneRepo|apply stable_execDownload|apply stable_renameFolder].
Qed.

(** ** Calling again after a failure *)

(** A download that does not resolve leaves the files as they were. *)
Lemma downloadFile_failed_files (env : Env) (fuel : nat) (url targetFile : string)
    (s : state) :
  fst (downloadFile env fuel url targetFile s) ≠ Resolved tt →
  files (snd (downloadFile env fuel url targetFile s)) = files s.
Proof.
  revert url s. induction fuel as [|fuel IH]; intros url s; [done|].
  rewrite downloadFile_run.
  destruct (existsSync (files s) targetFile) eqn:Hex; [done|].
  destruct (https_get env url) as [statusCode statusMessage location body|error]; [|done].
  cbn zeta. destruct (default 0 statusCode >=? 400); [done|].
  destruct ((300 <? default 0 statusCode) && (default 0 statusCode <? 400)
            && Js.truthy_opt location).
  - unfold await_in_callback.
    specialize (IH (default "" location)
                  (State (files s) (trace s ++ [Request url]))).
    destruct (downloadFile env fuel (default "" location) targetFile _) as [[[]| | |] s'];
      simpl in *; intros H; try done; by apply IH.
  - unfold pipe_to_file. simpl.
    by destruct (lookup_path (files s) (removelast (segs targetFile))) as [[]|].
Qed.

Lemma execDownload_run (env : Env) (fuel : nat) (this : Package)
    (filename downloadUrl : string) (s : state) :
  execDownload env fuel this filename downloadUrl s =
  match downloadFile env fuel downloadUrl (path_join (tempDir this) filename)
          (State (files s)
             (trace s ++ [Console (MsgDownloading (Js.pop (Js.split slash downloadUrl))
                                     (path_join (tempDir this) filename) downloadUrl)]))
  with
  | (Resolved _, s') =>
      extractZip (path_join (tempDir this) filename) (tempDir this)
        (State (files s')
           (trace s' ++ [Console (MsgDownloadCompleted
                                    (Js.pop (Js.split slash downloadUrl)))]))
  | (Rejected error, s') => (Rejected error, s')
  | (Unsettled, s') => (Unsettled, s')
  | (OutOfFuel, s') => (OutOfFuel, s')
  end.
Proof.
  unfold execDownload, mbind, M_bind, bind, console_log, emit. cbn [files trace].
  by destruct (downloadFile env fuel downloadUrl _ _) as [[[]| | |] s'].
Qed.

(** The files [execDownload] leaves when run again on the files it left. *)
Lemma execDownload_again (env : Env) (fuel : nat) (this : Package)
    (filename downloadUrl : string) (s : state) :
  fst (execDownload env fuel this filename downloadUrl s) ≠ Unsettled →
  fst (execDownload env fuel this filename downloadUrl s) ≠ OutOfFuel →
  same_files
    (execDownload env fuel this filename downloadUrl
       (snd (execDownload env fuel this filename downloadUrl s)))
    (execDownload env fuel this filename downloadUrl s)
  ∨ (∃ e, fst (execDownload env fuel this filename downloadUrl s) = Resolved e
          ∧ ∃ error,
              fst (execDownload env fuel this filename downloadUrl
                     (snd (execDownload env fuel this filename downloadUrl s)))
                = Rejected error
              ∧ files (snd (execDownload env fuel this filename downloadUrl
                        (snd (execDownload env fuel this filename downloadUrl s))))
                = files (snd (execDownload env fuel this filename downloadUrl s))).
Proof.
  intros Hsettled Hfuel.
  set (zip := path_join (tempDir this) filename).
  set (log1 := Console (MsgDownloading (Js.pop (Js.split slash downloadUrl)) zip downloadUrl)).
  set (log2 := Console (MsgDownloadCompleted (Js.pop (Js.split slash downloadUrl)))).
  pose proof (execDownload_run env fuel this filename downloadUrl s) as Hrun.
  fold zip log1 log2 in Hrun.
  pose proof (downloadFile_failed_files env fuel downloadUrl zip
                (State (files s) (trace s ++ [log1]))) as Hfailed.
  pose proof (downloadFile_resolved_exists env fuel downloadUrl zip
                (State (files s) (trace s ++ [log1]))) as Hexists.
  destruct (downloadFile env fuel downloadUrl zip (State (files s) (trace s ++ [log1])))
    as [[[]|e| |] sd] eqn:Hdl; simpl in Hfailed, Hexists.
  - (* the download resolved: the archive is on disk *)
    specialize (Hexists eq_refl).
    destruct fuel as [|fuel]; [done|].
    rewrite extractZip_run in Hrun. cbn [files trace] in Hrun.
    destruct (lookup_path (files sd) (segs zip)) as [[[entries|text]|]|] eqn:Hzip.
    + (* an archive: what can be extracted of it is extracted *)
      assert (Hex' : existsSync (unpack (segs (tempDir this)) (visited entries) (files sd))
                       zip = true).
      { apply existsSync_true. apply existsSync_true in Hexists.
        apply (lookup_path_mono (files sd)); [|done].
        intros k. apply unpack_preserves. }
      destruct (refused entries) eqn:Href.
      * left. rewrite Hrun. cbn [fst snd].
        rewrite execDownload_run. fold zip log1 log2. cbn [files trace].
        rewrite (downloadFile_skips_existing env fuel downloadUrl zip (State _ _) Hex').
        rewrite extractZip_run. cbn [files trace].
        destruct (lookup_path (unpack (segs (tempDir this)) (visited entries) (files sd))
                    (segs zip)) as [[[es|text]|]|] eqn:Hzip'; [|done..].
        apply unpack_archive in Hzip'. rewrite Hzip in Hzip'. injection Hzip' as <-.
        rewrite Href. split; cbn [fst snd files]; [done|]. apply unpack_idem.
      * rewrite Hrun. cbn [fst snd].
        rewrite execDownload_run. fold zip log1 log2. cbn [files trace].
        rewrite (downloadFile_skips_existing env fuel downloadUrl zip (State _ _) Hex').
        rewrite extractZip_run. cbn [files trace].
        destruct (lookup_path (unpack (segs (tempDir this)) (visited entries) (files sd))
                    (segs zip)) as [[[es|text]|]|] eqn:Hzip'.
        -- apply unpack_archive in Hzip'. rewrite Hzip in Hzip'. injection Hzip' as <-.
           rewrite Href. left. split; cbn [fst snd files]; [done|]. apply unpack_idem.
        -- right. exists (commonRoot (fileName <$> visited entries)).
           split; [done|]. by eauto.
        -- right. exists (commonRoot (fileName <$> visited entries)).
           split; [done|]. by eauto.
        -- right. exists (commonRoot (fileName <$> visited entries)).
           split; [done|]. by eauto.
    + left. rewrite Hrun. cbn [fst snd].
      rewrite execDownload_run. fold zip log1 log2. cbn [files trace].
      rewrite (downloadFile_skips_existing env fuel downloadUrl zip (State _ _) Hexists).
      rewrite extractZip_run. cbn [files trace]. by rewrite Hzip.
    + left. rewrite Hrun. cbn [fst snd].
      rewrite execDownload_run. fold zip log1 log2. cbn [files trace].
      rewrite (downloadFile_skips_existing env fuel downloadUrl zip (State _ _) Hexists).
      rewrite extractZip_run. cbn [files trace]. by rewrite Hzip.
    + left. rewrite Hrun. cbn [fst snd].
      rewrite execDownload_run. fold zip log1 log2. cbn [files trace].
      rewrite (downloadFile_skips_existing env fuel downloadUrl zip (State _ _) Hexists).
      rewrite extractZip_run. cbn [files trace]. by rewrite Hzip.
  - (* the download was rejected: nothing changed, the same happens again *)
    left. apply stable_execDownload. rewrite Hrun. cbn [snd]. by apply Hfailed.
  - by rewrite Hrun in Hsettled.
  - by rewrite Hrun in Hfuel.
Qed.

Lemma cloneRepo_run (env : Env) (this : Package) (packageUrl : string) (s : state) :
  cloneRepo env this packageUrl s =
  let target := destFolder this +:+ "/" +:+ name (pkgInfo this) in
  let command := "git clone " +:+ packageUrl +:+ " " +:+ target in
  match git_tree env packageUrl with
  | Some tree =>
      (Resolved (name (pkgInfo this)),
       State (unpack (segs target) tree (files s)) (trace s ++ [Exec command None]))
  | None =>
      (Rejected ("Command failed: " +:+ command),
       State (files s)
             (trace s ++ [Exec command None;
                          Console (MsgCloneFailed ("Command failed: " +:+ command))]))
  end.
Proof.
  unfold cloneRepo. run. destruct (git_tree env packageUrl); [done|].
  cbn. by rewrite <- app_assoc.
Qed.

(** [acquire] run again on the files a rejected [acquire] left changes no
    file. *)
Lemma acquire_again (env : Env) (fuel : nat) (this : Package)
    (packageUrl pkgFolder : string) (s : state) (error : string) :
  fst (acquire env fuel this packageUrl pkgFolder s) = Rejected error →
  files (snd (acquire env fuel this packageUrl pkgFolder
                (snd (acquire env fuel this packageUrl pkgFolder s))))
  = files (snd (acquire env fuel this packageUrl pkgFolder s)).
Proof.
  intros Hrej.
  pose proof (acquire_run env fuel this packageUrl pkgFolder s) as Hrun.
  destruct (String.eqb (Js.pop (Js.split dot packageUrl)) "git") eqn:Hgit.
  - (* a clone that failed fails again *)
    rewrite cloneRepo_run in Hrun. cbn zeta in Hrun.
    destruct (git_tree env packageUrl) as [tree|] eqn:Htree;
      [by rewrite Hrun in Hrej|].
    rewrite Hrun. cbn [snd]. rewrite acquire_run, Hgit, cloneRepo_run, Htree. done.
  - pose proof (execDownload_again env fuel this (name (pkgInfo this) +:+ ".zip")
                  packageUrl s) as Hagain.
    destruct (execDownload env fuel this (name (pkgInfo this) +:+ ".zip") packageUrl s)
      as [[root|e| |] sd] eqn:Hexec; cbn [fst snd] in Hagain;
      [| |by rewrite Hrun in Hrej..].
    + (* extracted, and the rename failed *)
      rewrite renameFolder_run in Hrun.
      destruct (renameSync (path_join (tempDir this) root) pkgFolder (files sd))
        as [fs'|] eqn:Hren; [by rewrite Hrun in Hrej|].
      rewrite Hrun. cbn [snd].
      destruct (stable_acquire env fuel this packageUrl pkgFolder
                  (State (files sd)
                     (trace sd ++ [Rename (path_join (tempDir this) root) pkgFolder]))
                  sd eq_refl) as [_ ->].
      rewrite acquire_run, Hgit.
      destruct Hagain as [[Ho Hf]|(_ & _ & err & Ho & Hf)]; [done|done| |].
      * destruct (execDownload env fuel this _ packageUrl sd) as [o2 s2].
        simpl in Ho, Hf. subst o2. rewrite renameFolder_run, Hf, Hren. done.
      * destruct (execDownload env fuel this _ packageUrl sd) as [o2 s2].
        simpl in Ho, Hf. by subst o2.
    + (* the download or the extraction failed *)
      rewrite Hrun. cbn [snd]. rewrite acquire_run, Hgit.
      destruct Hagain as [[Ho Hf]|(r & Hr & _)]; [done|done| |done].
      destruct (execDownload env fuel this _ packageUrl sd) as [o2 s2].
      simpl in Ho, Hf. by subst o2.
Qed.

Lemma downloadPackage_files (env : Env) (fuel : nat) (this : Package)
    (packageUrl : string) (s : state) :
  files (snd (downloadPackage env fuel this packageUrl s)) =
  if existsSync (files s) (pkgFolder_of this) then files s
  else files (snd (acquire env fuel this packageUrl (pkgFolder_of this) s)).
Proof.
  rewrite downloadPackage_run.
  destruct (existsSync (files s) (pkgFolder_of this)); [done|].
  destruct (acquire env fuel this packageUrl _ s) as [[[]| | |] s1]; try done.
  by destruct (postInstall_caught env this packageUrl
                 (State (files s1)
                    (trace s1 ++ [Console (MsgInstalledIn (name (pkgInfo this)) packageUrl)])))
    as [events ->].
Qed.

Lemma install_files (env : Env) (fuel : nat) (this : Package) (s : state) :
  files (snd (install env fuel this s)) =
  files (snd (downloadPackage env fuel this (packageUrl_of env this) s)).
Proof.
  rewrite install_run.
  by destruct (downloadPackage env fuel this _ s) as [[[]| | |] s'].
Qed.

(** When [install] returns and the package folder is not there, the
    acquisition was rejected. *)
Lemma install_returned_unplaced (env : Env) (fuel : nat) (this : Package) (s : state) :
  fst (install env fuel this s) = Resolved tt →
  existsSync (files s) (pkgFolder_of this) = false →
  existsSync (files (snd (install env fuel this s))) (pkgFolder_of this) = false →
  ∃ error,
    fst (acquire env fuel this (packageUrl_of env this) (pkgFolder_of this) s)
    = Rejected error.
Proof.
  intros Hret Hfresh Hafter.
  rewrite install_files, downloadPackage_files, Hfresh in Hafter.
  rewrite install_run, downloadPackage_run, Hfresh in Hret.
  pose proof (acquire_places env fuel this (packageUrl_of env this) s) as Hplaced.
  destruct (acquire env fuel this _ _ s) as [[[]|e| |] s1]; simpl in *;
    [|by eauto|done..].
  rewrite Hplaced in Hafter; done.
Qed.

(** C7. After a call of [install] that returned, a second call leaves the
    files exactly as the first call left them.  When the package folder
    exists after the first call, the second call performs no clone,
    request, write, extraction, rename or subprocess: it prints two
    messages and resolves. *)
Theorem install_idempotent (env : Env) (fuel : nat) (this : Package) (s : state) :
  fst (install env fuel this s) = Resolved tt →
  files (snd (install env fuel this (snd (install env fuel this s))))
    = files (snd (install env fuel this s))
  ∧ (existsSync (files (snd (install env fuel this s))) (pkgFolder_of this) = true →
     ∀ fuel2,
       install env fuel2 this (snd (install env fuel this s)) =
       (Resolved tt,
        State (files (snd (install env fuel this s)))
              (trace (snd (install env fuel this s))
               ++ [Console (MsgFolderExists (pkgFolder_of this));
                   Console (MsgTypeInstalled (packageType this)
                                             (name (pkgInfo this)))]))).
Proof.
  intros Hret. split; [|intros Hex fuel2; by apply install_skips_existing].
  destruct (existsSync (files (snd (install env fuel this s))) (pkgFolder_of this))
    eqn:Hafter; [by rewrite install_skips_existing|].
  destruct (existsSync (files s) (pkgFolder_of this)) eqn:Hfresh.
  { rewrite install_skips_existing in Hafter by done. simpl in Hafter. congruence. }
  destruct (install_returned_unplaced env fuel this s Hret Hfresh Hafter)
    as [error Hrej].
  assert (Hfiles : files (snd (install env fuel this s))
            = files (snd (acquire env fuel this (packageUrl_of env this)
                            (pkgFolder_of this) s))).
  { by rewrite install_files, downloadPackage_files, Hfresh. }
  rewrite (install_files env fuel this (snd _)), downloadPackage_files, Hafter.
  destruct (stable_acquire env fuel this (packageUrl_of env this) (pkgFolder_of this)
              _ _ Hfiles) as [_ ->].
  rewrite Hfiles. by apply (acquire_again _ _ _ _ _ _ error).
Qed.

Lemma install_idempotent_witness :
  fst (install Demo.plain 3 (Demo.plugin Demo.zip_url) Demo.site) = Resolved tt
  ∧ existsSync (files (snd (install Demo.plain 3 (Demo.plugin Demo.zip_url) Demo.site)))
               Demo.demo_folder = true
  ∧ files (snd (install Demo.plain 3 (Demo.plugin Demo.zip_url)
                  (snd (install Demo.plain 3 (Demo.plugin Demo.zip_url) Demo.site))))
    = files (snd (install Demo.plain 3 (Demo.plugin Demo.zip_url) Demo.site))
  ∧ (existsSync (files (snd (install Demo.plain 3 (Demo.plugin Demo.zip_url) Demo.site)))
                Demo.demo_folder = true →
     ∀ fuel2,
       install Demo.plain fuel2 (Demo.plugin Demo.zip_url)
         (snd (install Demo.plain 3 (Demo.plugin Demo.zip_url) Demo.site)) =
       (Resolved tt,
        State (files (snd (install Demo.plain 3 (Demo.plugin Demo.zip_url) Demo.site)))
              (trace (snd (install Demo.plain 3 (Demo.plugin Demo.zip_url) Demo.site))
               ++ [Console (MsgFolderExists Demo.demo_folder);
                   Console (MsgTypeInstalled "plugin" "demo")]))).
Proof.
  split; [vm_compute; reflexivity|]. split; [vm_compute; reflexivity|].
  apply (install_idempotent Demo.plain 3 (Demo.plugin Demo.zip_url) Demo.site).
  vm_compute. reflexivity.
Defined.

(** A first call whose rename failed (the plugin directory is missing):
    the second call extracts the archive again and fails again, and the
    files are the same after both. *)
Lemma install_again_after_failed_rename :
  existsSync (files (snd (install Demo.plain 3 (Demo.plugin Demo.zip_url)
                            Demo.no_plugins))) Demo.demo_folder = false
  ∧ files (snd (install Demo.plain 3 (Demo.plugin Demo.zip_url)
                  (snd (install Demo.plain 3 (Demo.plugin Demo.zip_url)
                          Demo.no_plugins))))
    = files (snd (install Demo.plain 3 (Demo.plugin Demo.zip_url) Demo.no_plugins))
  ∧ trace (snd (install Demo.plain 3 (Demo.plugin Demo.zip_url)
                  (State (files (snd (install Demo.plain 3 (Demo.plugin Demo.zip_url)
                                        Demo.no_plugins))) [])))
    = [Console (MsgDownloading "demo.zip" Demo.zip_file Demo.zip_url);
       Console (MsgFileExists Demo.zip_file);
       Console (MsgDownloadCompleted "demo.zip");
       Extract Demo.zip_file "/site/temp";
       Console MsgExtracted;
       Rename "/site/temp/demo-1.0" Demo.demo_folder;
       ConsoleError
         (MsgErrorDownloading "demo"
            "rename /site/temp/demo-1.0 -> /site/wp-content/plugins/demo");
       Console (MsgTypeInstalled "plugin" "demo")].
Proof. repeat split; vm_compute; reflexivity. Qed.

(** * Further properties of the sources *)

(** ** Splitting, joining, and the test for a repository URL *)

Lemma concat_split (sep : ascii) (s : string) :
  String.concat (String sep "") (Js.split sep s) = s.
Proof.
  induction s as [|c rest IH]; [done|]. cbn [Js.split].
  destruct (Ascii.eqb_spec c sep) as [->|Hne].
  - destruct (split_cons sep rest) as [h [t Hs]]. rewrite Hs in IH |- *.
    change (String.concat (String sep "") ("" :: h :: t))
      with ("" +:+ String sep "" +:+ String.concat (String sep "") (h :: t)).
    by rewrite IH.
  - destruct (split_cons sep rest) as [h [t Hs]]. rewrite Hs in IH |- *.
    destruct t as [|h' t]; rewrite <- IH; reflexivity.
Qed.

Lemma append_assoc (a b c : string) : (a +:+ b) +:+ c = a +:+ (b +:+ c).
Proof.
  induction a as [|x a IH]; [done|].
  change (String x ((a +:+ b) +:+ c) = String x (a +:+ (b +:+ c))). by rewrite IH.
Qed.

Lemma concat_snoc (sep : string) (parts : list string) (x : string) :
  parts ≠ [] →
  String.concat sep (parts ++ [x]) = String.concat sep parts +:+ sep +:+ x.
Proof.
  induction parts as [|p parts IH]; [done|]. intros _.
  destruct parts as [|q parts]; [done|].
  change (String.concat sep ((p :: q :: parts) ++ [x]))
    with (p +:+ sep +:+ String.concat sep ((q :: parts) ++ [x])).
  rewrite IH by done.
  change (String.concat sep (p :: q :: parts))
    with (p +:+ sep +:+ String.concat sep (q :: parts)).
  by rewrite !append_assoc.
Qed.

Lemma pop_split_snoc (sep : ascii) (s seg : string) :
  Js.pop (Js.split sep s) = seg →
  s = seg ∨ ∃ pre, s = pre +:+ String sep seg.
Proof.
  intros Hpop. unfold Js.pop in Hpop.
  destruct (split_cons sep s) as [h [t Hs]].
  assert (Hne : Js.split sep s ≠ []) by by rewrite Hs.
  pose proof (app_removelast_last EmptyString Hne) as Hlast.
  rewrite Hpop in Hlast.
  pose proof (concat_split sep s) as Hcat. rewrite Hlast in Hcat.
  destruct (removelast (Js.split sep s)) as [|p ps] eqn:Hinit.
  - left. by rewrite <- Hcat.
  - right. exists (String.concat (String sep "") (p :: ps)).
    rewrite concat_snoc in Hcat by done. by rewrite <- Hcat.
Qed.

(** X1. [downloadPackage] takes the clone path exactly for the URL "git"
    and for the URLs that end with ".git". *)
Theorem is_git_spec (packageUrl : string) :
  is_git packageUrl = true ↔
  packageUrl = "git" ∨ ∃ pre, packageUrl = pre +:+ ".git".
Proof.
  unfold is_git. split.
  - intros Heq%String.eqb_eq. by apply (pop_split_snoc dot).
  - intros [->|[pre ->]]; [done|].
    change (pre +:+ ".git") with (pre +:+ String dot "git").
    rewrite split_app. change (Js.split dot "git") with ["git"].
    unfold Js.pop. by rewrite last_last.
Qed.

(** ** More on the common root *)

Lemma step_top_last (root fileName : string) :
  step_top root fileName = "" ∨ step_top root fileName = top fileName.
Proof.
  unfold step_top. destruct (String.eqb root ""); [by right|].
  destruct (String.eqb_spec root (top fileName)); [by right|by left].
Qed.

Lemma commonRoot_snoc (fileNames : list string) (fileName : string) :
  commonRoot (fileNames ++ [fileName]) = ""
  ∨ commonRoot (fileNames ++ [fileName]) = top fileName.
Proof.
  rewrite commonRoot_step_top, fold_left_app. simpl. apply step_top_last.
Qed.

(** *** The entries that are acted on *)

Lemma refused_app (l1 l2 : list entry) :
  refused (l1 ++ l2) = refused l1 || refused l2.
Proof. unfold refused. apply existsb_app. Qed.

Lemma visited_app (l1 l2 : list entry) :
  refused l1 = false → visited (l1 ++ l2) = visited l1 ++ visited l2.
Proof.
  induction l1 as [|e l1 IH]; [done|]. simpl.
  destruct (bad_name (fileName e)); [done|]. simpl. intros Hl1.
  destruct (macosx (fileName e)); [by apply IH|]. simpl. by rewrite IH.
Qed.

Lemma visited_elem_of (entries : list entry) (e : entry) :
  refused entries = false → e ∈ entries → macosx (fileName e) = false →
  e ∈ visited entries.
Proof.
  induction entries as [|x entries IH]; intros Hgood Hin Hmac;
    [by apply not_elem_of_nil in Hin|].
  simpl in Hgood |- *. destruct (bad_name (fileName x)) eqn:Hbad; [done|].
  simpl in Hgood. apply elem_of_cons in Hin as [->|Hin].
  - rewrite Hmac. by left.
  - destruct (macosx (fileName x)); [by apply IH|]. right. by apply IH.
Qed.

Lemma elem_of_visited (entries : list entry) (e : entry) :
  e ∈ visited entries →
  e ∈ entries ∧ macosx (fileName e) = false ∧ bad_name (fileName e) = false.
Proof.
  induction entries as [|x entries IH]; simpl; [by intros ?%not_elem_of_nil|].
  destruct (bad_name (fileName x)) eqn:Hbad; [by intros ?%not_elem_of_nil|].
  destruct (macosx (fileName x)) eqn:Hmac.
  - intros Hin. destruct (IH Hin) as (? & ? & ?). split; [by right|done].
  - intros [->|Hin]%elem_of_cons; [split; [by left|done]|].
    destruct (IH Hin) as (? & ? & ?). split; [by right|done].
Qed.

(** X2. When the last entry of an archive is not below [__MACOSX/], the
    root [extractZip] returns is either empty or the first segment of
    that entry. *)
Theorem extractZip_root_last_entry (zipFilePath targetDirectory : string)
    (s : state) (earlier : list entry) (e : entry) (root : string) :
  lookup_path (files s) (segs zipFilePath) = Some (File (Archive (earlier ++ [e]))) →
  macosx (fileName e) = false →
  fst (extractZip zipFilePath targetDirectory s) = Resolved root →
  root = "" ∨ root = top (fileName e).
Proof.
  intros Hzip Hmac. rewrite extractZip_run, Hzip.
  destruct (refused (earlier ++ [e])) eqn:Hgood; simpl; [done|].
  intros [= <-]. rewrite refused_app in Hgood.
  apply orb_false_iff in Hgood as [Hearlier He].
  rewrite visited_app by done. simpl in He |- *.
  rewrite orb_false_r in He. rewrite He, Hmac, fmap_app. apply commonRoot_snoc.
Qed.

Lemma extractZip_root_last_entry_witness :
  fst (extractZip Demo.zip_file "/site/temp"
         (Demo.staged [Entry "foo/a.txt" "a"; Entry "__MACOSX/foo/._a.txt" "m";
                       Entry "foo/b.txt" "b"]))
    = Resolved "foo"
  ∧ ("foo" = "" ∨ "foo" = top (fileName (Entry "foo/b.txt" "b"))).
Proof.
  split; [vm_compute; reflexivity|].
  apply (extractZip_root_last_entry Demo.zip_file "/site/temp"
           (Demo.staged [Entry "foo/a.txt" "a"; Entry "__MACOSX/foo/._a.txt" "m";
                         Entry "foo/b.txt" "b"])
           [Entry "foo/a.txt" "a"; Entry "__MACOSX/foo/._a.txt" "m"]
           (Entry "foo/b.txt" "b") "foo").
  - vm_compute. reflexivity.
  - vm_compute. reflexivity.
  - vm_compute. reflexivity.
Defined.

Lemma commonRoot_tops (fileNames1 fileNames2 : list string) :
  top <$> fileNames1 = top <$> fileNames2 →
  commonRoot fileNames1 = commonRoot fileNames2.
Proof.
  rewrite !commonRoot_step_top. generalize EmptyString as root.
  revert fileNames2.
  induction fileNames1 as [|f l1 IH]; intros [|g l2] root Hmap; try done.
  simpl in Hmap. injection Hmap as Hfg Hrest. simpl.
  replace (step_top root g) with (step_top root f);
    [by apply IH|unfold step_top; by rewrite Hfg].
Qed.

(** X3. The root [extractZip] returns depends only on the first segments
    of the names of the entries that are acted on: two archives for which
    these first segments are the same, in the same order, give the same
    root, whatever else the entries hold and whatever lies below
    [__MACOSX/]. *)
Theorem extractZip_root_tops_only (zipFilePath1 zipFilePath2 : string)
    (targetDirectory1 targetDirectory2 : string) (s1 s2 : state)
    (entries1 entries2 : list entry) (root1 root2 : string) :
  lookup_path (files s1) (segs zipFilePath1) = Some (File (Archive entries1)) →
  lookup_path (files s2) (segs zipFilePath2) = Some (File (Archive entries2)) →
  (λ e, top (fileName e)) <$> visited entries1
    = (λ e, top (fileName e)) <$> visited entries2 →
  fst (extractZip zipFilePath1 targetDirectory1 s1) = Resolved root1 →
  fst (extractZip zipFilePath2 targetDirectory2 s2) = Resolved root2 →
  root1 = root2.
Proof.
  intros Hzip1 Hzip2 Htops. rewrite !extractZip_run, Hzip1, Hzip2.
  destruct (refused entries1); simpl; [done|].
  destruct (refused entries2); simpl; [done|].
  intros [= <-] [= <-]. apply commonRoot_tops.
  by rewrite <- !list_fmap_compose.
Qed.

Lemma extractZip_root_tops_only_witness :
  fst (extractZip Demo.zip_file "/site/temp"
         (Demo.staged [Entry "demo/a/b.php" "b"; Entry "__MACOSX/demo/._b.php" "m";
                       Entry "demo/c.txt" "c"]))
    = Resolved "demo"
  ∧ fst (extractZip Demo.zip_file "/site/temp"
           (Demo.staged [Entry "demo/" ""; Entry "demo/readme.md" "r"]))
    = Resolved "demo"
  ∧ "demo" = "demo".
Proof.
  split; [vm_compute; reflexivity|]. split; [vm_compute; reflexivity|].
  apply (extractZip_root_tops_only Demo.zip_file Demo.zip_file "/site/temp" "/site/temp"
           (Demo.staged [Entry "demo/a/b.php" "b"; Entry "__MACOSX/demo/._b.php" "m";
                         Entry "demo/c.txt" "c"])
           (Demo.staged [Entry "demo/" ""; Entry "demo/readme.md" "r"])
           [Entry "demo/a/b.php" "b"; Entry "__MACOSX/demo/._b.php" "m";
            Entry "demo/c.txt" "c"]
           [Entry "demo/" ""; Entry "demo/readme.md" "r"] "demo" "demo").
  - vm_compute. reflexivity.
  - vm_compute. reflexivity.
  - vm_compute. reflexivity.
  - vm_compute. reflexivity.
  - vm_compute. reflexivity.
Defined.

(** ** What an extraction leaves on disk *)

Lemma ancestors_prefix (q p : list string) :
  q ≠ [] → q `prefix_of` p → q ∈ ancestors p.
Proof.
  revert q. induction p as [|x p IH]; intros q Hne Hpre.
  - by apply prefix_nil_inv in Hpre.
  - destruct q as [|y q]; [done|].
    pose proof (prefix_cons_inv_1 _ _ _ _ Hpre) as ->.
    apply prefix_cons_inv_2 in Hpre. simpl.
    destruct q as [|z q]; [by left|].
    right. apply list_elem_of_fmap. exists (z :: q). split; [done|by apply IH].
Qed.

Lemma mkdirp_prefix (q p : list string) (fs : gmap (list string) node) :
  q ≠ [] → q `prefix_of` p → is_Some (mkdirp p fs !! q).
Proof. intros Hne Hpre. by apply fold_mkdir1_creates, ancestors_prefix. Qed.

Lemma segs_top (fileName : string) :
  top fileName ≠ "" → ∃ rest, segs fileName = top fileName :: rest.
Proof.
  unfold top, segs. destruct (split_cons slash fileName) as [h [t ->]]. simpl.
  intros Hh. rewrite filter_cons_True by done. by eauto.
Qed.

Lemma write_entry_creates_top (dir : list string) (fs : gmap (list string) node)
    (e : entry) :
  top (fileName e) ≠ "" →
  is_Some (write_entry dir fs e !! (dir ++ [top (fileName e)])).
Proof.
  intros Htop. destruct (segs_top _ Htop) as [rest Hsegs].
  unfold write_entry. rewrite Hsegs.
  destruct (String.eqb _ _).
  - apply mkdirp_prefix; [by destruct dir|].
    apply prefix_app, prefix_cons, prefix_nil.
  - destruct rest as [|r rest].
    + rewrite lookup_insert_eq. by eauto.
    + rewrite lookup_insert_ne.
      2:{ intros Heq%app_inv_head. done. }
      apply mkdirp_prefix; [by destruct dir|].
      replace (removelast (dir ++ top (fileName e) :: r :: rest))
        with (dir ++ top (fileName e) :: removelast (r :: rest)).
      * apply prefix_app, prefix_cons, prefix_nil.
      * rewrite removelast_app by done. done.
Qed.

Lemma unpack_creates_top (dir : list string) (entries : list entry)
    (fs : gmap (list string) node) (e : entry) :
  e ∈ entries → top (fileName e) ≠ "" →
  is_Some (unpack dir entries fs !! (dir ++ [top (fileName e)])).
Proof.
  intros Hin Htop. unfold unpack. generalize (mkdirp dir fs) as acc.
  induction entries as [|e' entries IH]; intros acc; [by apply not_elem_of_nil in Hin|].
  simpl. apply elem_of_cons in Hin as [->|Hin]; [|by apply IH].
  assert (Hfold : ∀ es acc k, is_Some (acc !! k) →
                   is_Some (fold_left (write_entry dir) es acc !! k)).
  { induction es as [|x es IHes]; intros a k Hk; simpl; [done|].
    by apply IHes, write_entry_preserves. }
  by apply Hfold, write_entry_creates_top.
Qed.

Lemma commonRoot_in (fileNames : list string) :
  commonRoot fileNames = ""
  ∨ ∃ f, f ∈ fileNames ∧ commonRoot fileNames = top f.
Proof.
  destruct fileNames as [|f0 l _] using rev_ind; [by left|].
  destruct (commonRoot_snoc l f0) as [H|H]; [by left|].
  right. exists f0. split; [|done]. apply elem_of_app. right. by left.
Qed.

(** X4. The folder [extractZip] returns exists below the target directory
    once the extraction is done (the target directory itself when the
    returned root is empty). *)
Theorem extractZip_root_exists (zipFilePath targetDirectory : string) (s : state)
    (root : string) :
  fst (extractZip zipFilePath targetDirectory s) = Resolved root →
  existsSync (files (snd (extractZip zipFilePath targetDirectory s)))
             (path_join targetDirectory root) = true.
Proof.
  rewrite extractZip_run.
  destruct (lookup_path (files s) (segs zipFilePath)) as [[[entries|text]|]|];
    simpl; try done.
  destruct (refused entries); simpl; [done|].
  intros [= <-]. apply existsSync_true. rewrite segs_path_join.
  destruct (commonRoot_in (fileName <$> visited entries)) as [->|(f & Hf & ->)].
  { change (segs "") with (@nil string). rewrite app_nil_r. apply unpack_creates. }
  destruct (String.eqb_spec (top f) "") as [->|Htop].
  { change (segs "") with (@nil string). rewrite app_nil_r. apply unpack_creates. }
  apply list_elem_of_fmap in Hf as (e & -> & He).
  assert (Hsegs : segs (top (fileName e)) = [top (fileName e)]).
  { unfold segs. rewrite (split_no_sep slash) by apply top_no_sep.
    by rewrite filter_cons_True. }
  rewrite Hsegs.
  destruct (segs targetDirectory ++ [top (fileName e)]) as [|x l] eqn:Hl;
    [by destruct (segs targetDirectory)|].
  simpl. rewrite <- Hl. by apply unpack_creates_top.
Qed.

Lemma extractZip_root_exists_witness :
  fst (extractZip Demo.zip_file "/site/temp"
         (Demo.staged [Entry "demo-1.0/src/a.php" "a"; Entry "demo-1.0/b.txt" "b"]))
    = Resolved "demo-1.0"
  ∧ existsSync
      (files (snd (extractZip Demo.zip_file "/site/temp"
                     (Demo.staged [Entry "demo-1.0/src/a.php" "a";
                                   Entry "demo-1.0/b.txt" "b"]))))
      (path_join "/site/temp" "demo-1.0") = true.
Proof.
  split; [vm_compute; reflexivity|].
  apply (extractZip_root_exists Demo.zip_file "/site/temp"
           (Demo.staged [Entry "demo-1.0/src/a.php" "a"; Entry "demo-1.0/b.txt" "b"])).
  vm_compute. reflexivity.
Defined.

(** X5. An extraction removes nothing: every path that existed before
    [extractZip] exists after it, whether the extraction succeeds or
    not. *)
Theorem extractZip_keeps_paths (zipFilePath targetDirectory p : string) (s : state) :
  existsSync (files s) p = true →
  existsSync (files (snd (extractZip zipFilePath targetDirectory s))) p = true.
Proof.
  rewrite !existsSync_true, extractZip_run. intros Hp.
  destruct (lookup_path (files s) (segs zipFilePath)) as [[[entries|text]|]|];
    simpl; try done.
  destruct (refused entries); simpl;
    (apply (lookup_path_mono (files s)); [|done]);
    intros k; apply unpack_preserves.
Qed.

Lemma extractZip_keeps_paths_witness :
  existsSync (files (Demo.staged [Entry "demo/a" "1"])) Demo.zip_file = true
  ∧ existsSync
      (files (snd (extractZip Demo.zip_file "/site/temp"
                     (Demo.staged [Entry "demo/a" "1"]))))
      Demo.zip_file = true.
Proof.
  split; [vm_compute; reflexivity|].
  apply (extractZip_keeps_paths Demo.zip_file "/site/temp" Demo.zip_file
           (Demo.staged [Entry "demo/a" "1"])).
  vm_compute. reflexivity.
Defined.

(** ** More on [downloadFile] *)

(** In the model a body arrives whole or not at all, so that the files
    after a call are those before it, with or without one whole body at
    the target path. *)
Lemma downloadFile_files_cases (env : Env) (fuel : nat)
    (url targetFile : string) (s : state) :
  files (snd (downloadFile env fuel url targetFile s)) = files s
  ∨ (fst (downloadFile env fuel url targetFile s) = Resolved tt
     ∧ ∃ body, files (snd (downloadFile env fuel url targetFile s))
               = <[segs targetFile := File body]> (files s)).
Proof.
  revert url s. induction fuel as [|fuel IH]; intros url s; [by left|].
  rewrite downloadFile_run.
  destruct (existsSync (files s) targetFile) eqn:Hex; [by left|].
  destruct (https_get env url) as [statusCode statusMessage location body|error];
    [|by left].
  cbn zeta. destruct (default 0 statusCode >=? 400); [by left|].
  destruct ((300 <? default 0 statusCode) && (default 0 statusCode <? 400)
            && Js.truthy_opt location).
  - unfold await_in_callback.
    specialize (IH (default "" location)
                  (State (files s) (trace s ++ [Request url]))).
    destruct (downloadFile env fuel (default "" location) targetFile _) as [[[]| | |] s'];
      simpl in *; destruct IH as [IH|[Hres IH]]; try done; auto.
  - unfold pipe_to_file. simpl.
    destruct (lookup_path (files s) (removelast (segs targetFile))) as [[]|];
      simpl; auto.
    right. by eauto.
Qed.

(** X6. [downloadFile] touches no path but the target file: whatever the
    servers answer, however many redirects are followed and however the
    call ends, every other path is after the call as it was before. *)
Theorem downloadFile_touches_only_target (env : Env) (fuel : nat)
    (url targetFile : string) (s : state) (k : list string) :
  k ≠ segs targetFile →
  files (snd (downloadFile env fuel url targetFile s)) !! k = files s !! k.
Proof.
  intros Hk.
  destruct (downloadFile_files_cases env fuel url targetFile s)
    as [->|(_ & body & ->)]; [done|].
  by rewrite lookup_insert_ne.
Qed.

Lemma downloadFile_touches_only_target_witness :
  fst (downloadFile Demo.moved 3 Demo.zip_url Demo.zip_file Demo.site) = Resolved tt
  ∧ files (snd (downloadFile Demo.moved 3 Demo.zip_url Demo.zip_file Demo.site))
      !! segs "/site/temp"
    = files Demo.site !! segs "/site/temp".
Proof.
  split; [vm_compute; reflexivity|].
  apply (downloadFile_touches_only_target Demo.moved 3 Demo.zip_url Demo.zip_file
           Demo.site (segs "/site/temp")).
  vm_compute. discriminate.
Defined.

(** X7. A redirect to a URL that fails (a network error, or a status of
    400 and more) leaves the promise of [downloadFile] unsettled: the
    call neither resolves nor rejects, after two requests and without
    writing a file. *)
Theorem downloadFile_redirect_then_error (env : Env) (fuel : nat)
    (url loc targetFile : string) (s : state) :
  existsSync (files s) targetFile = false →
  redirect_target (https_get env url) = Some loc →
  reply_fails (https_get env loc) = true →
  downloadFile env (S (S fuel)) url targetFile s =
  (Unsettled, State (files s) (trace s ++ [Request url; Request loc])).
Proof.
  intros Hfresh Hred Hfail.
  rewrite (redirect_target_run env (S fuel) url loc targetFile s Hfresh Hred).
  unfold await_in_callback. rewrite downloadFile_run. cbn [files trace].
  rewrite Hfresh.
  destruct (https_get env loc) as [statusCode statusMessage location body|error];
    simpl in Hfail.
  - cbn zeta. rewrite Hfail. by rewrite <- app_assoc.
  - by rewrite <- app_assoc.
Qed.

Lemma downloadFile_redirect_then_error_witness :
  downloadFile
    (Demo.world [(Demo.zip_url,
                  Response (Some 302) "Found" (Some Demo.real_url) (Bytes ""))] 0)
    2 Demo.zip_url Demo.zip_file Demo.site =
  (Unsettled,
   State (files Demo.site)
         (trace Demo.site ++ [Request Demo.zip_url; Request Demo.real_url])).
Proof.
  apply (downloadFile_redirect_then_error
           (Demo.world [(Demo.zip_url,
                         Response (Some 302) "Found" (Some Demo.real_url) (Bytes ""))] 0)
           0 Demo.zip_url Demo.real_url Demo.zip_file Demo.site).
  - vm_compute. reflexivity.
  - vm_compute. reflexivity.
  - vm_compute. reflexivity.
Defined.



(** ** More on [downloadPackage] and [install] *)

(** The build steps add no effect of the transport, of the extractor or
    of the placement. *)
Lemma postInstall_caught_events (env : Env) (this : Package) (packageUrl : string)
    (s : state) :
  ∃ events,
    try_catch (postInstall env packageUrl (pkgFolder_of this)) (report this) s
    = (Resolved tt, State (files s) (trace s ++ events))
    ∧ Forall (λ e, transport_event e = false) events.
Proof.
  unfold try_catch. rewrite postInstall_run.
  destruct (Js.truthy packageUrl).
  2:{ exists []. rewrite app_nil_r. by destruct s. }
  rewrite installNpmPackages_run.
  destruct (negb _).
  { rewrite installComposer_run. eexists. split; [done|]. by repeat constructor. }
  destruct (read_package_name_settles env
              (path_join (pkgFolder_of this) "package.json") (State (files s) []))
    as [[packageName ->]|[error ->]].
  - cbn zeta. destruct (exit_code env _ _ =? 0).
    + rewrite installComposer_run. cbn. rewrite <- app_assoc.
      eexists. split; [done|]. by repeat constructor.
    + unfold report. run. rewrite <- app_assoc.
      eexists. split; [done|]. by repeat constructor.
  - unfold report. run. eexists. split; [done|]. by repeat constructor.
Qed.

(** X9. For a URL that passes the test for a repository, and a package
    folder that does not exist yet, [downloadPackage] starts with the
    clone command and returns normally, and nothing it does after that
    command is a request, a write of a download, an extraction or a
    rename. *)
Theorem downloadPackage_git_bypasses_transport (env : Env) (fuel : nat)
    (this : Package) (packageUrl : string) (s : state) :
  is_git packageUrl = true →
  existsSync (files s) (pkgFolder_of this) = false →
  fst (downloadPackage env fuel this packageUrl s) = Resolved tt
  ∧ ∃ events,
      trace (snd (downloadPackage env fuel this packageUrl s)) =
      trace s
      ++ Exec ("git clone " +:+ packageUrl +:+ " "
               +:+ destFolder this +:+ "/" +:+ name (pkgInfo this)) None
         :: events
      ∧ Forall (λ e, transport_event e = false) events.
Proof.
  unfold is_git. intros Hgit Hfresh.
  rewrite downloadPackage_run, Hfresh, acquire_run, Hgit, cloneRepo_run.
  cbn zeta. destruct (git_tree env packageUrl) as [tree|]; cbn [fst snd files trace].
  - destruct (postInstall_caught_events env this packageUrl
                (State (unpack (segs (destFolder this +:+ "/" +:+ name (pkgInfo this)))
                          tree (files s))
                   ((trace s ++ [Exec ("git clone " +:+ packageUrl +:+ " "
                                       +:+ destFolder this +:+ "/"
                                       +:+ name (pkgInfo this)) None])
                    ++ [Console (MsgInstalledIn (name (pkgInfo this)) packageUrl)])))
      as (events & -> & Hev).
    cbn [fst snd files trace]. split; [done|].
    exists (Console (MsgInstalledIn (name (pkgInfo this)) packageUrl) :: events).
    split; [by rewrite <- !app_assoc|by constructor].
  - split; [done|].
    exists [Console (MsgCloneFailed
                       ("Command failed: " +:+ "git clone " +:+ packageUrl +:+ " "
                        +:+ destFolder this +:+ "/" +:+ name (pkgInfo this)));
            ConsoleError (MsgErrorDownloading (name (pkgInfo this))
                            ("Command failed: " +:+ "git clone " +:+ packageUrl +:+ " "
                             +:+ destFolder this +:+ "/" +:+ name (pkgInfo this)))].
    split; [by rewrite <- !app_assoc|by repeat constructor].
Qed.

Lemma downloadPackage_git_bypasses_transport_witness :
  existsSync
    (files (snd (downloadPackage DemoRepo.world 3 (Demo.plugin DemoRepo.git_url)
                   DemoRepo.git_url Demo.site)))
    (path_join Demo.demo_folder "inc/util.php") = true
  ∧ fst (downloadPackage DemoRepo.world 3 (Demo.plugin DemoRepo.git_url)
           DemoRepo.git_url Demo.site) = Resolved tt
  ∧ ∃ events,
      trace (snd (downloadPackage DemoRepo.world 3 (Demo.plugin DemoRepo.git_url)
                    DemoRepo.git_url Demo.site)) =
      trace Demo.site
      ++ Exec ("git clone " +:+ DemoRepo.git_url +:+ " "
               +:+ destFolder (Demo.plugin DemoRepo.git_url) +:+ "/"
               +:+ name (pkgInfo (Demo.plugin DemoRepo.git_url))) None
         :: events
      ∧ Forall (λ e, transport_event e = false) events.
Proof.
  split; [vm_compute; reflexivity|].
  apply (downloadPackage_git_bypasses_transport DemoRepo.world 3
           (Demo.plugin DemoRepo.git_url) DemoRepo.git_url Demo.site).
  - vm_compute. reflexivity.
  - vm_compute. reflexivity.
Defined.

(** X10. [execDownload] names the staging file after the package only:
    when that file is already in the staging directory, no request is
    sent, the file found there is extracted, and the download URL shows
    in the printed lines only, so that any two URLs give the same result
    and the same files. *)
Theorem execDownload_stale_archive (env : Env) (fuel : nat) (this : Package)
    (filename url1 url2 : string) (s : state) :
  existsSync (files s) (path_join (tempDir this) filename) = true →
  execDownload env (S fuel) this filename url1 s =
    extractZip (path_join (tempDir this) filename) (tempDir this)
      (State (files s)
         (trace s
          ++ [Console (MsgDownloading (Js.pop (Js.split slash url1))
                         (path_join (tempDir this) filename) url1);
              Console (MsgFileExists (path_join (tempDir this) filename));
              Console (MsgDownloadCompleted (Js.pop (Js.split slash url1)))]))
  ∧ same_files (execDownload env (S fuel) this filename url1 s)
               (execDownload env (S fuel) this filename url2 s).
Proof.
  intros Hex.
  assert (Hrun : ∀ url,
    execDownload env (S fuel) this filename url s =
    extractZip (path_join (tempDir this) filename) (tempDir this)
      (State (files s)
         (trace s
          ++ [Console (MsgDownloading (Js.pop (Js.split slash url))
                         (path_join (tempDir this) filename) url);
              Console (MsgFileExists (path_join (tempDir this) filename));
              Console (MsgDownloadCompleted (Js.pop (Js.split slash url)))]))).
  { intros url. rewrite execDownload_run.
    rewrite (downloadFile_skips_existing env fuel url _ (State _ _) Hex).
    cbn [files trace]. by rewrite <- !app_assoc. }
  split; [apply Hrun|].
  rewrite !Hrun. by apply stable_extractZip.
Qed.

Lemma execDownload_stale_archive_witness :
  execDownload Demo.nothing_there 1 (Demo.plugin Demo.zip_url) "demo.zip"
    Demo.zip_url (Demo.staged [Entry "old/a" "1"]) =
    extractZip (path_join (tempDir (Demo.plugin Demo.zip_url)) "demo.zip")
      (tempDir (Demo.plugin Demo.zip_url))
      (State (files (Demo.staged [Entry "old/a" "1"]))
         (trace (Demo.staged [Entry "old/a" "1"])
          ++ [Console (MsgDownloading (Js.pop (Js.split slash Demo.zip_url))
                         (path_join (tempDir (Demo.plugin Demo.zip_url)) "demo.zip")
                         Demo.zip_url);
              Console (MsgFileExists
                         (path_join (tempDir (Demo.plugin Demo.zip_url)) "demo.zip"));
              Console (MsgDownloadCompleted (Js.pop (Js.split slash Demo.zip_url)))]))
  ∧ same_files
      (execDownload Demo.nothing_there 1 (Demo.plugin Demo.zip_url) "demo.zip"
         Demo.zip_url (Demo.staged [Entry "old/a" "1"]))
      (execDownload Demo.nothing_there 1 (Demo.plugin Demo.zip_url) "demo.zip"
         Demo.real_url (Demo.staged [Entry "old/a" "1"])).
Proof.
  apply (execDownload_stale_archive Demo.nothing_there 0 (Demo.plugin Demo.zip_url)
           "demo.zip" Demo.zip_url Demo.real_url (Demo.staged [Entry "old/a" "1"])).
  vm_compute. reflexivity.
Defined.

(** X11. When package.json is in the package directory and cannot be read
    as JSON (or is a directory), [installNpmPackages] rejects before it
    prints or starts anything, and the build steps of [downloadPackage]
    end there: no npm command and no composer command is started. *)
Theorem postInstall_unreadable_manifest (env : Env) (packageUrl pkgFolder : string)
    (s : state) (error : string) :
  existsSync (files s) (path_join pkgFolder "package.json") = true →
  fst (read_package_name env (path_join pkgFolder "package.json") s)
    = Rejected error →
  installNpmPackages env pkgFolder s = (Rejected error, s)
  ∧ (Js.truthy packageUrl = true →
     postInstall env packageUrl pkgFolder s = (Rejected error, s)).
Proof.
  intros Hex Hread.
  assert (Hnpm : installNpmPackages env pkgFolder s = (Rejected error, s)).
  { rewrite installNpmPackages_run, Hex. cbn [negb].
    rewrite read_package_name_run in Hread. simpl in Hread. by rewrite Hread. }
  split; [done|]. intros Htruthy. by rewrite postInstall_run, Htruthy, Hnpm.
Qed.

Lemma postInstall_unreadable_manifest_witness :
  installNpmPackages
    (Build_Env (λ _, NetworkError "") (λ _, None) (λ _ _, 0) (λ _, None) (λ _ _ _, ""))
    "/site/temp"
    (State (<[segs "/site/temp/package.json" := File (Bytes "{")]> (files Demo.site)) [])
  = (Rejected "SyntaxError",
     State (<[segs "/site/temp/package.json" := File (Bytes "{")]> (files Demo.site)) [])
  ∧ (Js.truthy "x" = true →
     postInstall
       (Build_Env (λ _, NetworkError "") (λ _, None) (λ _ _, 0) (λ _, None)
                  (λ _ _ _, ""))
       "x" "/site/temp"
       (State (<[segs "/site/temp/package.json" := File (Bytes "{")]> (files Demo.site))
              [])
     = (Rejected "SyntaxError",
        State (<[segs "/site/temp/package.json" := File (Bytes "{")]> (files Demo.site))
              [])).
Proof.
  apply (postInstall_unreadable_manifest
           (Build_Env (λ _, NetworkError "") (λ _, None) (λ _ _, 0) (λ _, None)
                      (λ _ _ _, ""))
           "x" "/site/temp"
           (State (<[segs "/site/temp/package.json" := File (Bytes "{")]>
                     (files Demo.site)) [])
           "SyntaxError").
  - vm_compute. reflexivity.
  - vm_compute. reflexivity.
Defined.

Lemma execDownload_trace_prefix (env : Env) (fuel : nat) (this : Package)
    (filename downloadUrl : string) (s : state) :
  trace s `prefix_of` trace (snd (execDownload env fuel this filename downloadUrl s)).
Proof.
  rewrite execDownload_run.
  pose proof (downloadFile_trace_prefix env fuel downloadUrl
                (path_join (tempDir this) filename)
                (State (files s)
                   (trace s ++ [Console (MsgDownloading
                                           (Js.pop (Js.split slash downloadUrl))
                                           (path_join (tempDir this) filename)
                                           downloadUrl)]))) as Hdl.
  cbn [trace] in Hdl.
  assert (Hs : trace s `prefix_of`
                 trace (snd (downloadFile env fuel downloadUrl
                   (path_join (tempDir this) filename)
                   (State (files s)
                      (trace s ++ [Console (MsgDownloading
                                              (Js.pop (Js.split slash downloadUrl))
                                              (path_join (tempDir this) filename)
                                              downloadUrl)]))))).
  { etrans; [|exact Hdl]. by apply prefix_app_r. }
  destruct (downloadFile env fuel downloadUrl _ _) as [[[]| | |] sd]; simpl in Hs |- *;
    try done.
  rewrite extractZip_run. cbn [files trace].
  destruct (lookup_path (files sd) _) as [[[entries|text]|]|];
    [destruct (refused entries)|..]; cbn [snd trace];
    (etrans; [exact Hs|]); rewrite <- ?app_assoc; by apply prefix_app_r.
Qed.

Lemma acquire_trace_prefix (env : Env) (fuel : nat) (this : Package)
    (packageUrl pkgFolder : string) (s : state) :
  trace s `prefix_of` trace (snd (acquire env fuel this packageUrl pkgFolder s)).
Proof.
  rewrite acquire_run. destruct (String.eqb _ "git").
  - rewrite cloneRepo_run. cbn zeta.
    destruct (git_tree env packageUrl); by apply prefix_app_r.
  - pose proof (execDownload_trace_prefix env fuel this
                  (name (pkgInfo this) +:+ ".zip") packageUrl s) as Hex.
    destruct (execDownload env fuel this _ packageUrl s) as [[root| | |] sd];
      simpl in Hex |- *; try done.
    rewrite renameFolder_run.
    destruct (renameSync _ _ (files sd)); cbn [snd trace];
      (etrans; [exact Hex|]); by apply prefix_app_r.
Qed.

(** X12. [install] never rejects, and every call of [install] that returns
    ends by printing that the package was installed, whatever happened
    before. *)
Theorem install_always_reports_success (env : Env) (fuel : nat) (this : Package)
    (s : state) :
  (∀ error, fst (install env fuel this s) ≠ Rejected error)
  ∧ (fst (install env fuel this s) = Resolved tt →
     ∃ events,
       trace (snd (install env fuel this s)) =
       trace s ++ events
       ++ [Console (MsgTypeInstalled (packageType this) (name (pkgInfo this)))]).
Proof.
  split; [intros error; apply install_never_rejects|].
  rewrite install_run, downloadPackage_run.
  destruct (existsSync (files s) (pkgFolder_of this)).
  { intros _. cbn [fst snd files trace].
    exists [Console (MsgFolderExists (pkgFolder_of this))]. by rewrite <- app_assoc. }
  pose proof (acquire_trace_prefix env fuel this (packageUrl_of env this)
                (pkgFolder_of this) s) as [ev1 Hev1].
  destruct (acquire env fuel this _ _ s) as [[[]|e| |] s1]; simpl in Hev1; try done.
  - destruct (postInstall_caught env this (packageUrl_of env this)
                (State (files s1)
                   (trace s1 ++ [Console (MsgInstalledIn (name (pkgInfo this))
                                            (packageUrl_of env this))])))
      as [events ->].
    intros _. cbn [fst snd files trace]. rewrite Hev1.
    exists (ev1 ++ [Console (MsgInstalledIn (name (pkgInfo this))
                               (packageUrl_of env this))] ++ events).
    by rewrite <- !app_assoc.
  - intros _. cbn [fst snd files trace]. rewrite Hev1.
    exists (ev1 ++ [ConsoleError (MsgErrorDownloading (name (pkgInfo this)) e)]).
    by rewrite <- !app_assoc.
Qed.

Lemma install_always_reports_success_witness :
  ∃ events,
    trace (snd (install Demo.garbage 3 (Demo.plugin Demo.zip_url) Demo.site)) =
    trace Demo.site ++ events
    ++ [Console (MsgTypeInstalled (packageType (Demo.plugin Demo.zip_url))
                   (name (pkgInfo (Demo.plugin Demo.zip_url))))].
Proof.
  destruct (install_always_reports_success Demo.garbage 3 (Demo.plugin Demo.zip_url)
              Demo.site) as [_ Hlast].
  apply Hlast. vm_compute. reflexivity.
Defined.

(** ** [makeDir] and [cleanup] *)

Ltac runN :=
  unfold mbind, N_bind, bindN, mret, N_ret, resolveN, rejectN, try_catchN,
    print, print_error, act, get_disk, set_disk; simpl.





Lemma cleanup_run (dir : string) (s : sys) :
  fst (cleanup dir s) = Resolved tt
  ∧ (segs dir ≠ [] → is_Some (disk s !! segs dir) →
     (∀ k, segs dir `prefix_of` k → disk (snd (cleanup dir s)) !! k = None)
     ∧ (∀ k, ¬ segs dir `prefix_of` k →
             disk (snd (cleanup dir s)) !! k = disk s !! k)
     ∧ journal (snd (cleanup dir s)) = journal s ++ [Print (NoteRemoved dir)])
  ∧ (disk s !! segs dir = None →
     disk (snd (cleanup dir s)) = disk s
     ∧ journal (snd (cleanup dir s)) = journal s ++ [PrintError (NoteError "ENOENT")]).
Proof.
  unfold cleanup, rmSync_recursive. runN.
  destruct (segs dir) as [|x p] eqn:Hsegs; simpl.
  { split; [done|]. split; [done|]. by intros _. }
  destruct (disk s !! (x :: p)) as [v|] eqn:Hdir; simpl.
  - split; [done|]. split; [|done]. intros _ _. split; [|split; [|done]].
    + intros k Hpre. apply map_lookup_filter_None. right. intros v' _ Hnot.
      by apply Hnot.
    + intros k Hpre. destruct (disk s !! k) as [v'|] eqn:Hk.
      * by apply map_lookup_filter_Some.
      * apply map_lookup_filter_None. by left.
  - split; [done|]. split; [|done]. by intros _ [? ?].
Qed.

(** X14. [cleanup] never throws.  When the directory exists, it and all
    that is below it are gone afterwards and every other path is as it
    was; when nothing is at the path, the files stay as they are and the
    error is printed. *)
Theorem cleanup_removes_tree (dir : string) (s : sys) :
  fst (cleanup dir s) = Resolved tt
  ∧ (segs dir ≠ [] → is_Some (disk s !! segs dir) →
     (∀ k, segs dir `prefix_of` k → disk (snd (cleanup dir s)) !! k = None)
     ∧ (∀ k, ¬ segs dir `prefix_of` k →
             disk (snd (cleanup dir s)) !! k = disk s !! k)
     ∧ journal (snd (cleanup dir s)) = journal s ++ [Print (NoteRemoved dir)])
  ∧ (disk s !! segs dir = None →
     disk (snd (cleanup dir s)) = disk s
     ∧ journal (snd (cleanup dir s)) = journal s ++ [PrintError (NoteError "ENOENT")]).
Proof. exact (cleanup_run dir s). Qed.

Lemma cleanup_removes_tree_witness :
  disk DemoRepo.littered !! segs "/site/temp/work/a.txt" = Some (File (Bytes "a"))
  ∧ fst (cleanup "/site/temp/work" DemoRepo.littered) = Resolved tt
  ∧ disk (snd (cleanup "/site/temp/work" DemoRepo.littered))
      !! segs "/site/temp/work" = None
  ∧ disk (snd (cleanup "/site/temp/work" DemoRepo.littered))
      !! segs "/site/temp/work/a.txt" = None
  ∧ disk (snd (cleanup "/site/temp/work" DemoRepo.littered)) !! segs "/site/temp"
    = Some Dir
  ∧ journal (snd (cleanup "/site/temp/work" DemoRepo.littered))
    = [Print (NoteRemoved "/site/temp/work")].
Proof.
  split; [vm_compute; reflexivity|].
  destruct (cleanup_removes_tree "/site/temp/work" DemoRepo.littered)
    as (Hres & Hrm & _).
  split; [exact Hres|].
  destruct Hrm as (Hgone & Hkept & Hlog);
    [vm_compute; discriminate|vm_compute; by eauto|].
  split; [apply Hgone; vm_compute; by exists []|].
  split; [apply Hgone; vm_compute; by exists ["a.txt"]|].
  split; [|exact Hlog].
  rewrite Hkept; [vm_compute; reflexivity|].
  vm_compute. intros [rest Hrest]. discriminate Hrest.
Defined.

Lemma ancestors_snoc (q : list string) (x : string) :
  ancestors (q ++ [x]) = ancestors q ++ [q ++ [x]].
Proof.
  induction q as [|y q IH]; [done|]. simpl. rewrite IH.
  destruct q as [|z q]; simpl; [done|].
  by rewrite fmap_app.
Qed.

Lemma fold_mkdir1_noop (qs : list (list string)) (fs : gmap (list string) node) :
  (∀ a, a ∈ qs → is_Some (fs !! a)) → fold_left mkdir1 qs fs = fs.
Proof.
  induction qs as [|q qs IH]; intros Hall; simpl; [done|].
  assert (Hq : mkdir1 fs q = fs).
  { unfold mkdir1. destruct (Hall q) as [v ->]; [by left|done]. }
  rewrite Hq. apply IH. intros a Ha. apply Hall. by right.
Qed.

Lemma ancestors_are_prefixes (p a : list string) :
  a ∈ ancestors p → a ≠ [] ∧ a `prefix_of` p.
Proof.
  revert a. induction p as [|x p IH]; intros a Ha; [by apply not_elem_of_nil in Ha|].
  simpl in Ha. apply elem_of_cons in Ha as [->|Ha].
  - split; [done|]. apply prefix_cons, prefix_nil.
  - apply list_elem_of_fmap in Ha as (b & -> & Hb). split; [done|].
    apply prefix_cons. by apply IH.
Qed.

(** X15. In a file system where every path lies in directories that
    exist, [makeDir] of a missing directory whose parent is a directory,
    followed by [cleanup] of it, gives back the files as they were. *)
Theorem cleanup_makeDir (dir : string) (s : sys) :
  tree_closed (disk s) →
  existsSync (disk s) dir = false →
  lookup_path (disk s) (removelast (segs dir)) = Some Dir →
  fst (makeDir dir s) = Resolved tt
  ∧ fst (cleanup dir (snd (makeDir dir s))) = Resolved tt
  ∧ disk (snd (cleanup dir (snd (makeDir dir s)))) = disk s.
Proof.
  intros Hclosed Hfresh Hparent.
  assert (Hnone : disk s !! segs dir = None ∧ segs dir ≠ []).
  { apply bool_decide_eq_false in Hfresh. unfold lookup_path in Hfresh.
    destruct (segs dir) as [|x p]; [destruct Hfresh; by eauto|].
    split; [|done]. destruct (disk s !! (x :: p)) eqn:Hk; [|done].
    destruct Hfresh. by eauto. }
  destruct Hnone as [Hnone Hne].
  pose proof (app_removelast_last EmptyString Hne) as Hsplit.
  remember (removelast (segs dir)) as q eqn:Hq.
  remember (List.last (segs dir) "") as x eqn:Hx.
  assert (Hanc : ∀ a, a ∈ ancestors q → disk s !! a = Some Dir).
  { intros a [Ha Hpre]%ancestors_are_prefixes.
    assert (Hqdir : disk s !! q = Some Dir).
    { destruct q; [by apply prefix_nil_inv in Hpre|exact Hparent]. }
    destruct (decide (a = q)) as [->|Hneq]; [done|].
    apply (Hclosed q a); try done. }
  assert (Hmk : mkdirp (segs dir) (disk s) = <[segs dir := Dir]> (disk s)).
  { unfold mkdirp. rewrite Hsplit, ancestors_snoc, fold_left_app.
    rewrite (fold_mkdir1_noop (ancestors q))
      by (intros a Ha; rewrite (Hanc a Ha); by eauto).
    simpl. unfold mkdir1. rewrite <- Hsplit. by rewrite Hnone. }
  assert (Hok : mkdirSync_recursive dir (disk s) = Some (<[segs dir := Dir]> (disk s))).
  { unfold mkdirSync_recursive. rewrite <- Hmk.
    assert (forallb (λ a, match disk s !! a with Some (File _) => false | _ => true end)
              (ancestors (segs dir)) = true) as ->; [|done].
    apply forallb_forall. intros a Ha%list_elem_of_In.
    rewrite Hsplit, ancestors_snoc in Ha. apply elem_of_app in Ha as [Ha|Ha].
    - by rewrite (Hanc a Ha).
    - apply list_elem_of_singleton in Ha as ->. rewrite <- Hsplit. by rewrite Hnone. }
  assert (Hmake : makeDir dir s = (Resolved tt, Sys (<[segs dir := Dir]> (disk s)) (journal s))).
  { unfold makeDir. runN. by rewrite Hfresh, Hok. }
  rewrite Hmake. cbn [fst snd]. split; [done|].
  destruct (cleanup_run dir (Sys (<[segs dir := Dir]> (disk s)) (journal s)))
    as (Hres & Hrm & _).
  split; [done|].
  destruct Hrm as (Hgone & Hkept & _); [done|simpl; rewrite lookup_insert_eq; by eauto|].
  apply map_eq. intros k.
  destruct (decide (segs dir `prefix_of` k)) as [Hpre|Hpre].
  - rewrite (Hgone k Hpre). symmetry.
    destruct (decide (k = segs dir)) as [->|Hk]; [done|].
    destruct (disk s !! k) eqn:Hlook; [|done].
    pose proof (Hclosed k (segs dir)) as Hc. rewrite Hnone in Hc.
    discriminate Hc; by eauto.
  - rewrite (Hkept k Hpre). simpl. rewrite lookup_insert_ne; [done|].
    intros <-. by destruct Hpre.
Qed.

Lemma site_tree_closed : tree_closed (files Demo.site).
Proof.
  intros k q [v Hk] Hq Hpre Hne.
  assert (Hin : k ∈ (map_to_list (files Demo.site)).*1).
  { apply list_elem_of_fmap. exists (k, v). split; [done|].
    by apply elem_of_map_to_list. }
  vm_compute in Hin.
  repeat (apply elem_of_cons in Hin as [->|Hin]);
    try (by apply not_elem_of_nil in Hin);
    destruct Hpre as [rest Hrest];
    repeat (destruct q as [|? q]; simplify_eq/=; try done).
Qed.

Lemma cleanup_makeDir_witness :
  fst (makeDir "/site/temp/work" (Sys (files Demo.site) [])) = Resolved tt
  ∧ fst (cleanup "/site/temp/work"
           (snd (makeDir "/site/temp/work" (Sys (files Demo.site) []))))
    = Resolved tt
  ∧ disk (snd (cleanup "/site/temp/work"
                 (snd (makeDir "/site/temp/work" (Sys (files Demo.site) [])))))
    = disk (Sys (files Demo.site) []).
Proof.
  apply (cleanup_makeDir "/site/temp/work" (Sys (files Demo.site) [])).
  - apply site_tree_closed.
  - vm_compute. reflexivity.
  - vm_compute. reflexivity.
Defined.

(** ** [runPostInstallCommands] *)

Lemma spawned_app (j1 j2 : list action) : spawned (j1 ++ j2) = spawned j1 ++ spawned j2.
Proof. apply omap_app. Qed.

Lemma runPostInstallCommands_cons (start_error : string → option string)
    (command : string) (rest : list string) (s : sys) :
  runPostInstallCommands start_error (command :: rest) s =
  runPostInstallCommands start_error rest
    (Sys (disk s)
         (journal s
          ++ match exec_throws start_error command with
             | None => [Print (NoteExecuting command); Spawn command;
                        Print NoteCommandOutput; PrintError NoteCommandError]
             | Some error => [Print (NoteExecuting command);
                              PrintError (NoteExecFailed command error)]
             end)).
Proof.
  cbn [runPostInstallCommands].
  unfold mbind, N_bind, bindN, try_catchN, print, print_error, exec_nowait, act,
    rejectN.
  cbn [disk journal].
  destruct (exec_throws start_error command); cbn [disk journal];
    by rewrite <- !app_assoc.
Qed.

(** X16. [runPostInstallCommands] always returns normally and touches no
    file.  It starts, in the order of the list and without waiting for
    any of them, exactly the commands that [exec] does not refuse at
    once; a command that is refused (the empty command, for one) is not
    started, its error is printed, and the loop goes on with the next
    command. *)
Theorem runPostInstallCommands_starts_all (start_error : string → option string)
    (commands : list string) (s : sys) :
  fst (runPostInstallCommands start_error commands s) = Resolved tt
  ∧ disk (snd (runPostInstallCommands start_error commands s)) = disk s
  ∧ spawned (journal (snd (runPostInstallCommands start_error commands s)))
    = spawned (journal s)
      ++ filter (λ command, exec_throws start_error command = None) commands
  ∧ ∀ command error,
      command ∈ commands →
      exec_throws start_error command = Some error →
      PrintError (NoteExecFailed command error)
        ∈ journal (snd (runPostInstallCommands start_error commands s)).
Proof.
  assert (Hmono : ∀ commands s a,
            a ∈ journal s →
            a ∈ journal (snd (runPostInstallCommands start_error commands s))).
  { clear. induction commands as [|command rest IH]; intros s a Ha; [done|].
    rewrite runPostInstallCommands_cons. apply IH. cbn [journal].
    apply elem_of_app. by left. }
  revert s. induction commands as [|command rest IH]; intros s.
  - simpl. rewrite app_nil_r. repeat split; try done.
    by intros command error ?%not_elem_of_nil.
  - rewrite runPostInstallCommands_cons.
    match goal with
    | |- context [runPostInstallCommands start_error rest ?s0] =>
        destruct (IH s0) as (Hres & Hdisk & Hsp & Herr);
        pose proof (Hmono rest s0) as Hkeep
    end.
    split; [done|]. split; [done|]. split.
    + rewrite Hsp. cbn [journal]. rewrite spawned_app, filter_cons.
      destruct (exec_throws start_error command) eqn:Hthrows.
      * rewrite decide_False by done. simpl. by rewrite app_nil_r.
      * rewrite decide_True by done. simpl. by rewrite <- app_assoc.
    + intros c error [->|Hin]%elem_of_cons Hc; [|by apply (Herr c error)].
      apply Hkeep. cbn [journal]. rewrite Hc.
      apply elem_of_app. right. right. by left.
Qed.

Lemma runPostInstallCommands_starts_all_witness :
  spawned (journal (snd (runPostInstallCommands (λ _, None)
                           ["wp plugin list"; ""; "wp cache flush"]
                           (Sys (files Demo.site) []))))
    = spawned [] ++ filter (λ command, exec_throws (λ _, None) command = None)
                      ["wp plugin list"; ""; "wp cache flush"]
  ∧ filter (λ command, exec_throws (λ _, None) command = None)
      ["wp plugin list"; ""; "wp cache flush"]
    = ["wp plugin list"; "wp cache flush"].
Proof.
  split; [|vm_compute; reflexivity].
  by destruct (runPostInstallCommands_starts_all (λ _, None)
                 ["wp plugin list"; ""; "wp cache flush"] (Sys (files Demo.site) []))
    as (_ & _ & Hsp & _).
Defined.

(** ** [Database] *)

Lemma js_replace_first_spec (c : ascii) (by_ a rest : string) :
  Js.contains c a = false →
  js_replace_first c by_ (a +:+ String c rest) = a +:+ by_ +:+ rest.
Proof.
  induction a as [|d a IH]; simpl.
  - intros _. by rewrite Ascii.eqb_refl.
  - intros [Hd Ha]%orb_false_iff.
    change (String d a +:+ String c rest) with (String d (a +:+ String c rest)).
    cbn [js_replace_first]. rewrite Hd, (IH Ha). done.
Qed.

(** X17. [dbDumpFilename] replaces only the first space of the date: the
    name is the database name, a dash, the date's first word, a dash, and
    the rest of the date as it is, spaces included, before ".sql.gz". *)
Theorem dbDumpFilename_first_space_only (env : Database.DbEnv)
    (w : Database.WPconfig) (day rest : string) (s : sys) :
  Js.contains " "%char day = false →
  Database.today env = day +:+ " " +:+ rest →
  Database.dbDumpFilename env (Some {| Database.WP_config := Some w |}) s =
  (Resolved (Database.DB_NAME w +:+ "-" +:+ day +:+ "-" +:+ rest +:+ ".sql.gz"), s).
Proof.
  intros Hday Htoday. unfold Database.dbDumpFilename. cbn. rewrite Htoday.
  change (day +:+ " " +:+ rest) with (day +:+ String " "%char rest).
  rewrite js_replace_first_spec by done. by rewrite !append_assoc.
Qed.

Lemma dbDumpFilename_first_space_only_witness :
  Database.dbDumpFilename (DemoDb.world None)
    (Some {| Database.WP_config := Some {| Database.DB_NAME := "wp" |} |})
    (Sys ∅ []) =
  (Resolved (Database.DB_NAME {| Database.DB_NAME := "wp" |}
             +:+ "-" +:+ "Mon" +:+ "-" +:+ "Nov 02 2026" +:+ ".sql.gz"),
   Sys ∅ []).
Proof.
  apply (dbDumpFilename_first_space_only (DemoDb.world None)
           {| Database.DB_NAME := "wp" |} "Mon" "Nov 02 2026" (Sys ∅ [])).
  - reflexivity.
  - reflexivity.
Defined.

Lemma run_queries_accepted (env : Database.DbEnv) (queries history : list string)
    (s : sys) :
  Database.accepted env history (filter (λ q, js_blank q = false) queries) →
  Database.run_queries env history queries s =
  (Resolved tt,
   Sys (disk s)
       (journal s ++ (Query <$> filter (λ q, js_blank q = false) queries))).
Proof.
  revert history s. induction queries as [|q queries IH]; intros history s Hacc.
  - simpl. rewrite app_nil_r. by destruct s.
  - cbn [Database.run_queries]. destruct (js_blank q) eqn:Hq; cbn [negb].
    + rewrite filter_cons_False in Hacc |- * by (by rewrite Hq). by apply IH.
    + rewrite filter_cons_True in Hacc |- * by done. destruct Hacc as [Hok Hacc].
      unfold mbind, N_bind, bindN, act. rewrite Hok.
      rewrite IH by done. cbn [disk journal]. by rewrite <- app_assoc.
Qed.

Lemma run_queries_refused (env : Database.DbEnv) (queries history pre post : list string)
    (q message : string) (s : sys) :
  filter (λ q, js_blank q = false) queries = pre ++ q :: post →
  Database.accepted env history pre →
  Database.query_error env (history ++ pre) q = Some message →
  Database.run_queries env history queries s =
  (Rejected message, Sys (disk s) (journal s ++ (Query <$> pre ++ [q]))).
Proof.
  revert history pre s.
  induction queries as [|x queries IH]; intros history pre s Hfilter Hacc Herr.
  - by destruct pre.
  - cbn [Database.run_queries]. destruct (js_blank x) eqn:Hx; cbn [negb].
    + rewrite filter_cons_False in Hfilter by (by rewrite Hx). by apply IH.
    + rewrite filter_cons_True in Hfilter by done.
      unfold mbind, N_bind, bindN, act.
      destruct pre as [|p pre]; simpl in Hfilter; injection Hfilter as -> Hfilter.
      * rewrite app_nil_r in Herr. by rewrite Herr.
      * destruct Hacc as [Hok Hacc]. rewrite Hok.
        rewrite (IH (history ++ [p]) pre _ Hfilter Hacc)
          by (by rewrite <- app_assoc).
        cbn [disk journal]. by rewrite <- app_assoc.
Qed.

(** X18. [uploadDatabase] sends exactly the statements of the file: the
    pieces between the semicolons that are not blank, in their order.
    When the server accepts them all and the connection opens and closes
    without error, it returns [true], having touched no file. *)
Theorem uploadDatabase_sends_statements (env : Database.DbEnv)
    (c : Database.WPMMconfig) (settings : Database.ConnectionOptions)
    (sqlFilePath text : string) (s : sys) :
  lookup_path (disk s) (segs sqlFilePath) = Some (File (Bytes text)) →
  Database.getConnectionSettings env (Database.WP_config c) = inr settings →
  Database.connect_error env settings = None →
  Database.accepted env [] (Database.statements text) →
  Database.end_error env = None →
  Database.uploadDatabase env (Some c) sqlFilePath s =
  (Resolved Database.Done,
   Sys (disk s)
       (journal s ++ [Print NoteUploading; Connect]
        ++ (Query <$> Database.statements text)
        ++ [Print NoteUploaded; EndConnection; Print NoteConnectionClosed])).
Proof.
  intros Hfile Hsettings Hconnect Hacc Hend.
  assert (Hex : existsSync (disk s) sqlFilePath = true).
  { apply existsSync_true. rewrite Hfile. by eauto. }
  unfold Database.uploadDatabase, Database.end_connection, Database.readFileSync.
  unfold mbind, N_bind, bindN, try_catchN, print, act, get_disk at 1.
  cbn [disk journal]. rewrite Hex. cbn [negb]. rewrite Hsettings, Hconnect.
  unfold get_disk. cbn [disk journal]. rewrite Hfile.
  unfold mret, N_ret, resolveN.
  rewrite run_queries_accepted by exact Hacc.
  cbn [disk journal]. rewrite Hend. cbn [disk journal].
  unfold Database.statements. by rewrite <- !app_assoc.
Qed.

Lemma uploadDatabase_sends_statements_witness :
  Database.uploadDatabase (DemoDb.world None)
    (Some {| Database.WP_config := Some {| Database.DB_NAME := "wp" |} |})
    "/site/dump.sql"
    (DemoDb.with_sql "INSERT INTO t VALUES ('a;b'); ;UPDATE t SET x = 1;") =
  (Resolved Database.Done,
   Sys (disk (DemoDb.with_sql "INSERT INTO t VALUES ('a;b'); ;UPDATE t SET x = 1;"))
       (journal (DemoDb.with_sql "INSERT INTO t VALUES ('a;b'); ;UPDATE t SET x = 1;")
        ++ [Print NoteUploading; Connect]
        ++ (Query <$> Database.statements
                        "INSERT INTO t VALUES ('a;b'); ;UPDATE t SET x = 1;")
        ++ [Print NoteUploaded; EndConnection; Print NoteConnectionClosed]))
  ∧ Database.statements "INSERT INTO t VALUES ('a;b'); ;UPDATE t SET x = 1;"
    = ["INSERT INTO t VALUES ('a"; "b')"; "UPDATE t SET x = 1"].
Proof.
  split; [|vm_compute; reflexivity].
  apply (uploadDatabase_sends_statements (DemoDb.world None)
           {| Database.WP_config := Some {| Database.DB_NAME := "wp" |} |}
           {| Database.host := "db.example.test" |}
           "/site/dump.sql" "INSERT INTO t VALUES ('a;b'); ;UPDATE t SET x = 1;").
  - vm_compute. reflexivity.
  - reflexivity.
  - reflexivity.
  - vm_compute. tauto.
  - reflexivity.
Defined.

(** X19. When the server refuses a statement, [uploadDatabase] rejects
    with the server's message behind "Error updating plugins: "; the
    statements before it were sent, those after it are not, and the
    connection is not closed. *)
Theorem uploadDatabase_stops_at_refused_statement (env : Database.DbEnv)
    (c : Database.WPMMconfig) (settings : Database.ConnectionOptions)
    (sqlFilePath text : string) (pre post : list string) (q message : string)
    (s : sys) :
  lookup_path (disk s) (segs sqlFilePath) = Some (File (Bytes text)) →
  Database.getConnectionSettings env (Database.WP_config c) = inr settings →
  Database.connect_error env settings = None →
  Database.statements text = pre ++ q :: post →
  Database.accepted env [] pre →
  Database.query_error env pre q = Some message →
  Database.uploadDatabase env (Some c) sqlFilePath s =
  (Rejected ("Error updating plugins: " +:+ message),
   Sys (disk s)
       (journal s ++ [Print NoteUploading; Connect] ++ (Query <$> pre ++ [q]))).
Proof.
  intros Hfile Hsettings Hconnect Hstmts Hacc Herr.
  assert (Hex : existsSync (disk s) sqlFilePath = true).
  { apply existsSync_true. rewrite Hfile. by eauto. }
  unfold Database.uploadDatabase, Database.readFileSync.
  unfold mbind, N_bind, bindN, try_catchN, print, act, get_disk at 1.
  cbn [disk journal]. rewrite Hex. cbn [negb]. rewrite Hsettings, Hconnect.
  unfold get_disk. cbn [disk journal]. rewrite Hfile.
  unfold mret, N_ret, resolveN.
  rewrite (run_queries_refused env _ [] pre post q message _ Hstmts Hacc Herr).
  unfold rejectN. cbn [disk journal]. by rewrite <- !app_assoc.
Qed.

Lemma uploadDatabase_stops_at_refused_statement_witness :
  Database.uploadDatabase (DemoDb.world None)
    (Some {| Database.WP_config := Some {| Database.DB_NAME := "wp" |} |})
    "/site/dump.sql" (DemoDb.with_sql "SELECT 1;DROP TABLE t;SELECT 2") =
  (Rejected ("Error updating plugins: " +:+ "You have an error in your SQL syntax"),
   Sys (disk (DemoDb.with_sql "SELECT 1;DROP TABLE t;SELECT 2"))
       (journal (DemoDb.with_sql "SELECT 1;DROP TABLE t;SELECT 2")
        ++ [Print NoteUploading; Connect]
        ++ (Query <$> ["SELECT 1"] ++ ["DROP TABLE t"]))).
Proof.
  apply (uploadDatabase_stops_at_refused_statement (DemoDb.world None)
           {| Database.WP_config := Some {| Database.DB_NAME := "wp" |} |}
           {| Database.host := "db.example.test" |}
           "/site/dump.sql" "SELECT 1;DROP TABLE t;SELECT 2"
           ["SELECT 1"] ["SELECT 2"] "DROP TABLE t"
           "You have an error in your SQL syntax").
  - vm_compute. reflexivity.
  - reflexivity.
  - reflexivity.
  - vm_compute. reflexivity.
  - vm_compute. tauto.
  - vm_compute. reflexivity.
Defined.

Lemma run_queries_settles (env : Database.DbEnv) (queries history : list string)
    (s : sys) :
  fst (Database.run_queries env history queries s) = Resolved tt
  ∨ ∃ message, fst (Database.run_queries env history queries s) = Rejected message.
Proof.
  revert history s. induction queries as [|q queries IH]; intros history s.
  - by left.
  - cbn [Database.run_queries]. destruct (js_blank q); cbn [negb]; [apply IH|].
    unfold mbind, N_bind, bindN, act.
    destruct (Database.query_error env history q); [right; by eauto|apply IH].
Qed.

(** X20. [uploadDatabase] always settles, in one of three ways: it
    returns [true]; it returns an [Error] object, which happens exactly
    for a missing file or a missing configuration and before any
    connection is opened; or it rejects, with a message that begins with
    "Error updating plugins: ". *)
Theorem uploadDatabase_outcomes (env : Database.DbEnv)
    (config : option Database.WPMMconfig) (sqlFilePath : string) (s : sys) :
  match fst (Database.uploadDatabase env config sqlFilePath s) with
  | Resolved Database.Done =>
      existsSync (disk s) sqlFilePath = true ∧ is_Some config
  | Resolved (Database.ErrorValue message) =>
      (existsSync (disk s) sqlFilePath = false ∨ config = None)
      ∧ snd (Database.uploadDatabase env config sqlFilePath s)
        = Sys (disk s) (journal s ++ [Print NoteUploading])
  | Rejected error => ∃ message, error = "Error updating plugins: " +:+ message
  | Unsettled | OutOfFuel => False
  end.
Proof.
  unfold Database.uploadDatabase, Database.end_connection, Database.readFileSync.
  unfold mbind, N_bind, bindN, try_catchN, print, print_error, act, get_disk,
    mret, N_ret, resolveN, rejectN.
  simpl.
  destruct (existsSync (disk s) sqlFilePath) eqn:Hex; simpl; [|by auto].
  destruct config as [c|]; simpl; [|by auto].
  destruct (Database.getConnectionSettings env (Database.WP_config c))
    as [message|settings]; simpl; [by eauto|].
  destruct (Database.connect_error env settings); simpl; [by eauto|].
  destruct (lookup_path (disk s) (segs sqlFilePath)) as [[[entries|text]|]|];
    simpl; try (by eauto);
    match goal with
    | |- context [Database.run_queries env [] ?l ?s0] =>
        destruct (run_queries_settles env l [] s0) as [H|[m H]];
        destruct (Database.run_queries env [] l s0) as [[[]|e| |] s']
    end; simpl in H |- *; try done; try (by eauto);
    destruct (Database.end_error env); simpl; try (by eauto).
Qed.

(** X21. In [dumpDatabase] the file name is made before the configuration
    is looked at: without [WP_config] the call rejects with the TypeError
    of the name, having created no directory and printed nothing, and an
    [Error] object that [dumpDatabase] returns is always the error of
    mysqldump. *)
Theorem dumpDatabase_config_check_unreached (env : Database.DbEnv)
    (config : option Database.WPMMconfig) (basePath : string) (s : sys) :
  (config ≫= Database.WP_config = None →
   ∃ message, Database.dumpDatabase env config basePath s = (Rejected message, s))
  ∧ (∀ message,
       fst (Database.dumpDatabase env config basePath s)
         = Resolved (Database.ErrorValue message) →
       Database.dump_error env = Some message).
Proof.
  unfold Database.dumpDatabase, Database.dbDumpFilename.
  destruct config as [[[w|]]|]; simpl.
  2,3: split; [by eauto|done].
  split; [done|]. intros message.
  unfold mbind, N_bind, bindN, print, print_error, act, get_disk,
    set_disk, mret, N_ret, resolveN, rejectN. simpl.
  destruct (negb (existsSync (disk s) _)); simpl.
  - destruct (mkdirSync_recursive _ (disk s)); simpl; [|done].
    destruct (Database.getConnectionSettings env (Some w)); simpl; [done|].
    destruct (String.eqb _ "localhost"); simpl;
      destruct (Database.dump_error env); simpl; congruence.
  - destruct (Database.getConnectionSettings env (Some w)); simpl; [done|].
    destruct (String.eqb _ "localhost"); simpl;
      destruct (Database.dump_error env); simpl; congruence.
Qed.

Lemma dumpDatabase_config_check_unreached_witness :
  ∃ message,
    Database.dumpDatabase (DemoDb.world None) DemoDb.no_WP_config "/site"
      (Sys (files Demo.site) [])
    = (Rejected message, Sys (files Demo.site) []).
Proof.
  destruct (dumpDatabase_config_check_unreached (DemoDb.world None)
              DemoDb.no_WP_config "/site" (Sys (files Demo.site) [])) as [Hmissing _].
  apply Hmissing. reflexivity.
Defined.

Lemma existsSync_insert_mono (fs : gmap (list string) node) (k : list string)
    (v : node) (p : string) :
  existsSync fs p = true → existsSync (<[k := v]> fs) p = true.
Proof.
  rewrite !existsSync_true. apply lookup_path_mono. intros q Hq.
  destruct (decide (k = q)) as [->|Hne].
  - rewrite lookup_insert_eq. by eauto.
  - by rewrite lookup_insert_ne.
Qed.

(** X22. With a configuration and connection settings, and a backups
    directory that exists or can be made, [dumpDatabase] never rejects:
    the directory exists afterwards, and the call returns [true] with the
    dump file on disk, or, when mysqldump fails, an [Error] object with
    the message of mysqldump. *)
Theorem dumpDatabase_resolves (env : Database.DbEnv) (w : Database.WPconfig)
    (settings : Database.ConnectionOptions) (basePath : string) (s : sys) :
  Database.getConnectionSettings env (Some w) = inr settings →
  existsSync (disk s) (Database.dump_path basePath) = true
  ∨ is_Some (mkdirSync_recursive (Database.dump_path basePath) (disk s)) →
  existsSync
    (disk (snd (Database.dumpDatabase env
                  (Some {| Database.WP_config := Some w |}) basePath s)))
    (Database.dump_path basePath) = true
  ∧ match Database.dump_error env with
    | None =>
        fst (Database.dumpDatabase env
               (Some {| Database.WP_config := Some w |}) basePath s)
          = Resolved Database.Done
        ∧ existsSync
            (disk (snd (Database.dumpDatabase env
                          (Some {| Database.WP_config := Some w |}) basePath s)))
            (Database.dump_file env w basePath) = true
    | Some message =>
        fst (Database.dumpDatabase env
               (Some {| Database.WP_config := Some w |}) basePath s)
          = Resolved (Database.ErrorValue message)
    end.
Proof.
  intros Hsettings Hdir.
  unfold Database.dumpDatabase, Database.dbDumpFilename, Database.dump_file,
    Database.dump_path in *.
  unfold mbind, N_bind, bindN, print, print_error, act, get_disk,
    set_disk, mret, N_ret, resolveN, rejectN. simpl.
  rewrite Hsettings.
  set (dumpPath := path_join (path_join basePath "backups") "db") in *.
  destruct (existsSync (disk s) dumpPath) eqn:Hex; simpl.
  - destruct (String.eqb _ "localhost"); simpl;
      destruct (Database.dump_error env); simpl;
      repeat split; try done;
      first [by apply existsSync_insert_mono|apply existsSync_insert].
  - destruct Hdir as [Hdir|[fs' Hmk]]; [done|]. rewrite Hmk. simpl.
    assert (Hnew : existsSync fs' dumpPath = true).
    { unfold mkdirSync_recursive in Hmk. destruct (forallb _ _); [|done].
      injection Hmk as <-. apply existsSync_true, mkdirp_creates. }
    destruct (String.eqb _ "localhost"); simpl;
      destruct (Database.dump_error env); simpl;
      repeat split; try done;
      first [by apply existsSync_insert_mono|apply existsSync_insert].
Qed.

Lemma dumpDatabase_resolves_witness :
  existsSync
    (disk (snd (Database.dumpDatabase (DemoDb.world None)
                  (Some {| Database.WP_config := Some {| Database.DB_NAME := "wp" |} |})
                  "/site" (Sys (files Demo.site) []))))
    (Database.dump_path "/site") = true
  ∧ fst (Database.dumpDatabase (DemoDb.world None)
           (Some {| Database.WP_config := Some {| Database.DB_NAME := "wp" |} |})
           "/site" (Sys (files Demo.site) []))
    = Resolved Database.Done
  ∧ existsSync
      (disk (snd (Database.dumpDatabase (DemoDb.world None)
                    (Some {| Database.WP_config :=
                               Some {| Database.DB_NAME := "wp" |} |})
                    "/site" (Sys (files Demo.site) []))))
      (Database.dump_file (DemoDb.world None) {| Database.DB_NAME := "wp" |} "/site")
    = true.
Proof.
  apply (dumpDatabase_resolves (DemoDb.world None) {| Database.DB_NAME := "wp" |}
           {| Database.host := "db.example.test" |} "/site" (Sys (files Demo.site) [])).
  - reflexivity.
  - right. vm_compute. by eauto.
Defined.

(** ** Where the entries of an archive end up *)

Lemma write_entry_creates (dir : list string) (fs : gmap (list string) node)
    (e : entry) :
  is_Some (lookup_path (write_entry dir fs e) (dir ++ segs (fileName e))).
Proof.
  unfold write_entry. destruct (String.eqb _ _); [apply mkdirp_creates|].
  unfold lookup_path. destruct (dir ++ segs (fileName e)) eqn:Hd; [by eauto|].
  rewrite lookup_insert_eq. by eauto.
Qed.

Lemma unpack_entry_exists (dir : list string) (entries : list entry)
    (fs : gmap (list string) node) (e : entry) :
  e ∈ entries →
  is_Some (lookup_path (unpack dir entries fs) (dir ++ segs (fileName e))).
Proof.
  intros Hin. unfold unpack. generalize (mkdirp dir fs) as acc.
  assert (Hfold : ∀ es acc p, is_Some (lookup_path acc p) →
                   is_Some (lookup_path (fold_left (write_entry dir) es acc) p)).
  { induction es as [|x es IHes]; intros a p Hp; simpl; [done|].
    apply IHes. apply (lookup_path_mono a); [|done].
    intros k. apply write_entry_preserves. }
  induction entries as [|e' entries IH]; intros acc; [by apply not_elem_of_nil in Hin|].
  simpl. apply elem_of_cons in Hin as [->|Hin]; [|by apply IH].
  apply Hfold, write_entry_creates.
Qed.

(** X23. After an extraction that succeeds, every entry of the archive
    that is not below [__MACOSX/] is found at its path below the target
    directory. *)
Theorem extractZip_entries_exist (zipFilePath targetDirectory : string) (s : state)
    (entries : list entry) (e : entry) (root : string) :
  lookup_path (files s) (segs zipFilePath) = Some (File (Archive entries)) →
  fst (extractZip zipFilePath targetDirectory s) = Resolved root →
  e ∈ entries →
  macosx (fileName e) = false →
  existsSync (files (snd (extractZip zipFilePath targetDirectory s)))
             (path_join targetDirectory (fileName e)) = true.
Proof.
  intros Hzip. rewrite extractZip_run, Hzip.
  destruct (refused entries) eqn:Hgood; simpl; [done|]. intros _ He Hmac.
  apply existsSync_true. rewrite segs_path_join.
  by apply unpack_entry_exists, visited_elem_of.
Qed.

Lemma extractZip_entries_exist_witness :
  fst (extractZip Demo.zip_file "/site/temp"
         (Demo.staged [Entry "demo/" ""; Entry "__MACOSX/demo/._a.php" "m";
                       Entry "demo/src/a.php" "a"]))
    = Resolved "demo"
  ∧ existsSync
      (files (snd (extractZip Demo.zip_file "/site/temp"
                     (Demo.staged [Entry "demo/" ""; Entry "__MACOSX/demo/._a.php" "m";
                                   Entry "demo/src/a.php" "a"]))))
      (path_join "/site/temp" (fileName (Entry "demo/src/a.php" "a"))) = true.
Proof.
  split; [vm_compute; reflexivity|].
  apply (extractZip_entries_exist Demo.zip_file "/site/temp"
           (Demo.staged [Entry "demo/" ""; Entry "__MACOSX/demo/._a.php" "m";
                         Entry "demo/src/a.php" "a"])
           [Entry "demo/" ""; Entry "__MACOSX/demo/._a.php" "m";
            Entry "demo/src/a.php" "a"]
           (Entry "demo/src/a.php" "a") "demo").
  - vm_compute. reflexivity.
  - vm_compute. reflexivity.
  - right. right. by left.
  - vm_compute. reflexivity.
Defined.

(** What exists below the old path exists below the new path after a
    rename that succeeds. *)
Lemma renameSync_moves (oldPath newPath : string) (fs fs' : gmap (list string) node)
    (rest : list string) :
  renameSync oldPath newPath fs = Some fs' →
  is_Some (fs !! (segs oldPath ++ rest)) →
  is_Some (fs' !! (segs newPath ++ rest)).
Proof.
  unfold renameSync. intros Hren [v Hk].
  destruct (lookup_path fs (segs oldPath)) as [vo|]; [|done].
  destruct (lookup_path fs (removelast (segs newPath))) as [[]|]; try done.
  destruct (lookup_path fs (segs newPath)); [done|].
  destruct (bool_decide (segs oldPath `prefix_of` segs newPath)); [done|].
  injection Hren as <-.
  destruct (list_to_map (prod_map (rekey (segs oldPath) (segs newPath)) id
                           <$> map_to_list fs) !! (segs newPath ++ rest)) eqn:Hl;
    [by eauto|].
  apply not_elem_of_list_to_map in Hl. destruct Hl.
  apply list_elem_of_fmap. exists (segs newPath ++ rest, v). split; [done|].
  apply list_elem_of_fmap. exists (segs oldPath ++ rest, v). split.
  - unfold prod_map, rekey. simpl.
    rewrite bool_decide_eq_true_2 by apply prefix_app_r, reflexivity.
    by rewrite drop_app_length.
  - by apply elem_of_map_to_list.
Qed.

(** X24. Placement of a staged archive: when the archive of the package is
    in the staging directory, the extraction returns a root and [acquire]
    resolves for a URL that is no repository, every entry of the archive
    that lies below that root, and not below [__MACOSX/], is found at the
    same relative path below the package folder. *)
Theorem acquire_places_entries (env : Env) (fuel : nat) (this : Package)
    (packageUrl : string) (s : state) (entries : list entry) (e : entry)
    (root rest : string) :
  is_git packageUrl = false →
  lookup_path (files s)
    (segs (path_join (tempDir this) (name (pkgInfo this) +:+ ".zip")))
    = Some (File (Archive entries)) →
  fst (execDownload env (S fuel) this (name (pkgInfo this) +:+ ".zip") packageUrl s)
    = Resolved root →
  fst (acquire env (S fuel) this packageUrl (pkgFolder_of this) s) = Resolved tt →
  e ∈ entries →
  macosx (fileName e) = false →
  segs (fileName e) = segs root ++ segs rest →
  segs rest ≠ [] →
  existsSync (files (snd (acquire env (S fuel) this packageUrl (pkgFolder_of this) s)))
             (path_join (pkgFolder_of this) rest) = true.
Proof.
  unfold is_git. intros Hgit Hzip Hroot Hres He Hmac Hname Hrest.
  rewrite acquire_run, Hgit in Hres |- *.
  rewrite execDownload_run in Hroot, Hres |- *.
  assert (Hex : existsSync (files s)
                  (path_join (tempDir this) (name (pkgInfo this) +:+ ".zip")) = true).
  { apply existsSync_true. rewrite Hzip. by eauto. }
  rewrite (downloadFile_skips_existing env fuel packageUrl _ (State _ _) Hex)
    in Hroot, Hres |- *.
  rewrite extractZip_run in Hroot, Hres |- *. cbn [files trace] in Hroot, Hres |- *.
  rewrite Hzip in Hroot, Hres |- *.
  destruct (refused entries) eqn:Hgood; [done|].
  cbn [fst] in Hroot. injection Hroot as Hroot. rewrite Hroot in Hres |- *.
  rewrite renameFolder_run in Hres |- *. cbn [files trace] in Hres |- *.
  destruct (renameSync _ _ (unpack (segs (tempDir this)) (visited entries) (files s)))
    as [fs'|] eqn:Hren; [|done].
  cbn [snd files]. apply existsSync_true. rewrite segs_path_join.
  destruct (segs (pkgFolder_of this) ++ segs rest) as [|x l] eqn:Hl;
    [by destruct (segs (pkgFolder_of this)), (segs rest)|].
  simpl. rewrite <- Hl.
  apply (renameSync_moves _ _ _ _ (segs rest) Hren).
  rewrite segs_path_join, <- app_assoc, <- Hname.
  pose proof (unpack_entry_exists (segs (tempDir this)) (visited entries) (files s) e
                (visited_elem_of entries e Hgood He Hmac)) as Hu.
  destruct (segs (tempDir this) ++ segs (fileName e)) as [|y l'] eqn:Hk; [|done].
  apply app_eq_nil in Hk as [_ Hk]. rewrite Hname in Hk.
  apply app_eq_nil in Hk as [_ Hk]. done.
Qed.

Lemma acquire_places_entries_witness :
  existsSync
    (files (snd (acquire Demo.nothing_there 1 (Demo.plugin Demo.zip_url) Demo.zip_url
                   (pkgFolder_of (Demo.plugin Demo.zip_url))
                   (Demo.staged [Entry "demo-1.0/" ""; Entry "demo-1.0/inc/a.php" "a";
                                 Entry "__MACOSX/demo-1.0/inc/._a.php" "m"]))))
    (path_join (pkgFolder_of (Demo.plugin Demo.zip_url)) "inc/a.php") = true.
Proof.
  apply (acquire_places_entries Demo.nothing_there 0 (Demo.plugin Demo.zip_url)
           Demo.zip_url
           (Demo.staged [Entry "demo-1.0/" ""; Entry "demo-1.0/inc/a.php" "a";
                         Entry "__MACOSX/demo-1.0/inc/._a.php" "m"])
           [Entry "demo-1.0/" ""; Entry "demo-1.0/inc/a.php" "a";
            Entry "__MACOSX/demo-1.0/inc/._a.php" "m"]
           (Entry "demo-1.0/inc/a.php" "a") "demo-1.0" "inc/a.php").
  - vm_compute. reflexivity.
  - vm_compute. reflexivity.
  - vm_compute. reflexivity.
  - vm_compute. reflexivity.
  - right. by left.
  - vm_compute. reflexivity.
  - vm_compute. reflexivity.
  - vm_compute. discriminate.
Defined.

(** X25. After a clone that succeeds, the package folder holds every file
    of the repository at its path. *)
Theorem cloneRepo_places_tree (env : Env) (this : Package) (packageUrl : string)
    (s : state) (tree : list entry) (e : entry) :
  git_tree env packageUrl = Some tree →
  e ∈ tree →
  fst (cloneRepo env this packageUrl s) = Resolved (name (pkgInfo this))
  ∧ existsSync (files (snd (cloneRepo env this packageUrl s)))
               (path_join (pkgFolder_of this) (fileName e)) = true
  ∧ existsSync (files (snd (cloneRepo env this packageUrl s)))
               (pkgFolder_of this) = true.
Proof.
  intros Htree He. rewrite cloneRepo_run, Htree. cbn [fst snd files].
  split; [done|]. split; apply existsSync_true.
  - rewrite segs_path_join. unfold pkgFolder_of.
    rewrite segs_path_join, <- segs_app_slash. by apply unpack_entry_exists.
  - unfold pkgFolder_of. rewrite segs_path_join, <- segs_app_slash.
    apply unpack_creates.
Qed.

Lemma cloneRepo_places_tree_witness :
  fst (cloneRepo
         (Build_Env (λ _, NetworkError "") (λ _, Some [Entry "src/main.php" "x"])
                    (λ _ _, 0) (λ _, None) (λ _ _ _, ""))
         (Demo.plugin "https://example.test/demo.git")
         "https://example.test/demo.git" Demo.site)
    = Resolved (name (pkgInfo (Demo.plugin "https://example.test/demo.git")))
  ∧ existsSync
      (files (snd (cloneRepo
                     (Build_Env (λ _, NetworkError "")
                                (λ _, Some [Entry "src/main.php" "x"])
                                (λ _ _, 0) (λ _, None) (λ _ _ _, ""))
                     (Demo.plugin "https://example.test/demo.git")
                     "https://example.test/demo.git" Demo.site)))
      (path_join (pkgFolder_of (Demo.plugin "https://example.test/demo.git"))
                 (fileName (Entry "src/main.php" "x"))) = true
  ∧ existsSync
      (files (snd (cloneRepo
                     (Build_Env (λ _, NetworkError "")
                                (λ _, Some [Entry "src/main.php" "x"])
                                (λ _ _, 0) (λ _, None) (λ _ _ _, ""))
                     (Demo.plugin "https://example.test/demo.git")
                     "https://example.test/demo.git" Demo.site)))
      (pkgFolder_of (Demo.plugin "https://example.test/demo.git")) = true.
Proof.
  apply (cloneRepo_places_tree
           (Build_Env (λ _, NetworkError "") (λ _, Some [Entry "src/main.php" "x"])
                      (λ _ _, 0) (λ _, None) (λ _ _ _, ""))
           (Demo.plugin "https://example.test/demo.git")
           "https://example.test/demo.git" Demo.site
           [Entry "src/main.php" "x"] (Entry "src/main.php" "x")).
  - reflexivity.
  - by left.
Defined.
